(** * Tawsil storefront: the server handlers over the relational store

    A shallow embedding of [supabase/functions/server] (the Hono handlers)
    together with the tables and constraints of [schema.sql].

    - Identifiers (UUIDs) are natural numbers; a generated identifier is one
      that the table does not hold yet.
    - Integer columns ([stock], [quantity]) are [Z].  Monetary columns
      ([DECIMAL(10,2)]) are [Z] counts of hundredths; [parseFloat] and
      [parseInt] are the identity on such values, and binary floating point
      rounding is outside the model.
    - A table is the list of its rows in insertion order, which is also the
      order of [created_at].  The query builder is read as: [.eq] filters,
      [.single()] yields a row only when exactly one row is selected,
      [.update] rewrites every selected row, [.insert] appends, [.delete]
      removes the selected rows.
    - The store enforces what [schema.sql] declares for the columns the
      handlers write: the range of an INTEGER and of a DECIMAL(10,2), the
      CHECK and UNIQUE constraints, the references to [users], [products],
      [orders] and the provider's accounts, and the NOT NULL text columns of
      an address.  A rejected statement changes nothing and yields an error
      message.  Failures of the platform itself
      (network, quotas) are not modelled.
    - Each handler is a function from the request and the database to a
      response and the database it leaves behind; an exception that no
      handler catches is the framework's 500 response. *)

From Stdlib Require Import ZArith List String Ascii Bool Lia.
Import ListNotations.
Open Scope string_scope.
Open Scope list_scope.
Open Scope nat_scope.

Set Implicit Arguments.

(** ** Values *)

Definition uuid := nat.
Definition timestamp := string.
Definition money := Z.

Inductive result (A : Type) : Type :=
| Ok (a : A)
| Err (message : string).
Arguments Ok {A} a.
Arguments Err {A} message.

(** JSON values stored in [activity_logs.details]. *)
Inductive jval : Type :=
| JStr (s : string)
| JNum (z : Z)
| JId (u : uuid).

Definition json_object := list (string * jval).

(** [obj?.key]: [None] is JavaScript's [undefined]. *)
Fixpoint field (key : string) (obj : json_object) : option jval :=
  match obj with
  | [] => None
  | (k, v) :: rest => if String.eqb k key then Some v else field key rest
  end.

(** ** Strings as the handlers use them *)

Definition lower_ascii (c : ascii) : ascii :=
  let n := nat_of_ascii c in
  if (65 <=? n) && (n <=? 90) then ascii_of_nat (n + 32) else c.

(** [String.prototype.toLowerCase], on ASCII letters. *)
Fixpoint toLowerCase (s : string) : string :=
  match s with
  | EmptyString => EmptyString
  | String c rest => String (lower_ascii c) (toLowerCase rest)
  end.

Fixpoint drop (n : nat) (s : string) : string :=
  match n, s with
  | O, _ => s
  | S _, EmptyString => EmptyString
  | S m, String _ rest => drop m rest
  end.

(** [s.replace(pattern, replacement)] with a string pattern: the first
    occurrence only. *)
Fixpoint replace (pattern replacement s : string) : string :=
  if String.prefix pattern s
  then String.append replacement (drop (String.length pattern) s)
  else match s with
       | EmptyString => EmptyString
       | String c rest => String c (replace pattern replacement rest)
       end.

(** [s.includes(pattern)]. *)
Fixpoint includes (pattern s : string) : bool :=
  String.prefix pattern s ||
  match s with
  | EmptyString => false
  | String _ rest => includes pattern rest
  end.

(** [s.split('T')[0]]: the part before the first ['T']. *)
Fixpoint before_T (s : string) : string :=
  match s with
  | EmptyString => EmptyString
  | String c rest => if Ascii.eqb c "T"%char then EmptyString
                     else String c (before_T rest)
  end.

(** ** Rows of [schema.sql] *)

(** An account of the identity provider ([auth.users]). *)
Record auth_user : Type := mkAuthUser {
  au_id : uuid;
  au_email : string
}.

Record user_row : Type := mkUser {
  u_id : uuid;
  u_email : string;
  u_role : string;
  u_name : option string;
  u_phone : option string
}.

Record category_row : Type := mkCategory {
  c_id : uuid;
  c_name : string;
  c_description : option string
}.

Record product_row : Type := mkProduct {
  p_id : uuid;
  p_name : string;
  p_price : money;
  p_category_id : option uuid;
  p_stock : Z;
  p_updated_at : timestamp
}.

Record address_row : Type := mkAddress {
  a_id : uuid;
  a_user_id : uuid;
  a_name : string;
  a_street : string;
  a_city : string;
  a_state : string;
  a_postal_code : string;
  a_country : string;
  a_is_default : bool
}.

Record cart_row : Type := mkCart {
  ci_id : uuid;
  ci_user_id : uuid;
  ci_product_id : uuid;
  ci_quantity : Z
}.

Record wishlist_row : Type := mkWish {
  w_id : uuid;
  w_user_id : uuid;
  w_product_id : uuid
}.

Record order_row : Type := mkOrder {
  o_id : uuid;
  o_user_id : uuid;
  o_user_email : string;
  o_total : money;
  o_status : string;
  o_shipping_address : string;
  o_created_at : timestamp;
  o_updated_at : timestamp;
  o_updated_by : option uuid
}.

Record order_item_row : Type := mkOrderItem {
  oi_id : uuid;
  oi_order_id : uuid;
  oi_product_id : uuid;
  oi_name : string;
  oi_price : money;
  oi_quantity : Z
}.

Record log_row : Type := mkLog {
  l_id : uuid;
  l_type : string;
  l_user_id : option uuid;
  l_user_email : string;
  l_details : json_object;
  l_created_at : timestamp
}.

(** The database: the identity provider's accounts and issued bearer tokens,
    and the nine tables. *)
Record DB : Type := mkDB {
  accounts : list auth_user;
  sessions : list (string * uuid);
  users : list user_row;
  categories : list category_row;
  products : list product_row;
  addresses : list address_row;
  cart_items : list cart_row;
  wishlist_items : list wishlist_row;
  orders : list order_row;
  order_items : list order_item_row;
  activity_logs : list log_row
}.

Definition set_accounts (v : list auth_user) (db : DB) : DB :=
  mkDB v (sessions db) (users db) (categories db) (products db) (addresses db)
       (cart_items db) (wishlist_items db) (orders db) (order_items db)
       (activity_logs db).

Definition set_users (v : list user_row) (db : DB) : DB :=
  mkDB (accounts db) (sessions db) v (categories db) (products db)
       (addresses db) (cart_items db) (wishlist_items db) (orders db)
       (order_items db) (activity_logs db).

Definition set_products (v : list product_row) (db : DB) : DB :=
  mkDB (accounts db) (sessions db) (users db) (categories db) v (addresses db)
       (cart_items db) (wishlist_items db) (orders db) (order_items db)
       (activity_logs db).

Definition set_addresses (v : list address_row) (db : DB) : DB :=
  mkDB (accounts db) (sessions db) (users db) (categories db) (products db) v
       (cart_items db) (wishlist_items db) (orders db) (order_items db)
       (activity_logs db).

Definition set_cart_items (v : list cart_row) (db : DB) : DB :=
  mkDB (accounts db) (sessions db) (users db) (categories db) (products db)
       (addresses db) v (wishlist_items db) (orders db) (order_items db)
       (activity_logs db).

Definition set_orders (v : list order_row) (db : DB) : DB :=
  mkDB (accounts db) (sessions db) (users db) (categories db) (products db)
       (addresses db) (cart_items db) (wishlist_items db) v (order_items db)
       (activity_logs db).

Definition set_order_items (v : list order_item_row) (db : DB) : DB :=
  mkDB (accounts db) (sessions db) (users db) (categories db) (products db)
       (addresses db) (cart_items db) (wishlist_items db) (orders db) v
       (activity_logs db).

Definition set_activity_logs (v : list log_row) (db : DB) : DB :=
  mkDB (accounts db) (sessions db) (users db) (categories db) (products db)
       (addresses db) (cart_items db) (wishlist_items db) (orders db)
       (order_items db) v.

(** ** The query builder *)

(** [.single()]: the row when exactly one is selected, an error otherwise. *)
Definition single (A : Type) (rows : list A) : option A :=
  match rows with
  | [r] => Some r
  | _ => None
  end.

(** [.update(f)] restricted by the filters [sel]. *)
Definition update_where (A : Type) (sel : A -> bool) (f : A -> A)
  (rows : list A) : list A :=
  map (fun r => if sel r then f r else r) rows.

(** [.delete()] restricted by the filters [sel]. *)
Definition delete_where (A : Type) (sel : A -> bool) (rows : list A) : list A :=
  filter (fun r => negb (sel r)) rows.

(** [gen_random_uuid()]: an identifier the column does not hold. *)
Definition fresh_uuid (taken : list uuid) : uuid := S (list_max taken).

Definition has_user (uid : uuid) (db : DB) : bool :=
  existsb (fun u => u_id u =? uid) (users db).

Definition has_product (pid : uuid) (db : DB) : bool :=
  existsb (fun p => p_id p =? pid) (products db).

Definition has_order (oid : uuid) (db : DB) : bool :=
  existsb (fun o => o_id o =? oid) (orders db).

Definition check_violation : string := "new row violates check constraint".
Definition unique_violation : string :=
  "duplicate key value violates unique constraint".
Definition reference_violation : string :=
  "insert or update violates foreign key constraint".

(** The values a column can hold: an INTEGER, and a DECIMAL(10, 2) counted
    in hundredths (at most 99999999.99 either side of zero).  A statement
    that carries a value outside the range of its column is refused. *)
Definition integer_max : Z := 2147483647.
Definition decimal_max : Z := 9999999999.

Definition in_integer (n : Z) : bool :=
  (- integer_max - 1 <=? n)%Z && (n <=? integer_max)%Z.

Definition in_decimal (amount : Z) : bool :=
  (- decimal_max <=? amount)%Z && (amount <=? decimal_max)%Z.

Definition out_of_range : string := "value out of range".

Definition ignore_error (outcome : result DB) (db : DB) : DB :=
  match outcome with
  | Ok db' => db'
  | Err _ => db
  end.

(** ** The identity provider *)

(** [supabase.auth.getUser(token)]: the account the bearer token was issued
    to, if any. *)
Definition getUser (token : string) (db : DB) : option auth_user :=
  match find (fun s => String.eqb (fst s) token) (sessions db) with
  | None => None
  | Some (_, uid) => find (fun a => au_id a =? uid) (accounts db)
  end.

(** The provider's message for a taken email; the handlers only look for
    "already registered" in it. *)
Definition email_exists_message : string := "User already registered".

(** [supabase.auth.admin.createUser]. *)
Definition createUser (email : string) (db : DB) : result (auth_user * DB) :=
  if existsb (fun a => String.eqb (au_email a) email) (accounts db)
  then Err email_exists_message
  else let account := mkAuthUser (fresh_uuid (map au_id (accounts db))) email in
       Ok (account, set_accounts (accounts db ++ [account]) db).

(** [supabase.auth.admin.deleteUser], with the ON DELETE actions of the
    tables that reference the account's [users] row. *)
Definition deleteUser (uid : uuid) (db : DB) : DB :=
  let gone := map o_id (filter (fun o => o_user_id o =? uid) (orders db)) in
  let forget (by_user : option uuid) : option uuid :=
    match by_user with
    | Some u => if u =? uid then None else Some u
    | None => None
    end in
  mkDB (delete_where (fun a => au_id a =? uid) (accounts db))
       (delete_where (fun s => snd s =? uid) (sessions db))
       (delete_where (fun u => u_id u =? uid) (users db))
       (categories db)
       (products db)
       (delete_where (fun a => a_user_id a =? uid) (addresses db))
       (delete_where (fun c => ci_user_id c =? uid) (cart_items db))
       (delete_where (fun w => w_user_id w =? uid) (wishlist_items db))
       (map (fun o => mkOrder (o_id o) (o_user_id o) (o_user_email o)
                        (o_total o) (o_status o) (o_shipping_address o)
                        (o_created_at o) (o_updated_at o)
                        (forget (o_updated_by o)))
            (delete_where (fun o => o_user_id o =? uid) (orders db)))
       (delete_where (fun i => existsb (Nat.eqb (oi_order_id i)) gone)
                     (order_items db))
       (map (fun l => mkLog (l_id l) (l_type l) (forget (l_user_id l))
                        (l_user_email l) (l_details l) (l_created_at l))
            (activity_logs db)).

(** ** Statements against the tables, with the constraints of [schema.sql] *)

(** [users]: primary key [id], [email] UNIQUE, [role IN ('user','admin')],
    [id] references the provider's accounts. *)
Definition users_insert (row : user_row) (db : DB) : result DB :=
  if existsb (fun u => (u_id u =? u_id row)
                       || String.eqb (u_email u) (u_email row)) (users db)
  then Err unique_violation
  else if negb (String.eqb (u_role row) "user"
                || String.eqb (u_role row) "admin")
  then Err check_violation
  else if negb (existsb (fun a => au_id a =? u_id row) (accounts db))
  then Err reference_violation
  else Ok (set_users (users db ++ [row]) db).

(** [products.update({stock, updated_at}).eq('id', pid)]; [stock] is an
    INTEGER under [CHECK (stock >= 0)]. *)
Definition products_update_stock (pid : uuid) (stock : Z) (now : timestamp)
  (db : DB) : result DB :=
  if negb (in_integer stock)
  then Err out_of_range
  else if has_product pid db && (stock <? 0)%Z
  then Err check_violation
  else Ok (set_products
             (update_where (fun p => p_id p =? pid)
                (fun p => mkProduct (p_id p) (p_name p) (p_price p)
                            (p_category_id p) stock now)
                (products db)) db).

Definition valid_status (s : string) : bool :=
  existsb (String.eqb s)
    ["pending"; "processing"; "shipped"; "delivered"; "cancelled"].

(** [orders.insert(...).select().single()]; [total] is a DECIMAL(10, 2)
    under [CHECK (total >= 0)], with the status CHECK and the reference to
    [users]. *)
Definition orders_insert (user_id : uuid) (user_email : string) (total : money)
  (shipping_address status : string) (now : timestamp) (db : DB)
  : result (order_row * DB) :=
  if negb (in_decimal total)
  then Err out_of_range
  else if (total <? 0)%Z || negb (valid_status status)
  then Err check_violation
  else if negb (has_user user_id db)
  then Err reference_violation
  else let row := mkOrder (fresh_uuid (map o_id (orders db))) user_id
                    user_email total status shipping_address now now None in
       Ok (row, set_orders (orders db ++ [row]) db).

(** Identifiers for a batch of new rows. *)
Fixpoint number (A : Type) (next : uuid) (rows : list (uuid -> A)) : list A :=
  match rows with
  | [] => []
  | row :: rest => row next :: number (S next) rest
  end.

(** [order_items.insert(rows)]: one statement; [price] is a DECIMAL(10, 2)
    and [quantity] an INTEGER under [CHECK (quantity > 0)], with the
    references to [orders] and [products]. *)
Definition order_items_insert (rows : list (uuid -> order_item_row)) (db : DB)
  : result DB :=
  let new := number (fresh_uuid (map oi_id (order_items db))) rows in
  if existsb (fun r => negb (in_decimal (oi_price r))
                       || negb (in_integer (oi_quantity r))) new
  then Err out_of_range
  else if existsb (fun r => (oi_quantity r <=? 0)%Z) new
  then Err check_violation
  else if existsb (fun r => negb (has_order (oi_order_id r) db)
                            || negb (has_product (oi_product_id r) db)) new
  then Err reference_violation
  else Ok (set_order_items (order_items db ++ new) db).

(** [orders.update({status, updated_at, updated_by}).eq('id', oid)
    .select().single()], under the status CHECK. *)
Definition orders_update_status (oid : uuid) (status : string)
  (now : timestamp) (by_user : uuid) (db : DB) : result (order_row * DB) :=
  let sel := fun o => o_id o =? oid in
  if has_order oid db && negb (valid_status status)
  then Err check_violation
  else
    let rows := update_where sel
                  (fun o => mkOrder (o_id o) (o_user_id o) (o_user_email o)
                              (o_total o) status (o_shipping_address o)
                              (o_created_at o) now (Some by_user))
                  (orders db) in
    match single (filter sel rows) with
    | Some row => Ok (row, set_orders rows db)
    | None => Err "JSON object requested, multiple (or no) rows returned"
    end.

(** [activity_logs.insert(...)]; [user_id] references [users]. *)
Definition activity_logs_insert (type : string) (user_id : uuid)
  (user_email : string) (details : json_object) (now : timestamp) (db : DB)
  : result DB :=
  if negb (has_user user_id db)
  then Err reference_violation
  else Ok (set_activity_logs
             (activity_logs db ++
                [mkLog (fresh_uuid (map l_id (activity_logs db))) type
                   (Some user_id) user_email details now]) db).

(** [cart_items.update({quantity}).eq('id', id).select(...).single()];
    [quantity] is an INTEGER under [CHECK (quantity > 0)]. *)
Definition cart_items_update_quantity (id : uuid) (quantity : Z) (db : DB)
  : result (cart_row * DB) :=
  let sel := fun c => ci_id c =? id in
  if negb (in_integer quantity)
  then Err out_of_range
  else if existsb sel (cart_items db) && (quantity <=? 0)%Z
  then Err check_violation
  else
    let rows := update_where sel
                  (fun c => mkCart (ci_id c) (ci_user_id c) (ci_product_id c)
                              quantity)
                  (cart_items db) in
    match single (filter sel rows) with
    | Some row => Ok (row, set_cart_items rows db)
    | None => Err "JSON object requested, multiple (or no) rows returned"
    end.

(** [cart_items.insert(...).select(...).single()]; [quantity] is an INTEGER
    under [CHECK (quantity > 0)], with [UNIQUE(user_id, product_id)] and the
    references to [users] and [products]. *)
Definition cart_items_insert (user_id product_id : uuid) (quantity : Z)
  (db : DB) : result (cart_row * DB) :=
  if negb (in_integer quantity)
  then Err out_of_range
  else if (quantity <=? 0)%Z
  then Err check_violation
  else if existsb (fun c => (ci_user_id c =? user_id)
                            && (ci_product_id c =? product_id)) (cart_items db)
  then Err unique_violation
  else if negb (has_user user_id db) || negb (has_product product_id db)
  then Err reference_violation
  else let row := mkCart (fresh_uuid (map ci_id (cart_items db))) user_id
                    product_id quantity in
       Ok (row, set_cart_items (cart_items db ++ [row]) db).

(** The JSON body of the address endpoints: any subset of the writable
    columns. *)
Record address_data : Type := mkAddressData {
  ad_user_id : option uuid;
  ad_name : option string;
  ad_street : option string;
  ad_city : option string;
  ad_state : option string;
  ad_postal_code : option string;
  ad_country : option string;
  ad_is_default : option bool
}.

Definition or_else (A : Type) (given : option A) (default : A) : A :=
  match given with
  | Some v => v
  | None => default
  end.

(** [addresses.insert({...addressData, user_id}).select().single()]: the text
    columns are NOT NULL, [is_default] defaults to FALSE, [user_id]
    references [users]. *)
Definition addresses_insert (data : address_data) (user_id : uuid) (db : DB)
  : result (address_row * DB) :=
  match ad_name data, ad_street data, ad_city data, ad_state data,
        ad_postal_code data, ad_country data with
  | Some name, Some street, Some city, Some state, Some postal, Some country =>
      if negb (has_user user_id db)
      then Err reference_violation
      else let row := mkAddress (fresh_uuid (map a_id (addresses db))) user_id
                        name street city state postal country
                        (or_else (ad_is_default data) false) in
           Ok (row, set_addresses (addresses db ++ [row]) db)
  | _, _, _, _, _, _ => Err "null value violates not-null constraint"
  end.

Definition apply_address_data (data : address_data) (row : address_row)
  : address_row :=
  mkAddress (a_id row)
    (or_else (ad_user_id data) (a_user_id row))
    (or_else (ad_name data) (a_name row))
    (or_else (ad_street data) (a_street row))
    (or_else (ad_city data) (a_city row))
    (or_else (ad_state data) (a_state row))
    (or_else (ad_postal_code data) (a_postal_code row))
    (or_else (ad_country data) (a_country row))
    (or_else (ad_is_default data) (a_is_default row)).

(** [addresses.update(data).eq('id', id).eq('user_id', uid).select()
    .single()]. *)
Definition addresses_update (data : address_data) (id uid : uuid) (db : DB)
  : result (address_row * DB) :=
  let sel := fun a => (a_id a =? id) && (a_user_id a =? uid) in
  let referenced := match ad_user_id data with
                    | Some owner => has_user owner db
                    | None => true
                    end in
  if existsb sel (addresses db) && negb referenced
  then Err reference_violation
  else
    match single (map (apply_address_data data)
                    (filter sel (addresses db))) with
    | Some row => Ok (row, set_addresses
                             (update_where sel (apply_address_data data)
                                (addresses db)) db)
    | None => Err "JSON object requested, multiple (or no) rows returned"
    end.

(** ** Requests and responses *)

(** A line of an order request: [{productId, name, price, quantity}]. *)
Record line_item : Type := mkLine {
  productId : uuid;
  name : string;
  price : money;
  quantity : Z
}.

(** [{...order, items: order.order_items.map(...)}]. *)
Record order_view : Type := mkOrderView {
  ov_order : order_row;
  ov_order_items : list order_item_row;
  ov_items : list line_item
}.

Record statistics : Type := mkStatistics {
  st_totalRevenue : money;
  st_totalOrders : nat;
  st_pendingOrders : nat;
  st_completedOrders : nat;
  st_cancelledOrders : nat;
  st_totalProducts : nat;
  st_totalCategories : nat;
  st_totalUsers : nat
}.

Record analytics : Type := mkAnalytics {
  an_statistics : statistics;
  an_lowStockProducts : list product_row;
  an_recentOrders : list (order_row * list order_item_row);
  an_revenueChart : list (string * money)
}.

(** An entry of [GET /admin/logs]; [None] is an undefined property. *)
Record log_entry : Type := mkLogEntry {
  le_id : uuid;
  le_type : string;
  le_userId : option uuid;
  le_userEmail : string;
  le_timestamp : timestamp;
  le_orderId : option jval;
  le_totalAmount : option jval;
  le_itemCount : option jval;
  le_previousStatus : option jval;
  le_newStatus : option jval
}.

Inductive body : Type :=
| BError (error : string)
| BText (text : string)
| BSuccess
| BUser (user : user_row)
| BAddress (address : address_row)
| BItem (product : uuid) (amount : Z)
| BOrder (order : order_view)
| BAnalytics (report : analytics)
| BLogs (logs : list log_entry)
| BJson (json : string).

Record response : Type := mkResponse {
  status : nat;
  content : body
}.

(** The clock of a request: [new Date().toISOString()], and the same for the
    date [i] days earlier. *)
Record clock : Type := mkClock {
  now : timestamp;
  days_ago : nat -> timestamp
}.

(** ** Authentication and the role gate *)

Definition verifyUser (authorization : option string) (db : DB)
  : option auth_user :=
  match authorization with
  | None => None
  | Some authHeader =>
      if String.eqb authHeader ""
      then None
      else getUser (replace "Bearer " "" authHeader) db
  end.

Definition getOrCreateUserRecord (userId : uuid) (email : string) (db : DB)
  : result (user_row * DB) :=
  match single (filter (fun u => u_id u =? userId) (users db)) with
  | Some existingUser => Ok (existingUser, db)
  | None =>
      let role := if String.eqb (toLowerCase email) "admin@tawsil.com"
                  then "admin" else "user" in
      let newUser := mkUser userId email role None None in
      match users_insert newUser db with
      | Err message => Err message
      | Ok db' => Ok (newUser, db')
      end
  end.

Definition unauthorized : response := mkResponse 401 (BError "Unauthorized").
Definition forbidden : response :=
  mkResponse 403 (BError "Admin access required").
(** An exception that no handler catches: the framework's response. *)
Definition uncaught : response :=
  mkResponse 500 (BText "Internal Server Error").

(** The opening lines of every handler that calls [verifyUser]. *)
Definition with_user (authorization : option string) (db : DB)
  (handler : auth_user -> response * DB) : response * DB :=
  match verifyUser authorization db with
  | None => (unauthorized, db)
  | Some user => handler user
  end.

(** The opening lines of every handler that also tests the stored role. *)
Definition with_admin (authorization : option string) (db : DB)
  (handler : auth_user -> user_row -> DB -> response * DB) : response * DB :=
  with_user authorization db (fun user =>
    match getOrCreateUserRecord (au_id user) (au_email user) db with
    | Err _ => (uncaught, db)
    | Ok (userData, db1) =>
        if negb (String.eqb (u_role userData) "admin")
        then (forbidden, db1)
        else handler user userData db1
    end).

(** ** Handlers *)

(** [POST /server/signup] *)
Definition post_signup (email : string) (user_name : option string) (db : DB)
  : response * DB :=
  match createUser email db with
  | Err message =>
      if includes "already registered" message
      then (mkResponse 400 (BError "Email already registered"), db)
      else (mkResponse 400
              (BError (String.append "Failed to create auth user: " message)),
            db)
  | Ok (account, db1) =>
      let row := mkUser (au_id account) email "user" user_name None in
      match users_insert row db1 with
      | Err message =>
          let db2 := deleteUser (au_id account) db1 in
          if includes "relation" message || includes "does not exist" message
          then (mkResponse 500
                  (BError "Database not initialized. Please run schema.sql in your Supabase SQL Editor first."),
                db2)
          else (mkResponse 400 (BError message), db2)
      | Ok db2 => (mkResponse 201 (BUser row), db2)
      end
  end.

(** [POST /server/create-admin] *)
Definition post_create_admin (email : string) (user_name : option string)
  (db : DB) : response * DB :=
  match createUser email db with
  | Err message =>
      if includes "already registered" message
      then (mkResponse 400 (BError "User already exists"), db)
      else (mkResponse 400 (BError message), db)
  | Ok (account, db1) =>
      let row := mkUser (au_id account) email "admin" user_name None in
      match users_insert row db1 with
      | Err message => (mkResponse 400 (BError message), db1)
      | Ok db2 => (mkResponse 201 (BUser row), db2)
      end
  end.

(** [GET /server/user] *)
Definition get_user (authorization : option string) (db : DB)
  : response * DB :=
  with_user authorization db (fun user =>
    match getOrCreateUserRecord (au_id user) (au_email user) db with
    | Err _ => (uncaught, db)
    | Ok (userData, db1) => (mkResponse 200 (BUser userData), db1)
    end).

(** [POST /server/addresses] *)
Definition post_addresses (authorization : option string)
  (addressData : address_data) (db : DB) : response * DB :=
  with_user authorization db (fun user =>
    let db1 :=
      if or_else (ad_is_default addressData) false
      then set_addresses
             (update_where (fun a => a_user_id a =? au_id user)
                (fun a => apply_address_data
                            (mkAddressData None None None None None None None
                               (Some false)) a)
                (addresses db)) db
      else db in
    match addresses_insert addressData (au_id user) db1 with
    | Err message => (mkResponse 400 (BError message), db1)
    | Ok (data, db2) => (mkResponse 201 (BAddress data), db2)
    end).

(** [PUT /server/addresses/:id] *)
Definition put_address (authorization : option string) (addressId : uuid)
  (addressData : address_data) (db : DB) : response * DB :=
  with_user authorization db (fun user =>
    let db1 :=
      if or_else (ad_is_default addressData) false
      then set_addresses
             (update_where
                (fun a => (a_user_id a =? au_id user)
                          && negb (a_id a =? addressId))
                (fun a => apply_address_data
                            (mkAddressData None None None None None None None
                               (Some false)) a)
                (addresses db)) db
      else db in
    match addresses_update addressData addressId (au_id user) db1 with
    | Err message => (mkResponse 400 (BError message), db1)
    | Ok (data, db2) => (mkResponse 200 (BAddress data), db2)
    end).

(** [POST /server/cart] *)
Definition post_cart (authorization : option string) (product : uuid)
  (amount : Z) (db : DB) : response * DB :=
  with_user authorization db (fun user =>
    match single (filter (fun c => (ci_user_id c =? au_id user)
                                   && (ci_product_id c =? product))
                    (cart_items db)) with
    | Some existingItem =>
        match cart_items_update_quantity (ci_id existingItem)
                (ci_quantity existingItem + amount)%Z db with
        | Err message => (mkResponse 400 (BError message), db)
        | Ok (data, db1) =>
            (mkResponse 200 (BItem (ci_product_id data) (ci_quantity data)),
             db1)
        end
    | None =>
        match cart_items_insert (au_id user) product amount db with
        | Err message => (mkResponse 400 (BError message), db)
        | Ok (data, db1) =>
            (mkResponse 201 (BItem (ci_product_id data) (ci_quantity data)),
             db1)
        end
    end).

(** [parseFloat] of an amount, and [amount || 0]. *)
Definition parseFloat (amount : money) : money := amount.
Definition or_zero (amount : money) : money :=
  if (amount =? 0)%Z then 0%Z else amount.

(** [products.select('stock').eq('id', pid).single()] *)
Definition product_by_id (pid : uuid) (db : DB) : option product_row :=
  single (filter (fun p => p_id p =? pid) (products db)).

(** The loop over the lines of [POST /server/orders]: an early response, or
    none when every line passed; the database carries the decrements made so
    far either way. *)
Fixpoint reserve_stock (time : clock) (items : list line_item) (db : DB)
  : option response * DB :=
  match items with
  | [] => (None, db)
  | item :: rest =>
      match product_by_id (productId item) db with
      | None =>
          (Some (mkResponse 404
                   (BError (String.append "Product "
                              (String.append (name item) " not found")))),
           db)
      | Some product =>
          if (p_stock product <? quantity item)%Z
          then (Some (mkResponse 400
                        (BError (String.append "Insufficient stock for "
                                   (name item)))),
                db)
          else
            match products_update_stock (productId item)
                    (p_stock product - quantity item)%Z (now time) db with
            | Err _ =>
                (Some (mkResponse 400 (BError "Failed to update stock")), db)
            | Ok db1 => reserve_stock time rest db1
            end
      end
  end.

(** [order.order_items.map(item => ({productId, name, price, quantity}))] *)
Definition line_of (item : order_item_row) : line_item :=
  mkLine (oi_product_id item) (oi_name item) (oi_price item) (oi_quantity item).

(** An order with the [order_items] rows embedded by the select. *)
Definition view_order (order : order_row) (db : DB) : order_view :=
  let rows := filter (fun i => oi_order_id i =? o_id order) (order_items db) in
  mkOrderView order rows (map line_of rows).

(** [POST /server/orders] *)
Definition post_orders (time : clock) (authorization : option string)
  (items : list line_item) (total : money) (shippingAddress : string)
  (db : DB) : response * DB :=
  with_user authorization db (fun user =>
    match reserve_stock time items db with
    | (Some early, db1) => (early, db1)
    | (None, db1) =>
        match orders_insert (au_id user) (au_email user) (parseFloat total)
                shippingAddress "pending" (now time) db1 with
        | Err message => (mkResponse 400 (BError message), db1)
        | Ok (order, db2) =>
            let orderItems :=
              map (fun item id =>
                     mkOrderItem id (o_id order) (productId item) (name item)
                       (price item) (quantity item)) items in
            match order_items_insert orderItems db2 with
            | Err message => (mkResponse 400 (BError message), db2)
            | Ok db3 =>
                let itemCount :=
                  fold_left (fun sum i => (sum + quantity i)%Z) items 0%Z in
                let db4 :=
                  ignore_error
                    (activity_logs_insert "order_created" (au_id user)
                       (au_email user)
                       [("order_id", JId (o_id order));
                        ("total_amount", JNum (parseFloat total));
                        ("item_count", JNum itemCount)]
                       (now time) db3) db3 in
                let db5 :=
                  set_cart_items
                    (delete_where (fun c => ci_user_id c =? au_id user)
                       (cart_items db4)) db4 in
                match single (filter (fun o => o_id o =? o_id order)
                                (orders db5)) with
                | None => (uncaught, db5)
                | Some completeOrder =>
                    (mkResponse 201 (BOrder (view_order completeOrder db5)),
                     db5)
                end
            end
        end
    end).

(** The restocking loop of [PUT /server/orders/:id/status]; the outcome of
    each update is not inspected. *)
Fixpoint restock (time : clock) (lines : list order_item_row) (db : DB) : DB :=
  match lines with
  | [] => db
  | item :: rest =>
      match product_by_id (oi_product_id item) db with
      | Some product =>
          restock time rest
            (ignore_error
               (products_update_stock (oi_product_id item)
                  (p_stock product + oi_quantity item)%Z (now time) db) db)
      | None => restock time rest db
      end
  end.

(** [PUT /server/orders/:id/status] *)
Definition put_order_status (time : clock) (authorization : option string)
  (orderId : uuid) (new_status : string) (db : DB) : response * DB :=
  with_admin authorization db (fun user _ db1 =>
    match single (filter (fun o => o_id o =? orderId) (orders db1)) with
    | None => (mkResponse 404 (BError "Order not found"), db1)
    | Some order =>
        let previousStatus := o_status order in
        let db2 :=
          if String.eqb new_status "cancelled"
             && negb (String.eqb previousStatus "cancelled")
          then restock time (ov_order_items (view_order order db1)) db1
          else db1 in
        match orders_update_status orderId new_status (now time) (au_id user)
                db2 with
        | Err message => (mkResponse 400 (BError message), db2)
        | Ok (updatedOrder, db3) =>
            let db4 :=
              ignore_error
                (activity_logs_insert "order_status_updated" (au_id user)
                   (au_email user)
                   [("order_id", JId orderId);
                    ("previous_status", JStr previousStatus);
                    ("newStatus", JStr new_status)]
                   (now time) db3) db3 in
            (mkResponse 200 (BOrder (view_order updatedOrder db3)), db4)
        end
    end).

Definition is_cancelled (order : order_row) : bool :=
  String.eqb (o_status order) "cancelled".

(** The [totalRevenue] reduction of [GET /server/admin/analytics]. *)
Definition totalRevenue (rows : list order_row) : money :=
  fold_left
    (fun sum order =>
       if negb (is_cancelled order)
       then (sum + parseFloat (or_zero (o_total order)))%Z
       else sum)
    rows 0%Z.

(** The [dayRevenue] reduction for one calendar day. *)
Definition dayRevenue (dateStr : string) (rows : list order_row) : money :=
  fold_left
    (fun sum order =>
       if String.eqb (before_T (o_created_at order)) dateStr
          && negb (is_cancelled order)
       then (sum + parseFloat (or_zero (o_total order)))%Z
       else sum)
    rows 0%Z.

Definition count_status (wanted : string) (rows : list order_row) : nat :=
  List.length (filter (fun o => String.eqb (o_status o) wanted) rows).

(** What the analytics handler computes from the tables it has read.  Rows
    are stored in insertion order, so the newest ten are the first ten of the
    reversed table. *)
Definition analytics_of (time : clock) (db : DB) : analytics :=
  mkAnalytics
    (mkStatistics
       (totalRevenue (orders db))
       (List.length (orders db))
       (count_status "pending" (orders db))
       (count_status "delivered" (orders db))
       (count_status "cancelled" (orders db))
       (List.length (products db))
       (List.length (categories db))
       (List.length
          (filter (fun u => String.eqb (u_role u) "user") (users db))))
    (filter (fun p => (p_stock p <? 10)%Z) (products db))
    (map (fun order =>
            (order,
             filter (fun i => oi_order_id i =? o_id order) (order_items db)))
         (firstn 10 (rev (orders db))))
    (map (fun i => let dateStr := before_T (days_ago time i) in
                   (dateStr, dayRevenue dateStr (orders db)))
         [6; 5; 4; 3; 2; 1; 0]).

(** [GET /server/admin/analytics] *)
Definition get_admin_analytics (time : clock) (authorization : option string)
  (db : DB) : response * DB :=
  with_admin authorization db (fun _ _ db1 =>
    (mkResponse 200 (BAnalytics (analytics_of time db1)), db1)).

(** The projection of a log row in [GET /server/admin/logs]. *)
Definition transform_log (log : log_row) : log_entry :=
  mkLogEntry (l_id log) (l_type log) (l_user_id log) (l_user_email log)
    (l_created_at log)
    (field "order_id" (l_details log))
    (field "total_amount" (l_details log))
    (field "item_count" (l_details log))
    (field "previous_status" (l_details log))
    (field "new_status" (l_details log)).

Definition transformedLogs (db : DB) : list log_entry :=
  map transform_log (firstn 100 (rev (activity_logs db))).

(** [GET /server/admin/logs] *)
Definition get_admin_logs (authorization : option string) (db : DB)
  : response * DB :=
  with_admin authorization db (fun _ _ db1 =>
    (mkResponse 200 (BLogs (transformedLogs db1)), db1)).

(** ** The routes *)

Inductive call : Type :=
| PostSignup (email password : string) (user_name : option string)
| PostCreateAdmin (email password : string) (user_name : option string)
| GetUser
| GetUserRole
| PutUserProfile (json : string)
| GetUserAddresses
| GetAddresses
| PostAddresses (addressData : address_data)
| PutAddress (addressId : uuid) (addressData : address_data)
| DeleteAddress (addressId : uuid)
| GetCategories
| PostCategories (json : string)
| PutCategory (categoryId : uuid) (json : string)
| DeleteCategory (categoryId : uuid)
| GetProducts
| GetProduct (product : uuid)
| PostProducts (json : string)
| PutProduct (product : uuid) (json : string)
| DeleteProduct (product : uuid)
| GetCart
| PostCart (product : uuid) (amount : Z)
| PutCart (product : uuid) (json : string)
| DeleteCart (product : uuid)
| GetWishlist
| PostWishlist (json : string)
| DeleteWishlist (product : uuid)
| GetOrders
| GetAdminOrders
| PostOrders (items : list line_item) (total : money) (shippingAddress : string)
| PutOrderStatus (orderId : uuid) (new_status : string)
| GetAdminAnalytics
| GetAdminLogs.

(** The endpoints whose handler starts with [verifyUser]. *)
Definition verifies_user (request : call) : bool :=
  match request with
  | PostSignup _ _ _ | PostCreateAdmin _ _ _
  | GetCategories | GetProducts | GetProduct _ => false
  | _ => true
  end.

(** The endpoints whose handler goes on to test the stored role. *)
Definition admin_route (request : call) : bool :=
  match request with
  | PostCategories _ | PutCategory _ _ | DeleteCategory _
  | PostProducts _ | PutProduct _ _ | DeleteProduct _
  | GetAdminOrders | PutOrderStatus _ _
  | GetAdminAnalytics | GetAdminLogs => true
  | _ => false
  end.

(** The endpoints the specification exempts from the bearer token: signup
    and the public catalog reads. *)
Definition exempt_in_spec (request : call) : bool :=
  match request with
  | PostSignup _ _ _ | GetCategories | GetProducts | GetProduct _ => true
  | _ => false
  end.

Section Router.

(** The handlers analysed below are embedded in full.  Of the remaining
    handlers the model keeps the opening gate and leaves what follows it as
    a parameter: it receives the verified account, if the route asks for
    one, and the database. *)
Variable remaining : call -> option auth_user -> DB -> response * DB.

Definition handle (time : clock) (authorization : option string)
  (request : call) (db : DB) : response * DB :=
  match request with
  | PostSignup email _ user_name => post_signup email user_name db
  | PostCreateAdmin email _ user_name => post_create_admin email user_name db
  | GetUser => get_user authorization db
  | PostAddresses addressData => post_addresses authorization addressData db
  | PutAddress addressId addressData =>
      put_address authorization addressId addressData db
  | PostCart product amount => post_cart authorization product amount db
  | PostOrders items total shippingAddress =>
      post_orders time authorization items total shippingAddress db
  | PutOrderStatus orderId new_status =>
      put_order_status time authorization orderId new_status db
  | GetAdminAnalytics => get_admin_analytics time authorization db
  | GetAdminLogs => get_admin_logs authorization db
  | GetCategories | GetProducts | GetProduct _ => remaining request None db
  | GetUserRole | PutUserProfile _ | GetUserAddresses | GetAddresses
  | DeleteAddress _ | GetCart | PutCart _ _ | DeleteCart _
  | GetWishlist | PostWishlist _ | DeleteWishlist _ | GetOrders =>
      with_user authorization db (fun user =>
        remaining request (Some user) db)
  | PostCategories _ | PutCategory _ _ | DeleteCategory _
  | PostProducts _ | PutProduct _ _ | DeleteProduct _ | GetAdminOrders =>
      with_admin authorization db (fun user _ db1 =>
        remaining request (Some user) db1)
  end.

End Router.

(** ** The remaining handlers of the server

    The handlers below are embedded in full as well.  They answer with the
    listings and rows that [body] has no constructor for. *)

(** An item of [GET /server/cart]: [{productId, product, quantity}]. *)
Record cart_entry : Type := mkCartEntry {
  ce_productId : uuid;
  ce_product : product_row;
  ce_quantity : Z
}.

Inductive payload : Type :=
| PError (error : string)
| PText (text : string)
| PSuccess
| PUser (user : user_row)
| PAddresses (rows : list address_row)
| PCart (items : list cart_entry)
| PCartItem (item : cart_entry)
| PWish (product_id : uuid) (product : product_row) (addedAt : timestamp)
| POrders (rows : list order_view)
| PProduct (product : product_row) (category : string)
| PProducts (rows : list (product_row * string))
| PCategory (category : category_row).

Record answer : Type := mkAnswer {
  code : nat;
  sent : payload
}.

Definition denied : answer := mkAnswer 401 (PError "Unauthorized").
Definition admins_only : answer := mkAnswer 403 (PError "Admin access required").
Definition crashed : answer := mkAnswer 500 (PText "Internal Server Error").

(** The same opening lines as [with_user] and [with_admin], for handlers
    that answer with a [payload]. *)
Definition authenticated (authorization : option string) (db : DB)
  (handler : auth_user -> answer * DB) : answer * DB :=
  match verifyUser authorization db with
  | None => (denied, db)
  | Some user => handler user
  end.

Definition administrator (authorization : option string) (db : DB)
  (handler : auth_user -> user_row -> DB -> answer * DB) : answer * DB :=
  authenticated authorization db (fun user =>
    match getOrCreateUserRecord (au_id user) (au_email user) db with
    | Err _ => (crashed, db)
    | Ok (userData, db1) =>
        if negb (String.eqb (u_role userData) "admin")
        then (admins_only, db1)
        else handler user userData db1
    end).

(** [.order('is_default', {ascending: false}).order('created_at',
    {ascending: false})] over the addresses of one user. *)
Definition list_addresses (uid : uuid) (db : DB) : list address_row :=
  let newest_first := rev (filter (fun a => a_user_id a =? uid) (addresses db)) in
  filter a_is_default newest_first
  ++ filter (fun a => negb (a_is_default a)) newest_first.

(** [GET /server/addresses] (and, word for word, [GET /server/user/addresses]) *)
Definition get_addresses (authorization : option string) (db : DB)
  : answer * DB :=
  authenticated authorization db (fun user =>
    (mkAnswer 200 (PAddresses (list_addresses (au_id user) db)), db)).

(** [DELETE /server/addresses/:id] *)
Definition delete_address (authorization : option string) (addressId : uuid)
  (db : DB) : answer * DB :=
  authenticated authorization db (fun user =>
    (mkAnswer 200 PSuccess,
     set_addresses
       (delete_where (fun a => (a_id a =? addressId)
                               && (a_user_id a =? au_id user))
          (addresses db)) db)).

(** The rows of a cart with the product each one embeds; none when a row
    has no product to embed, where the handler's [item.product.id] throws. *)
Fixpoint cart_entries (rows : list cart_row) (db : DB)
  : option (list cart_entry) :=
  match rows with
  | [] => Some []
  | item :: rest =>
      match product_by_id (ci_product_id item) db, cart_entries rest db with
      | Some product, Some entries =>
          Some (mkCartEntry (p_id product) product (ci_quantity item) :: entries)
      | _, _ => None
      end
  end.

(** [GET /server/cart] *)
Definition get_cart (authorization : option string) (db : DB) : answer * DB :=
  authenticated authorization db (fun user =>
    match cart_entries (filter (fun c => ci_user_id c =? au_id user)
                          (cart_items db)) db with
    | Some items => (mkAnswer 200 (PCart items), db)
    | None => (crashed, db)
    end).



(** [DELETE /server/cart/:productId] *)
Definition delete_cart (authorization : option string) (product : uuid)
  (db : DB) : answer * DB :=
  authenticated authorization db (fun user =>
    (mkAnswer 200 PSuccess,
     set_cart_items
       (delete_where (fun c => (ci_user_id c =? au_id user)
                               && (ci_product_id c =? product))
          (cart_items db)) db)).

Definition set_wishlist_items (v : list wishlist_row) (db : DB) : DB :=
  mkDB (accounts db) (sessions db) (users db) (categories db) (products db)
       (addresses db) (cart_items db) v (orders db) (order_items db)
       (activity_logs db).

(** [wishlist_items.insert({user_id, product_id})], under
    [UNIQUE(user_id, product_id)] and the references to [users] and
    [products]. *)
Definition wishlist_items_insert (uid pid : uuid) (db : DB)
  : result (wishlist_row * DB) :=
  if existsb (fun w => (w_user_id w =? uid) && (w_product_id w =? pid))
       (wishlist_items db)
  then Err unique_violation
  else if negb (has_user uid db) || negb (has_product pid db)
  then Err reference_violation
  else let row := mkWish (fresh_uuid (map w_id (wishlist_items db))) uid pid in
       Ok (row, set_wishlist_items (wishlist_items db ++ [row]) db).

(** [POST /server/wishlist] *)
Definition post_wishlist (time : clock) (authorization : option string)
  (product : uuid) (db : DB) : answer * DB :=
  authenticated authorization db (fun user =>
    match wishlist_items_insert (au_id user) product db with
    | Err message => (mkAnswer 400 (PError message), db)
    | Ok (data, db1) =>
        match product_by_id (w_product_id data) db1 with
        | Some found => (mkAnswer 201 (PWish (p_id found) found (now time)), db1)
        | None => (crashed, db1)
        end
    end).

(** [DELETE /server/wishlist/:productId] *)
Definition delete_wishlist (authorization : option string) (product : uuid)
  (db : DB) : answer * DB :=
  authenticated authorization db (fun user =>
    (mkAnswer 200 PSuccess,
     set_wishlist_items
       (delete_where (fun w => (w_user_id w =? au_id user)
                               && (w_product_id w =? product))
          (wishlist_items db)) db)).

(** [GET /server/orders]: the caller's orders, newest first. *)
Definition get_orders (authorization : option string) (db : DB)
  : answer * DB :=
  authenticated authorization db (fun user =>
    (mkAnswer 200
       (POrders (map (fun order => view_order order db)
                   (rev (filter (fun o => o_user_id o =? au_id user)
                           (orders db))))),
     db)).

(** [GET /server/admin/orders]: every order, newest first. *)
Definition get_admin_orders (authorization : option string) (db : DB)
  : answer * DB :=
  administrator authorization db (fun _ _ db1 =>
    (mkAnswer 200
       (POrders (map (fun order => view_order order db1) (rev (orders db1)))),
     db1)).

Definition set_categories (v : list category_row) (db : DB) : DB :=
  mkDB (accounts db) (sessions db) (users db) v (products db) (addresses db)
       (cart_items db) (wishlist_items db) (orders db) (order_items db)
       (activity_logs db).

(** [p.category?.name || 'Uncategorized'] over the embedded category. *)
Definition category_label (product : product_row) (db : DB) : string :=
  match p_category_id product with
  | None => "Uncategorized"
  | Some cid =>
      match single (filter (fun c => c_id c =? cid) (categories db)) with
      | Some category =>
          if String.eqb (c_name category) "" then "Uncategorized"
          else c_name category
      | None => "Uncategorized"
      end
  end.

(** [GET /server/products]: every product, newest first; no token asked. *)
Definition get_products (db : DB) : answer * DB :=
  (mkAnswer 200
     (PProducts (map (fun p => (p, category_label p db)) (rev (products db)))),
   db).


(** [products.insert(...)]; [price] is a DECIMAL(10, 2) under
    [CHECK (price >= 0)] and [stock] an INTEGER under [CHECK (stock >= 0)],
    with the references to [categories] and [users]. *)
Definition products_insert (new_name : string) (new_price : money)
  (category_id : option uuid) (stock : Z) (created_by : uuid) (t : timestamp)
  (db : DB) : result (product_row * DB) :=
  if negb (in_decimal new_price) || negb (in_integer stock)
  then Err out_of_range
  else if (new_price <? 0)%Z || (stock <? 0)%Z
  then Err check_violation
  else if negb (has_user created_by db)
          || match category_id with
             | Some cid => negb (existsb (fun c => c_id c =? cid) (categories db))
             | None => false
             end
  then Err reference_violation
  else let row := mkProduct (fresh_uuid (map p_id (products db))) new_name
                    new_price category_id stock t in
       Ok (row, set_products (products db ++ [row]) db).

(** [POST /server/products] *)
Definition post_products (time : clock) (authorization : option string)
  (new_name : string) (new_price : money) (category : string) (stock : Z)
  (db : DB) : answer * DB :=
  administrator authorization db (fun user _ db1 =>
    let categoryData :=
      single (filter (fun c => String.eqb (c_name c) category) (categories db1)) in
    match products_insert new_name (parseFloat new_price)
            (option_map c_id categoryData) stock (au_id user) (now time) db1 with
    | Err message => (mkAnswer 400 (PError message), db1)
    | Ok (data, db2) =>
        (mkAnswer 201 (PProduct data (category_label data db2)), db2)
    end).

(** [products.delete().eq('id', pid)]: cart and wishlist rows of the product
    go with it (ON DELETE CASCADE); an order line of the product stops the
    statement, since [order_items.product_id] is NOT NULL and cannot take
    the NULL that its ON DELETE SET NULL asks for. *)
Definition products_delete (pid : uuid) (db : DB) : result DB :=
  if has_product pid db
     && existsb (fun i => oi_product_id i =? pid) (order_items db)
  then Err "null value in column product_id violates not-null constraint"
  else if has_product pid db
  then Ok (mkDB (accounts db) (sessions db) (users db) (categories db)
             (delete_where (fun p => p_id p =? pid) (products db))
             (addresses db)
             (delete_where (fun c => ci_product_id c =? pid) (cart_items db))
             (delete_where (fun w => w_product_id w =? pid) (wishlist_items db))
             (orders db) (order_items db) (activity_logs db))
  else Ok db.

(** [DELETE /server/products/:id] *)
Definition delete_product (authorization : option string) (product : uuid)
  (db : DB) : answer * DB :=
  administrator authorization db (fun _ _ db1 =>
    match products_delete product db1 with
    | Err message => (mkAnswer 400 (PError message), db1)
    | Ok db2 => (mkAnswer 200 PSuccess, db2)
    end).

(** [categories.insert({name, description})], under [name UNIQUE]. *)
Definition categories_insert (new_name : string) (description : option string)
  (db : DB) : result (category_row * DB) :=
  if existsb (fun c => String.eqb (c_name c) new_name) (categories db)
  then Err unique_violation
  else let row := mkCategory (fresh_uuid (map c_id (categories db))) new_name
                    description in
       Ok (row, set_categories (categories db ++ [row]) db).

(** [POST /server/categories] *)
Definition post_categories (authorization : option string) (new_name : string)
  (description : option string) (db : DB) : answer * DB :=
  administrator authorization db (fun _ _ db1 =>
    match categories_insert new_name description db1 with
    | Err message => (mkAnswer 400 (PError message), db1)
    | Ok (data, db2) => (mkAnswer 201 (PCategory data), db2)
    end).

(** [categories.delete().eq('id', cid)]: the products of the category stay,
    with [category_id] set to NULL (ON DELETE SET NULL). *)
Definition categories_delete (cid : uuid) (db : DB) : DB :=
  set_products
    (update_where
       (fun p => match p_category_id p with
                 | Some c => c =? cid
                 | None => false
                 end)
       (fun p => mkProduct (p_id p) (p_name p) (p_price p) None (p_stock p)
                   (p_updated_at p))
       (products db))
    (set_categories (delete_where (fun c => c_id c =? cid) (categories db)) db).

(** [DELETE /server/categories/:id] *)
Definition delete_category (authorization : option string) (categoryId : uuid)
  (db : DB) : answer * DB :=
  administrator authorization db (fun _ _ db1 =>
    (mkAnswer 200 PSuccess, categories_delete categoryId db1)).

(** ** The storefront's side of the requests *)

(** [ShoppingCart.tsx]: the lines and the total that [handleCheckout] sends
    for the cart it has fetched. *)
Definition orderItems (cartItems : list cart_entry) : list line_item :=
  map (fun item => mkLine (ce_productId item) (p_name (ce_product item))
                     (p_price (ce_product item)) (ce_quantity item))
    cartItems.

Definition calculateTotal (cartItems : list cart_entry) : money :=
  fold_left
    (fun sum item => (sum + p_price (ce_product item) * ce_quantity item)%Z)
    cartItems 0%Z.

(** [Orders.tsx]: the two tabs of the customer's order page. *)
Definition pendingOrders (shown : list order_view) : list order_view :=
  filter (fun o => existsb (String.eqb (o_status (ov_order o)))
                     ["pending"; "processing"; "shipped"]) shown.

Definition completedOrders (shown : list order_view) : list order_view :=
  filter (fun o => existsb (String.eqb (o_status (ov_order o)))
                     ["delivered"; "cancelled"]) shown.

(** [ProductDetail.tsx]: the quantity selector.  [Typed None] is an entry
    that [parseInt] turns into NaN. *)
Inductive selector_event : Type :=
| Minus
| Plus
| Typed (value : option Z).

Definition select_quantity (stock : Z) (current : Z) (event : selector_event)
  : Z :=
  match event with
  | Minus => Z.max 1 (current - 1)
  | Plus => Z.min stock (current + 1)
  | Typed value =>
      Z.max 1 (Z.min stock
                 (match value with
                  | Some n => if (n =? 0)%Z then 1%Z else n
                  | None => 1%Z
                  end))
  end.

(** The selector starts at 1. *)
Definition selected_quantity (stock : Z) (events : list selector_event) : Z :=
  fold_left (select_quantity stock) events 1%Z.

(** ** Invariants of the stored data *)

(** [CHECK (stock >= 0)] holds of every product. *)
Definition stocks_nonneg (db : DB) : Prop :=
  Forall (fun p => (0 <= p_stock p)%Z) (products db).

(** Every stored stock is what the column holds: an INTEGER under
    [CHECK (stock >= 0)]. *)
Definition stocks_in_range (db : DB) : Prop :=
  Forall (fun p => (0 <= p_stock p <= integer_max)%Z) (products db).

(** What [POST /orders] and the status update leave alone in a product. *)
Definition catalog (db : DB) : list (uuid * string * money * option uuid) :=
  map (fun p => (p_id p, p_name p, p_price p, p_category_id p)) (products db).

(** Every order line belongs to a stored order. *)
Definition lines_reference_orders (db : DB) : Prop :=
  Forall (fun line => has_order (oi_order_id line) db = true) (order_items db).

(** [UNIQUE(user_id, product_id)] on the wishlist. *)
Definition wishlist_unique (db : DB) : Prop :=
  forall uid pid,
    List.length
      (filter (fun w => (w_user_id w =? uid) && (w_product_id w =? pid))
         (wishlist_items db)) <= 1.

(** Every cart row names a stored product. *)
Definition cart_references_products (db : DB) : Prop :=
  Forall (fun c => has_product (ci_product_id c) db = true) (cart_items db).

(** ** Quantities the properties speak about *)

Definition sumZ (values : list Z) : Z := fold_right Z.add 0%Z values.

(** The stock the store holds for a product, if it has the product. *)
Definition stock_of (pid : uuid) (db : DB) : option Z :=
  option_map p_stock (product_by_id pid db).

(** What the lines of a request ask of one product, all lines together. *)
Definition requested (pid : uuid) (items : list line_item) : Z :=
  sumZ (map quantity (filter (fun i => productId i =? pid) items)).

(** What the lines of a stored order hold of one product. *)
Definition returned (pid : uuid) (lines : list order_item_row) : Z :=
  sumZ (map oi_quantity (filter (fun i => oi_product_id i =? pid) lines)).

(** The lines stored for an order. *)
Definition lines_of_order (oid : uuid) (db : DB) : list order_item_row :=
  filter (fun i => oi_order_id i =? oid) (order_items db).

(** Revenue as the specification words it: the sum of the totals of the
    orders that are not cancelled. *)
Definition revenue_in_spec (rows : list order_row) : money :=
  sumZ (map o_total (filter (fun o => negb (is_cancelled o)) rows)).

(** The sum over the lines of price times quantity. *)
Definition lines_total (items : list line_item) : money :=
  sumZ (map (fun i => (price i * quantity i)%Z) items).

(** The cart rows of one (user, product) pair. *)
Definition cart_rows_of (uid pid : uuid) (db : DB) : list cart_row :=
  filter (fun c => (ci_user_id c =? uid) && (ci_product_id c =? pid))
    (cart_items db).


(** The addresses of a user that are flagged as default. *)
Definition default_addresses (uid : uuid) (db : DB) : list address_row :=
  filter (fun a => (a_user_id a =? uid) && a_is_default a) (addresses db).

(** The addresses of a user. *)
Definition addresses_of (uid : uuid) (db : DB) : list address_row :=
  filter (fun a => a_user_id a =? uid) (addresses db).

(** The [users] rows mirror the provider's accounts: every row carries the
    identifier and the email of an account, and no two accounts share an
    email. *)
Definition accounts_mirrored (db : DB) : Prop :=
  NoDup (map au_email (accounts db))
  /\ (forall u, In u (users db) ->
                In (mkAuthUser (u_id u) (u_email u)) (accounts db)).

(** The stored CHECK constraints that restocking relies on. *)
Definition stock_checks (db : DB) : Prop :=
  (forall pid s, stock_of pid db = Some s -> (0 <= s)%Z)
  /\ (forall line, In line (order_items db) -> (0 < oi_quantity line)%Z).

(** Two databases that differ at most in the [products] table. *)
Definition only_products (db db' : DB) : Prop :=
  db' = set_products (products db') db.

(** The row written by [update({is_default: false})]. *)
Definition clear_default (row : address_row) : address_row :=
  apply_address_data
    (mkAddressData None None None None None None None (Some false)) row.

(** ** A sample database *)

Definition sample_clock : clock :=
  mkClock "2025-03-08T10:00:00.000Z"
    (fun i => match i with
              | 0 => "2025-03-08T10:00:00.000Z"
              | 1 => "2025-03-07T10:00:00.000Z"
              | 2 => "2025-03-06T10:00:00.000Z"
              | 3 => "2025-03-05T10:00:00.000Z"
              | 4 => "2025-03-04T10:00:00.000Z"
              | 5 => "2025-03-03T10:00:00.000Z"
              | _ => "2025-03-02T10:00:00.000Z"
              end).

(** Alice is a customer and root an administrator; Bob and the late-comer
    hold accounts but no [users] row yet. *)
Definition sample_db : DB :=
  mkDB
    [mkAuthUser 1 "alice@example.com"; mkAuthUser 2 "root@example.com";
     mkAuthUser 3 "bob@example.com"; mkAuthUser 4 "Admin@Tawsil.com"]
    [("tok-alice", 1); ("tok-root", 2); ("tok-bob", 3); ("tok-late", 4)]
    [mkUser 1 "alice@example.com" "user" (Some "Alice") None;
     mkUser 2 "root@example.com" "admin" None None]
    [mkCategory 5 "Tools" None]
    [mkProduct 10 "Widget" 250%Z (Some 5) 5%Z "2025-03-01T09:00:00.000Z";
     mkProduct 11 "Gadget" 1000%Z None 5%Z "2025-03-01T09:00:00.000Z"]
    [mkAddress 30 1 "Home" "1 Main St" "Springfield" "IL" "62701" "US" true;
     mkAddress 31 1 "Work" "9 Side St" "Springfield" "IL" "62701" "US" false]
    [mkCart 20 1 10 2%Z]
    []
    [mkOrder 40 1 "alice@example.com" 1500%Z "pending" "Home"
       "2025-03-07T08:00:00.000Z" "2025-03-07T08:00:00.000Z" None;
     mkOrder 41 1 "alice@example.com" 700%Z "cancelled" "Home"
       "2025-03-07T09:00:00.000Z" "2025-03-07T09:30:00.000Z" (Some 2)]
    [mkOrderItem 50 40 10 "Widget" 250%Z 2%Z;
     mkOrderItem 51 40 11 "Gadget" 1000%Z 1%Z;
     mkOrderItem 52 41 10 "Widget" 350%Z 2%Z]
    [].

(** A stand-in for the handler bodies that are left as a parameter. *)
Definition sample_remaining (request : call) (user : option auth_user)
  (db : DB) : response * DB :=
  (mkResponse 200 (BJson "{}"), db).

Definition three_widgets : line_item := mkLine 10 "Widget" 250%Z 3%Z.
Definition one_gadget : line_item := mkLine 11 "Gadget" 1000%Z 1%Z.
Definition nine_gadgets : line_item := mkLine 11 "Gadget" 1000%Z 9%Z.

(** The body [{is_default: true}]. *)
Definition make_default : address_data :=
  mkAddressData None None None None None None None (Some true).

Definition alice : auth_user := mkAuthUser 1 "alice@example.com".
Definition root : auth_user := mkAuthUser 2 "root@example.com".

(** A database in which the row of an account still holds the email the
    account had before: no account carries carol@example.com any more. *)
Definition stray_db : DB :=
  set_users [mkUser 1 "alice@example.com" "user" (Some "Alice") None;
             mkUser 2 "carol@example.com" "admin" None None]
    sample_db.

(** The sample database with the widgets at the largest stock an INTEGER
    holds. *)
Definition full_db : DB :=
  set_products
    [mkProduct 10 "Widget" 250%Z (Some 5) integer_max
       "2025-03-01T09:00:00.000Z";
     mkProduct 11 "Gadget" 1000%Z None 5%Z "2025-03-01T09:00:00.000Z"]
    sample_db.

(** The sample database with a default address of root's beside alice's. *)
Definition shared_db : DB :=
  set_addresses
    (addresses sample_db
     ++ [mkAddress 32 2 "Office" "2 High St" "Springfield" "IL" "62701" "US"
           true])
    sample_db.

(** The body [{user_id: <root>, is_default: true}]. *)
Definition hand_over : address_data :=
  mkAddressData (Some 2) None None None None None None (Some true).

(** A complete address that asks to be the default. *)
Definition depot : address_data :=
  mkAddressData None (Some "Depot") (Some "3 Low Rd") (Some "Springfield")
    (Some "IL") (Some "62701") (Some "US") (Some true).

(** The sample database with one more product, which no order names and
    which alice has in her cart and on her wishlist. *)
Definition spare_db : DB :=
  set_wishlist_items [mkWish 60 1 12]
    (set_cart_items [mkCart 20 1 10 2%Z; mkCart 21 1 12 1%Z]
       (set_products
          (products sample_db
           ++ [mkProduct 12 "Spare" 75%Z (Some 5) 4%Z
                 "2025-03-02T09:00:00.000Z"])
          sample_db)).

(** * Properties *)

(** ** The query builder *)

Lemma single_map (A B : Type) (f : A -> B) (rows : list A) :
  single (map f rows) = option_map f (single rows).
Proof.
  destruct rows as [|r [|r' rest]]; reflexivity.
Qed.

Lemma single_some (A : Type) (rows : list A) (r : A) :
  single rows = Some r -> rows = [r].
Proof.
  destruct rows as [|r0 [|r1 rest]]; simpl; intros H; try discriminate.
  now inversion H.
Qed.

Lemma filter_update_where (A : Type) (sel sel' : A -> bool) (f : A -> A)
  (rows : list A) :
  (forall r, sel (f r) = sel r) ->
  filter sel (update_where sel' f rows)
  = update_where sel' f (filter sel rows).
Proof.
  intros Hkeep. unfold update_where.
  induction rows as [|r rows IH]; simpl; [reflexivity|].
  destruct (sel' r) eqn:Hr.
  - rewrite Hkeep. destruct (sel r); simpl; [rewrite Hr|]; now rewrite IH.
  - destruct (sel r); simpl; [rewrite Hr|]; now rewrite IH.
Qed.

Lemma update_where_all (A : Type) (sel : A -> bool) (f : A -> A)
  (rows : list A) :
  (forall r, In r rows -> sel r = true) ->
  update_where sel f rows = map f rows.
Proof.
  intros Hall. unfold update_where. apply map_ext_in.
  intros r Hr. now rewrite (Hall r Hr).
Qed.

Lemma update_where_none (A : Type) (sel : A -> bool) (f : A -> A)
  (rows : list A) :
  (forall r, In r rows -> sel r = false) ->
  update_where sel f rows = rows.
Proof.
  intros Hnone. unfold update_where.
  rewrite <- (map_id rows) at 2. apply map_ext_in.
  intros r Hr. now rewrite (Hnone r Hr).
Qed.

Lemma update_where_length (A : Type) (sel : A -> bool) (f : A -> A)
  (rows : list A) :
  List.length (update_where sel f rows) = List.length rows.
Proof.
  unfold update_where. apply length_map.
Qed.

Lemma existsb_update_where (A : Type) (sel sel' : A -> bool) (f : A -> A)
  (rows : list A) :
  (forall r, sel (f r) = sel r) ->
  existsb sel (update_where sel' f rows) = existsb sel rows.
Proof.
  intros Hkeep. unfold update_where.
  induction rows as [|r rows IH]; simpl; [reflexivity|].
  rewrite IH. destruct (sel' r); [rewrite Hkeep|]; reflexivity.
Qed.

Lemma fresh_uuid_new (taken : list uuid) (id : uuid) :
  In id taken -> id <> fresh_uuid taken.
Proof.
  intros Hin Heq. unfold fresh_uuid in Heq.
  assert (Hle : list_max taken <= list_max taken) by lia.
  apply list_max_le in Hle.
  rewrite Forall_forall in Hle. specialize (Hle id Hin). lia.
Qed.

Lemma filter_fresh (A : Type) (key : A -> uuid) (rows : list A) :
  filter (fun r => key r =? fresh_uuid (map key rows)) rows = [].
Proof.
  assert (H : forall r, In r rows -> key r <> fresh_uuid (map key rows)).
  { intros r Hr. apply fresh_uuid_new. now apply in_map. }
  revert H. generalize (fresh_uuid (map key rows)) as id.
  induction rows as [|r rows IH]; intros id H; simpl; [reflexivity|].
  destruct (Nat.eqb_spec (key r) id) as [Heq|_].
  - exfalso. apply (H r); [now left|exact Heq].
  - apply IH. intros r' Hr'. apply H. now right.
Qed.

(** ** Stock bookkeeping *)

Lemma only_products_refl (db : DB) : only_products db db.
Proof. now destruct db. Qed.

Lemma only_products_trans (db1 db2 db3 : DB) :
  only_products db1 db2 -> only_products db2 db3 -> only_products db1 db3.
Proof.
  unfold only_products. intros H12 H23. rewrite H23, H12.
  now destruct db1.
Qed.

Lemma products_update_stock_frame (pid : uuid) (stock : Z) (t : timestamp)
  (db db' : DB) :
  products_update_stock pid stock t db = Ok db' -> only_products db db'.
Proof.
  unfold products_update_stock.
  destruct (negb (in_integer stock)); [discriminate|].
  destruct (has_product pid db && (stock <? 0)%Z); [discriminate|].
  intros H. inversion H. now destruct db.
Qed.

Lemma stock_of_update (pid q : uuid) (stock : Z) (t : timestamp)
  (db db' : DB) :
  products_update_stock q stock t db = Ok db' ->
  stock_of pid db'
  = if pid =? q then option_map (fun _ => stock) (stock_of pid db)
    else stock_of pid db.
Proof.
  unfold products_update_stock.
  destruct (negb (in_integer stock)); [discriminate|].
  destruct (has_product q db && (stock <? 0)%Z); [discriminate|].
  intros H. inversion H; subst db'; clear H.
  unfold stock_of, product_by_id. simpl.
  rewrite filter_update_where by reflexivity.
  destruct (Nat.eqb_spec pid q) as [->|Hne].
  - rewrite update_where_all.
    + rewrite single_map.
      now destruct (single (filter (fun p => p_id p =? q) (products db))).
    + intros r Hr. now apply filter_In in Hr.
  - rewrite update_where_none; [reflexivity|].
    intros r Hr. apply filter_In in Hr. destruct Hr as [_ Hr].
    apply Nat.eqb_eq in Hr. apply Nat.eqb_neq. congruence.
Qed.

Lemma has_product_update (pid q : uuid) (stock : Z) (t : timestamp)
  (db db' : DB) :
  products_update_stock q stock t db = Ok db' ->
  has_product pid db' = has_product pid db.
Proof.
  unfold products_update_stock.
  destruct (negb (in_integer stock)); [discriminate|].
  destruct (has_product q db && (stock <? 0)%Z); [discriminate|].
  intros H. inversion H; subst db'; clear H.
  unfold has_product. simpl. now apply existsb_update_where.
Qed.

Lemma stock_of_has_product (pid : uuid) (db : DB) (s : Z) :
  stock_of pid db = Some s -> has_product pid db = true.
Proof.
  unfold stock_of, product_by_id, has_product. intros H.
  destruct (single _) as [p|] eqn:Hp; [|discriminate].
  apply single_some in Hp.
  apply existsb_exists. exists p.
  assert (Hin : In p (filter (fun p0 => p_id p0 =? pid) (products db)))
    by (rewrite Hp; now left).
  now apply filter_In in Hin.
Qed.

Lemma stock_of_product (pid : uuid) (db : DB) (s : Z) :
  stock_of pid db = Some s ->
  exists p, product_by_id pid db = Some p /\ p_stock p = s.
Proof.
  unfold stock_of. destruct (product_by_id pid db) as [p|]; simpl;
    intros H; [|discriminate].
  exists p. split; congruence.
Qed.

Lemma in_integer_range (n : Z) :
  in_integer n = true <-> (- integer_max - 1 <= n <= integer_max)%Z.
Proof.
  unfold in_integer. rewrite andb_true_iff, !Z.leb_le. reflexivity.
Qed.

Lemma in_decimal_range (amount : Z) :
  in_decimal amount = true <-> (- decimal_max <= amount <= decimal_max)%Z.
Proof.
  unfold in_decimal. rewrite andb_true_iff, !Z.leb_le. reflexivity.
Qed.

Lemma in_integer_within (n : Z) :
  (0 <= n <= integer_max)%Z -> in_integer n = true.
Proof.
  intros Hn. apply in_integer_range. unfold integer_max in *. lia.
Qed.

Lemma in_decimal_within (amount : Z) :
  (0 <= amount <= decimal_max)%Z -> in_decimal amount = true.
Proof.
  intros Hn. apply in_decimal_range. unfold decimal_max in *. lia.
Qed.

(** A stock that is a non-negative INTEGER is accepted. *)
Lemma products_update_stock_accepts (pid : uuid) (stock : Z) (t : timestamp)
  (db : DB) :
  (0 <= stock <= integer_max)%Z ->
  exists db', products_update_stock pid stock t db = Ok db'.
Proof.
  intros Hpos. unfold products_update_stock.
  rewrite in_integer_within by exact Hpos. simpl.
  destruct (Z.ltb_spec stock 0); [lia|].
  rewrite andb_false_r. eauto.
Qed.

(** A stock that is negative or no INTEGER is refused for a stored product. *)
Lemma products_update_stock_refuses (pid : uuid) (stock : Z) (t : timestamp)
  (db : DB) :
  has_product pid db = true ->
  (stock < 0 \/ integer_max < stock)%Z ->
  exists message, products_update_stock pid stock t db = Err message.
Proof.
  intros Hhas Hout. unfold products_update_stock.
  destruct (in_integer stock) eqn:Hin; simpl; [|eauto].
  apply in_integer_range in Hin. rewrite Hhas.
  destruct (Z.ltb_spec stock 0); simpl; [eauto|lia].
Qed.

Lemma requested_cons (pid : uuid) (item : line_item) (rest : list line_item) :
  requested pid (item :: rest)
  = ((if Nat.eqb (productId item) pid then quantity item else 0)
     + requested pid rest)%Z.
Proof.
  unfold requested. simpl. now destruct (productId item =? pid).
Qed.

Lemma requested_nonneg (pid : uuid) (items : list line_item) :
  (forall item, In item items -> (0 <= quantity item)%Z) ->
  (0 <= requested pid items)%Z.
Proof.
  induction items as [|item rest IH]; intros Hpos.
  - unfold requested. simpl. lia.
  - rewrite requested_cons.
    assert (0 <= quantity item)%Z by (apply Hpos; now left).
    assert (0 <= requested pid rest)%Z
      by (apply IH; intros; apply Hpos; now right).
    destruct (productId item =? pid); lia.
Qed.

Lemma requested_absent (pid : uuid) (items : list line_item) :
  (forall l, In l items -> productId l <> pid) -> requested pid items = 0%Z.
Proof.
  induction items as [|item rest IH]; intros Habsent.
  - reflexivity.
  - rewrite requested_cons, IH by (intros; apply Habsent; now right).
    destruct (Nat.eqb_spec (productId item) pid) as [Heq|_]; [|reflexivity].
    exfalso. apply (Habsent item); [now left|exact Heq].
Qed.

Lemma requested_single (items : list line_item) (item : line_item) :
  NoDup (map productId items) -> In item items ->
  requested (productId item) items = quantity item.
Proof.
  induction items as [|a rest IH]; intros Hdistinct Hin; [contradiction|].
  simpl in Hdistinct. apply NoDup_cons_iff in Hdistinct.
  destruct Hdistinct as [Hnew Hdistinct].
  rewrite requested_cons. destruct Hin as [->|Hin].
  - rewrite Nat.eqb_refl, requested_absent; [lia|].
    intros l Hl Heq. apply Hnew. rewrite <- Heq. now apply in_map.
  - destruct (Nat.eqb_spec (productId a) (productId item)) as [Heq|_].
    + exfalso. apply Hnew. rewrite Heq. now apply in_map.
    + rewrite IH by assumption. lia.
Qed.

(** The loop changes nothing but [products], whatever it answers. *)
Lemma reserve_stock_frame (time : clock) (items : list line_item) :
  forall db, only_products db (snd (reserve_stock time items db)).
Proof.
  induction items as [|item rest IH]; intros db; simpl.
  - apply only_products_refl.
  - destruct (product_by_id (productId item) db) as [product|];
      [|apply only_products_refl].
    destruct (p_stock product <? quantity item)%Z; [apply only_products_refl|].
    destruct (products_update_stock _ _ _ db) as [db1|] eqn:Hup;
      [|apply only_products_refl].
    eapply only_products_trans; [|apply IH].
    eapply products_update_stock_frame; eassumption.
Qed.

(** When, product by product, the lines together ask for no more than the
    stock, which is an INTEGER, every line passes and each product ends with
    its stock less what was asked of it. *)
Lemma reserve_stock_passes (time : clock) (items : list line_item) :
  forall db,
    (forall item, In item items -> (0 <= quantity item)%Z) ->
    (forall item, In item items ->
       exists s, stock_of (productId item) db = Some s
                 /\ (requested (productId item) items <= s <= integer_max)%Z) ->
    exists db',
      reserve_stock time items db = (None, db')
      /\ (forall pid, stock_of pid db'
                      = option_map (fun s => (s - requested pid items)%Z)
                          (stock_of pid db))
      /\ (forall pid, has_product pid db' = has_product pid db).
Proof.
  induction items as [|item rest IH]; intros db Hpos Hstock.
  - exists db. split; [reflexivity|]. split; [|reflexivity].
    intros pid. unfold requested. simpl.
    destruct (stock_of pid db); simpl; [f_equal; lia|reflexivity].
  - destruct (Hstock item (or_introl eq_refl)) as (s & Hs & Hle).
    rewrite requested_cons, Nat.eqb_refl in Hle.
    assert (Hq : (0 <= quantity item)%Z) by (apply Hpos; now left).
    assert (Hrest : (0 <= requested (productId item) rest)%Z).
    { apply requested_nonneg. intros; apply Hpos; now right. }
    destruct (stock_of_product _ _ Hs) as (p & Hp & Hps).
    destruct (@products_update_stock_accepts (productId item)
                (s - quantity item)%Z (now time) db) as (db1 & Hup); [lia|].
    assert (Hnext : forall pid,
      stock_of pid db1
      = if pid =? productId item
        then option_map (fun _ => (s - quantity item)%Z) (stock_of pid db)
        else stock_of pid db)
      by (intros pid; eapply stock_of_update; eassumption).
    destruct (IH db1) as (db' & Hrun & Hfinal & Hhas).
    + intros; apply Hpos; now right.
    + intros item' Hin'.
      destruct (Hstock item' (or_intror Hin')) as (s' & Hs' & Hle').
      rewrite requested_cons in Hle'. rewrite Hnext.
      destruct (Nat.eqb_spec (productId item') (productId item)) as [Heq|Hne].
      * rewrite Heq in *. rewrite Hs. simpl.
        exists (s - quantity item)%Z. split; [reflexivity|].
        rewrite Nat.eqb_refl in Hle'. rewrite Hs in Hs'. inversion Hs'. lia.
      * exists s'. split; [exact Hs'|].
        destruct (Nat.eqb_spec (productId item) (productId item'));
          [congruence|lia].
    + exists db'. split.
      * simpl. rewrite Hp, Hps.
        destruct (Z.ltb_spec s (quantity item)); [lia|].
        now rewrite Hup.
      * split.
        -- intros pid. rewrite Hfinal, Hnext, requested_cons.
           destruct (Nat.eqb_spec pid (productId item)) as [->|Hne].
           ++ rewrite Nat.eqb_refl, Hs. simpl. f_equal. lia.
           ++ destruct (Nat.eqb_spec (productId item) pid); [congruence|].
              destruct (stock_of pid db); simpl; [f_equal; lia|reflexivity].
        -- intros pid. rewrite Hhas.
           eapply has_product_update; eassumption.
Qed.

Lemma only_products_tables (db db' : DB) :
  only_products db db' ->
  accounts db' = accounts db /\ sessions db' = sessions db
  /\ users db' = users db /\ addresses db' = addresses db
  /\ cart_items db' = cart_items db /\ orders db' = orders db
  /\ order_items db' = order_items db
  /\ activity_logs db' = activity_logs db.
Proof.
  unfold only_products. intros H. rewrite H. simpl. repeat split.
Qed.

Lemma map_number (A B C : Type) (f : A -> uuid -> B) (g : B -> C) (h : A -> C)
  (items : list A) :
  (forall item id, g (f item id) = h item) ->
  forall next, map g (number next (map f items)) = map h items.
Proof.
  intros Hgf. induction items as [|item rest IH]; intros next; simpl.
  - reflexivity.
  - now rewrite Hgf, IH.
Qed.

Lemma in_number (A B : Type) (f : A -> uuid -> B) (items : list A) :
  forall next row,
    In row (number next (map f items)) ->
    exists item id, In item items /\ row = f item id.
Proof.
  induction items as [|item rest IH]; intros next row Hin; simpl in Hin.
  - contradiction.
  - destruct Hin as [<-|Hin].
    + exists item, next. split; [now left|reflexivity].
    + destruct (IH _ _ Hin) as (item' & id & Hin' & ->).
      exists item', id. split; [now right|reflexivity].
Qed.

Lemma existsb_map (A B : Type) (f : A -> B) (p : B -> bool) (rows : list A) :
  existsb p (map f rows) = existsb (fun r => p (f r)) rows.
Proof.
  induction rows as [|r rows IH]; simpl; [reflexivity|now rewrite IH].
Qed.

Lemma existsb_as_map (A : Type) (p : A -> bool) (rows : list A) :
  existsb p rows = existsb (fun b : bool => b) (map p rows).
Proof.
  now rewrite existsb_map.
Qed.

Lemma existsb_none (A : Type) (p : A -> bool) (rows : list A) :
  (forall r, In r rows -> p r = false) -> existsb p rows = false.
Proof.
  intros Hnone. induction rows as [|r rows IH]; simpl; [reflexivity|].
  rewrite Hnone by now left. apply IH. intros; apply Hnone; now right.
Qed.

Lemma line_of_new_row (items : list line_item) (oid next : uuid) :
  map line_of
    (number next
       (map (fun item id =>
               mkOrderItem id oid (productId item) (name item) (price item)
                 (quantity item)) items))
  = items.
Proof.
  rewrite map_number with (h := fun item => item).
  - apply map_id.
  - intros [pid n p q] id. reflexivity.
Qed.

Lemma orders_insert_accepts (uid : uuid) (email : string) (total : money)
  (shipping : string) (t : timestamp) (db : DB) :
  (0 <= total <= decimal_max)%Z -> has_user uid db = true ->
  orders_insert uid email total shipping "pending" t db
  = Ok (mkOrder (fresh_uuid (map o_id (orders db))) uid email total "pending"
          shipping t t None,
        set_orders
          (orders db ++
             [mkOrder (fresh_uuid (map o_id (orders db))) uid email total
                "pending" shipping t t None]) db).
Proof.
  intros Htotal Huser. unfold orders_insert.
  rewrite in_decimal_within by exact Htotal. simpl.
  destruct (Z.ltb_spec total 0); [lia|].
  rewrite Huser. reflexivity.
Qed.

Lemma single_fresh_row (rows : list order_row) (row : order_row) :
  o_id row = fresh_uuid (map o_id rows) ->
  single (filter (fun o => o_id o =? o_id row) (rows ++ [row])) = Some row.
Proof.
  intros Hid. rewrite filter_app, Hid, filter_fresh. simpl.
  now rewrite <- Hid, Nat.eqb_refl.
Qed.

Lemma requested_covers (items : list line_item) (item : line_item) :
  (forall l, In l items -> (0 <= quantity l)%Z) -> In item items ->
  (quantity item <= requested (productId item) items)%Z.
Proof.
  induction items as [|a rest IH]; intros Hpos Hin; [contradiction|].
  rewrite requested_cons.
  assert (Hrest : (0 <= requested (productId item) rest)%Z)
    by (apply requested_nonneg; intros; apply Hpos; now right).
  assert (Ha : (0 <= quantity a)%Z) by (apply Hpos; now left).
  destruct Hin as [->|Hin].
  - rewrite Nat.eqb_refl. lia.
  - assert (quantity item <= requested (productId item) rest)%Z
      by (apply IH; [intros; apply Hpos; now right|exact Hin]).
    destruct (productId a =? productId item); lia.
Qed.

(** C1, with the stock condition read product by product: when an
    authenticated customer with a [users] row sends a request that the
    columns can hold (a total between 0 and 99999999.99, prices that are
    DECIMAL(10, 2), positive quantities) and whose lines, for each product
    named, ask together for no more than its stock, [POST /orders]
    answers 201, appends exactly one order with status pending and the total
    sent, stores one line row per request line with the same product, name,
    price and quantity, and leaves each product with its stock less what the
    lines asked of it: less the quantity of its line when no two lines name
    the same product. *)
Theorem post_orders_places_order
  (time : clock) (authorization : option string) (user : auth_user)
  (items : list line_item) (total : money) (shippingAddress : string)
  (db : DB) :
  verifyUser authorization db = Some user ->
  has_user (au_id user) db = true ->
  (0 <= total <= decimal_max)%Z ->
  (forall item, In item items ->
     (0 < quantity item)%Z /\ in_decimal (price item) = true) ->
  (forall item, In item items ->
     exists s, stock_of (productId item) db = Some s
               /\ (requested (productId item) items <= s <= integer_max)%Z) ->
  exists order rows db',
    post_orders time authorization items total shippingAddress db
    = (mkResponse 201 (BOrder (view_order order db')), db')
    /\ orders db' = orders db ++ [order]
    /\ o_status order = "pending"
    /\ o_total order = total
    /\ o_user_id order = au_id user
    /\ order_items db' = order_items db ++ rows
    /\ map line_of rows = items
    /\ (forall row, In row rows -> oi_order_id row = o_id order)
    /\ (forall pid, stock_of pid db'
                    = option_map (fun s => (s - requested pid items)%Z)
                        (stock_of pid db))
    /\ (NoDup (map productId items) ->
        forall item, In item items ->
          stock_of (productId item) db'
          = option_map (fun s => (s - quantity item)%Z)
              (stock_of (productId item) db)).
Proof.
  intros Hauth Huser Htotal Hrequest Hstock.
  assert (Hpos : forall item, In item items -> (0 < quantity item)%Z)
    by (intros item Hin; exact (proj1 (Hrequest item Hin))).
  assert (Hnonneg : forall item, In item items -> (0 <= quantity item)%Z)
    by (intros item Hin; specialize (Hpos item Hin); lia).
  destruct (@reserve_stock_passes time items db)
    as (db1 & Hrun & Hfinal & Hhas).
  { exact Hnonneg. }
  { exact Hstock. }
  pose proof (reserve_stock_frame time items db) as Hframe.
  rewrite Hrun in Hframe. simpl in Hframe.
  destruct (only_products_tables Hframe)
    as (_ & _ & Husers & _ & _ & Horders & Hitems & _).
  assert (Huser1 : has_user (au_id user) db1 = true)
    by (unfold has_user in *; now rewrite Husers).
  set (order := mkOrder (fresh_uuid (map o_id (orders db1))) (au_id user)
                  (au_email user) total "pending" shippingAddress (now time)
                  (now time) None).
  set (rows := number (fresh_uuid (map oi_id (order_items db1)))
                 (map (fun item id =>
                         mkOrderItem id (o_id order) (productId item)
                           (name item) (price item) (quantity item)) items)).
  assert (Hrows_range :
    existsb (fun r => negb (in_decimal (oi_price r))
                      || negb (in_integer (oi_quantity r))) rows = false).
  { rewrite existsb_as_map. unfold rows.
    rewrite map_number
      with (h := fun item => negb (in_decimal (price item))
                             || negb (in_integer (quantity item)))
      by reflexivity.
    rewrite <- existsb_as_map. apply existsb_none.
    intros item Hin. rewrite (proj2 (Hrequest item Hin)).
    destruct (Hstock item Hin) as (s & _ & Hle).
    pose proof (requested_covers items item Hnonneg Hin) as Hcovers.
    specialize (Hpos item Hin).
    rewrite in_integer_within by lia. reflexivity. }
  assert (Hrows_q : existsb (fun r => (oi_quantity r <=? 0)%Z) rows = false).
  { rewrite existsb_as_map. unfold rows.
    rewrite map_number with (h := fun item => (quantity item <=? 0)%Z)
      by reflexivity.
    rewrite <- existsb_as_map. apply existsb_none.
    intros item Hin. specialize (Hpos item Hin). apply Z.leb_gt. lia. }
  assert (Hrows_ref :
    existsb (fun r => negb (has_order (oi_order_id r)
                              (set_orders (orders db1 ++ [order]) db1))
                      || negb (has_product (oi_product_id r)
                                 (set_orders (orders db1 ++ [order]) db1)))
      rows = false).
  { rewrite existsb_as_map. unfold rows.
    rewrite map_number
      with (h := fun item =>
                   negb (has_order (o_id order)
                           (set_orders (orders db1 ++ [order]) db1))
                   || negb (has_product (productId item) db1))
      by reflexivity.
    rewrite <- existsb_as_map. apply existsb_none.
    intros item Hin.
    destruct (Hstock item Hin) as (s & Hs & _).
    rewrite Hhas, (stock_of_has_product _ _ Hs).
    unfold has_order. simpl. rewrite existsb_app. simpl.
    rewrite Nat.eqb_refl, orb_true_r. reflexivity. }
  exists order, rows.
  eexists. split.
  - unfold post_orders, with_user, parseFloat. rewrite Hauth, Hrun.
    rewrite orders_insert_accepts by assumption. fold order.
    unfold order_items_insert. cbv zeta. simpl order_items.
    fold rows. rewrite Hrows_range, Hrows_q, Hrows_ref.
    unfold activity_logs_insert.
    replace (has_user (au_id user)
               (set_order_items (order_items db1 ++ rows)
                  (set_orders (orders db1 ++ [order]) db1)))
      with true by (symmetry; exact Huser1).
    simpl. change (fresh_uuid (map o_id (orders db1))) with (o_id order).
    rewrite single_fresh_row by reflexivity. reflexivity.
  - simpl. rewrite Horders, Hitems.
    repeat split; try reflexivity.
    + apply line_of_new_row.
    + intros row Hin. unfold rows in Hin.
      apply in_number in Hin. destruct Hin as (item & id & _ & ->).
      simpl. now rewrite Horders.
    + exact Hfinal.
    + intros Hdistinct item Hin.
      change (stock_of (productId item) db1
              = option_map (fun s => (s - quantity item)%Z)
                  (stock_of (productId item) db)).
      now rewrite Hfinal, requested_single.
Qed.

Lemma post_orders_places_order_witness :
  exists order rows db',
    post_orders sample_clock (Some "Bearer tok-alice")
      [three_widgets; one_gadget] 1750%Z "Home" sample_db
    = (mkResponse 201 (BOrder (view_order order db')), db')
    /\ orders db' = orders sample_db ++ [order]
    /\ o_status order = "pending"
    /\ o_total order = 1750%Z
    /\ o_user_id order = 1
    /\ order_items db' = order_items sample_db ++ rows
    /\ map line_of rows
       = [three_widgets; one_gadget]
    /\ (forall row, In row rows -> oi_order_id row = o_id order)
    /\ (forall pid,
          stock_of pid db'
          = option_map
              (fun s => (s - requested pid [three_widgets; one_gadget])%Z)
              (stock_of pid sample_db))
    /\ (NoDup (map productId [three_widgets; one_gadget]) ->
        forall item, In item [three_widgets; one_gadget] ->
          stock_of (productId item) db'
          = option_map (fun s => (s - quantity item)%Z)
              (stock_of (productId item) sample_db)).
Proof.
  apply (@post_orders_places_order sample_clock (Some "Bearer tok-alice")
           alice).
  - reflexivity.
  - reflexivity.
  - unfold decimal_max. lia.
  - intros item [<-|[<-|[]]]; (split; [simpl; lia|reflexivity]).
  - intros item [<-|[<-|[]]]; eexists; (split; [reflexivity|]);
      unfold integer_max; cbv; split; congruence.
Defined.

(** C1 as stated fails in two ways.  Two lines name the same product: each
    asks for 3 of the 5 widgets in stock, the second line finds only 2 left,
    the request is answered 400, no order is stored and the first decrement
    stays.  And a request whose single line is covered by the stock but
    whose total is negative loses its order to [CHECK (total >= 0)] after
    the stock was taken. *)
Lemma post_orders_refuses_covered_lines :
  let items := [three_widgets; three_widgets] in
  let outcome := post_orders sample_clock (Some "Bearer tok-alice") items
                   1500%Z "Home" sample_db in
  let refused := post_orders sample_clock (Some "Bearer tok-alice")
                   [three_widgets] (-750)%Z "Home" sample_db in
  verifyUser (Some "Bearer tok-alice") sample_db = Some alice
  /\ has_user (au_id alice) sample_db = true
  /\ (forall item, In item items ->
        exists s, stock_of (productId item) sample_db = Some s
                  /\ (0 < quantity item <= s)%Z)
  /\ stock_of 10 sample_db = Some 5%Z
  /\ fst outcome = mkResponse 400 (BError "Insufficient stock for Widget")
  /\ orders (snd outcome) = orders sample_db
  /\ stock_of 10 (snd outcome) = Some 2%Z
  /\ fst refused = mkResponse 400 (BError check_violation)
  /\ orders (snd refused) = orders sample_db
  /\ stock_of 10 (snd refused) = Some 2%Z.
Proof.
  cbv zeta. repeat split; try reflexivity.
  intros item [<-|[<-|[]]]; exists 5%Z; repeat split; cbv; congruence.
Qed.

Lemma reserve_stock_app (time : clock) (front back : list line_item) :
  forall db,
    reserve_stock time (front ++ back) db
    = match reserve_stock time front db with
      | (Some early, db1) => (Some early, db1)
      | (None, db1) => reserve_stock time back db1
      end.
Proof.
  induction front as [|item rest IH]; intros db; simpl; [reflexivity|].
  destruct (product_by_id (productId item) db) as [product|]; [|reflexivity].
  destruct (p_stock product <? quantity item)%Z; [reflexivity|].
  destruct (products_update_stock _ _ _ db) as [db1|]; [apply IH|reflexivity].
Qed.






(** There is no rollback: the second line asks for 9 of 5 gadgets, the
    request is answered 400 and no order is stored, and the 3 widgets taken
    for the first line are not put back. *)
Lemma post_orders_keeps_earlier_decrement :
  let items := [three_widgets; nine_gadgets] in
  let outcome := post_orders sample_clock (Some "Bearer tok-alice") items
                   3250%Z "Home" sample_db in
  stock_of 11 sample_db = Some 5%Z
  /\ status (fst outcome) = 400
  /\ orders (snd outcome) = orders sample_db
  /\ stock_of 10 sample_db = Some 5%Z
  /\ stock_of 10 (snd outcome) = Some 2%Z
  /\ products (snd outcome) <> products sample_db.
Proof.
  cbv zeta. repeat split; try reflexivity. discriminate.
Qed.

(** ** The gates *)

Lemma getOrCreateUserRecord_frame (uid : uuid) (email : string)
  (db db1 : DB) (row : user_row) :
  getOrCreateUserRecord uid email db = Ok (row, db1) ->
  db1 = db \/ db1 = set_users (users db ++ [row]) db.
Proof.
  unfold getOrCreateUserRecord, users_insert.
  destruct (single _) as [existing|].
  - intros H. inversion H. now left.
  - destruct (existsb _ (users db)); [discriminate|].
    destruct (negb _); [discriminate|].
    destruct (negb _); [discriminate|].
    intros H. inversion H. now right.
Qed.

Lemma getOrCreateUserRecord_tables (uid : uuid) (email : string)
  (db db1 : DB) (row : user_row) :
  getOrCreateUserRecord uid email db = Ok (row, db1) ->
  products db1 = products db /\ orders db1 = orders db
  /\ order_items db1 = order_items db
  /\ activity_logs db1 = activity_logs db
  /\ accounts db1 = accounts db /\ sessions db1 = sessions db.
Proof.
  intros H. apply getOrCreateUserRecord_frame in H.
  destruct H as [->| ->]; simpl; repeat split.
Qed.


Lemma with_admin_passes (authorization : option string) (db db1 : DB)
  (user : auth_user) (userData : user_row)
  (handler : auth_user -> user_row -> DB -> response * DB) :
  verifyUser authorization db = Some user ->
  getOrCreateUserRecord (au_id user) (au_email user) db = Ok (userData, db1) ->
  u_role userData = "admin" ->
  with_admin authorization db handler = handler user userData db1.
Proof.
  intros Hauth Hrow Hrole. unfold with_admin, with_user.
  now rewrite Hauth, Hrow, Hrole.
Qed.

(** ** Cancelling and restocking *)

Lemma returned_cons (pid : uuid) (line : order_item_row)
  (rest : list order_item_row) :
  returned pid (line :: rest)
  = ((if Nat.eqb (oi_product_id line) pid then oi_quantity line else 0)
     + returned pid rest)%Z.
Proof.
  unfold returned. simpl. now destruct (oi_product_id line =? pid).
Qed.

Lemma restock_frame (time : clock) (lines : list order_item_row) :
  forall db, only_products db (restock time lines db).
Proof.
  induction lines as [|line rest IH]; intros db; simpl.
  - apply only_products_refl.
  - destruct (product_by_id (oi_product_id line) db) as [product|];
      [|apply IH].
    eapply only_products_trans; [|apply IH].
    destruct (products_update_stock _ _ _ db) as [db1|] eqn:Hup; simpl.
    + eapply products_update_stock_frame; eassumption.
    + apply only_products_refl.
Qed.

Lemma returned_nonneg (pid : uuid) (lines : list order_item_row) :
  (forall line, In line lines -> (0 <= oi_quantity line)%Z) ->
  (0 <= returned pid lines)%Z.
Proof.
  induction lines as [|line rest IH]; intros Hq.
  - unfold returned. simpl. lia.
  - rewrite returned_cons.
    assert (0 <= oi_quantity line)%Z by (apply Hq; now left).
    assert (0 <= returned pid rest)%Z
      by (apply IH; intros; apply Hq; now right).
    destruct (oi_product_id line =? pid); lia.
Qed.

(** Over stock and quantities that satisfy their CHECK constraints, and as
    long as no stock leaves the range of an INTEGER, the loop adds to each
    product what the lines hold of it. *)
Lemma restock_adds (time : clock) (lines : list order_item_row) :
  forall db,
    (forall pid s, stock_of pid db = Some s ->
       (0 <= s)%Z /\ (s + returned pid lines <= integer_max)%Z) ->
    (forall line, In line lines -> (0 <= oi_quantity line)%Z) ->
    forall pid,
      stock_of pid (restock time lines db)
      = option_map (fun s => (s + returned pid lines)%Z) (stock_of pid db).
Proof.
  induction lines as [|line rest IH]; intros db Hstock Hq pid.
  - simpl. unfold returned. simpl.
    destruct (stock_of pid db); simpl; [f_equal; lia|reflexivity].
  - simpl. rewrite returned_cons.
    assert (Hline : (0 <= oi_quantity line)%Z) by (apply Hq; now left).
    assert (Hrest : forall q, (0 <= returned q rest)%Z)
      by (intros q; apply returned_nonneg; intros; apply Hq; now right).
    destruct (product_by_id (oi_product_id line) db) as [product|] eqn:Hp.
    + assert (Hs : stock_of (oi_product_id line) db = Some (p_stock product))
        by (unfold stock_of; now rewrite Hp).
      destruct (Hstock _ _ Hs) as [Hs0 Hs1].
      rewrite returned_cons, Nat.eqb_refl in Hs1.
      pose proof (Hrest (oi_product_id line)) as Hrest0.
      destruct (@products_update_stock_accepts (oi_product_id line)
                  (p_stock product + oi_quantity line)%Z (now time) db)
        as (db1 & Hup); [lia|].
      rewrite Hup. simpl.
      assert (Hnext : forall q,
        stock_of q db1
        = if q =? oi_product_id line
          then option_map
                 (fun _ => (p_stock product + oi_quantity line)%Z)
                 (stock_of q db)
          else stock_of q db)
        by (intros q; eapply stock_of_update; eassumption).
      rewrite IH.
      * rewrite Hnext.
        destruct (Nat.eqb_spec pid (oi_product_id line)) as [->|Hne].
        -- rewrite Nat.eqb_refl, Hs. simpl. f_equal. lia.
        -- destruct (Nat.eqb_spec (oi_product_id line) pid); [congruence|].
           destruct (stock_of pid db); simpl; [f_equal; lia|reflexivity].
      * intros q s. rewrite Hnext.
        destruct (Nat.eqb_spec q (oi_product_id line)) as [->|Hne].
        -- rewrite Hs. simpl. intros H; inversion H. lia.
        -- intros Hq0. destruct (Hstock _ _ Hq0) as [Hq1 Hq2].
           rewrite returned_cons in Hq2.
           destruct (Nat.eqb_spec (oi_product_id line) q); [congruence|].
           lia.
      * intros; apply Hq; now right.
    + rewrite IH.
      * destruct (Nat.eqb_spec (oi_product_id line) pid) as [<-|_].
        -- unfold stock_of. now rewrite Hp.
        -- destruct (stock_of pid db); simpl; [f_equal; lia|reflexivity].
      * intros q s Hq0. destruct (Hstock _ _ Hq0) as [Hq1 Hq2].
        rewrite returned_cons in Hq2.
        destruct (Nat.eqb_spec (oi_product_id line) q) as [Heq|_]; [|lia].
        exfalso. rewrite <- Heq in Hq0. unfold stock_of in Hq0.
        rewrite Hp in Hq0. discriminate.
      * intros; apply Hq; now right.
Qed.

Lemma orders_update_status_frame (oid : uuid) (new_status : string)
  (t : timestamp) (by_user : uuid) (db db' : DB) (row : order_row) :
  orders_update_status oid new_status t by_user db = Ok (row, db') ->
  db' = set_orders (orders db') db.
Proof.
  unfold orders_update_status.
  destruct (has_order oid db && negb (valid_status new_status));
    [discriminate|].
  destruct (single _); [|discriminate].
  intros H. inversion H. now destruct db.
Qed.

Lemma orders_update_status_accepts (oid : uuid) (new_status : string)
  (t : timestamp) (by_user : uuid) (db : DB) (order : order_row) :
  valid_status new_status = true ->
  single (filter (fun o => o_id o =? oid) (orders db)) = Some order ->
  exists row db',
    orders_update_status oid new_status t by_user db = Ok (row, db')
    /\ o_status row = new_status
    /\ single (filter (fun o => o_id o =? oid) (orders db')) = Some row
    /\ db' = set_orders (orders db') db.
Proof.
  intros Hvalid Hone. unfold orders_update_status.
  rewrite Hvalid, andb_false_r.
  apply single_some in Hone.
  assert (Hid : (o_id order =? oid) = true).
  { assert (Hin : In order (filter (fun o => o_id o =? oid) (orders db)))
      by (rewrite Hone; now left).
    now apply filter_In in Hin. }
  cbv zeta. rewrite filter_update_where, Hone by reflexivity.
  simpl. rewrite Hid. simpl.
  eexists. eexists. split; [reflexivity|].
  simpl. rewrite filter_update_where, Hone by reflexivity.
  simpl. rewrite Hid. repeat split.
Qed.

Lemma activity_logs_insert_frame (type : string) (uid : uuid) (email : string)
  (details : json_object) (t : timestamp) (db : DB) :
  exists logs,
    ignore_error (activity_logs_insert type uid email details t db) db
    = set_activity_logs logs db.
Proof.
  unfold activity_logs_insert.
  destruct (negb (has_user uid db)); simpl.
  - exists (activity_logs db). now destruct db.
  - eexists. reflexivity.
Qed.

(** Any request that is not a cancellation of a not yet cancelled order
    leaves [products] as it was, whatever the caller and the outcome. *)
Lemma put_order_status_keeps_stock (time : clock)
  (authorization : option string) (orderId : uuid) (new_status : string)
  (db : DB) :
  new_status <> "cancelled"
  \/ (exists order,
        single (filter (fun o => o_id o =? orderId) (orders db)) = Some order
        /\ o_status order = "cancelled") ->
  products (snd (put_order_status time authorization orderId new_status db))
  = products db.
Proof.
  intros Hquiet. unfold put_order_status, with_admin, with_user.
  destruct (verifyUser authorization db) as [user|]; [|reflexivity].
  destruct (getOrCreateUserRecord _ _ db) as [[userData db1]|] eqn:Hrow;
    [|reflexivity].
  destruct (getOrCreateUserRecord_tables _ _ _ Hrow)
    as (Hproducts & Horders & _).
  destruct (negb _); [exact Hproducts|].
  rewrite Horders.
  destruct (single _) as [order|] eqn:Horder; [|exact Hproducts].
  assert (Hno : String.eqb new_status "cancelled"
                && negb (String.eqb (o_status order) "cancelled") = false).
  { destruct Hquiet as [Hne|(order' & Horder' & Hcancelled)].
    - apply String.eqb_neq in Hne. now rewrite Hne.
    - assert (order' = order) by congruence. subst order'.
      rewrite Hcancelled. simpl. apply andb_false_r. }
  rewrite Hno.
  destruct (orders_update_status _ _ _ _ db1) as [[updated db3]|] eqn:Hup;
    [|exact Hproducts].
  apply orders_update_status_frame in Hup.
  destruct (activity_logs_insert_frame "order_status_updated" (au_id user)
              (au_email user)
              [("order_id", JId orderId);
               ("previous_status", JStr (o_status order));
               ("newStatus", JStr new_status)] (now time) db3)
    as (logs & ->).
  simpl. rewrite Hup. simpl. exact Hproducts.
Qed.

(** C3, amended: for an administrator, setting a not yet cancelled order to
    cancelled is answered 200, adds to the stock of every product what the
    lines of the order hold of it, as long as no stock would leave the range
    of an INTEGER, and stores the status, so that the same request sent
    again adds nothing; a request whose new status is not cancelled, or
    whose order is already cancelled, leaves [products] untouched. *)
Theorem put_order_status_restocks_once
  (time : clock) (authorization : option string) (orderId : uuid)
  (new_status : string) (db : DB) :
  let outcome := put_order_status time authorization orderId new_status db in
  (forall user userData db1 order,
     verifyUser authorization db = Some user ->
     getOrCreateUserRecord (au_id user) (au_email user) db
     = Ok (userData, db1) ->
     u_role userData = "admin" ->
     single (filter (fun o => o_id o =? orderId) (orders db)) = Some order ->
     o_status order <> "cancelled" ->
     new_status = "cancelled" ->
     stock_checks db ->
     (forall pid s, stock_of pid db = Some s ->
        (s + returned pid (lines_of_order orderId db) <= integer_max)%Z) ->
     status (fst outcome) = 200
     /\ (forall pid,
           stock_of pid (snd outcome)
           = option_map
               (fun s => (s + returned pid (lines_of_order orderId db))%Z)
               (stock_of pid db))
     /\ (exists stored,
           single (filter (fun o => o_id o =? orderId) (orders (snd outcome)))
           = Some stored
           /\ o_status stored = "cancelled")
     /\ (forall time' authorization',
           products
             (snd (put_order_status time' authorization' orderId "cancelled"
                     (snd outcome)))
           = products (snd outcome)))
  /\ (new_status <> "cancelled"
      \/ (exists order,
            single (filter (fun o => o_id o =? orderId) (orders db))
            = Some order
            /\ o_status order = "cancelled") ->
      products (snd outcome) = products db).
Proof.
  cbv zeta. split; [|apply put_order_status_keeps_stock].
  intros user userData db1 order Hauth Hrow Hrole Horder Hopen -> Hchecks
    Hrange.
  destruct (getOrCreateUserRecord_tables _ _ _ Hrow)
    as (Hproducts & Horders & Hlines & _).
  destruct Hchecks as (Hstock & Hquantity).
  assert (Hid : o_id order = orderId).
  { apply single_some in Horder.
    assert (Hin : In order (filter (fun o => o_id o =? orderId) (orders db)))
      by (rewrite Horder; now left).
    apply filter_In in Hin. now apply Nat.eqb_eq. }
  set (db2 := restock time (ov_order_items (view_order order db1)) db1).
  pose proof (restock_frame time (ov_order_items (view_order order db1)) db1)
    as Hframe. fold db2 in Hframe.
  destruct (only_products_tables Hframe)
    as (_ & _ & _ & _ & _ & Horders2 & _).
  destruct (@orders_update_status_accepts orderId "cancelled" (now time)
              (au_id user) db2 order)
    as (stored & db3 & Hup & Hstatus & Hstored & Hdb3);
    [reflexivity|now rewrite Horders2, Horders|].
  assert (Hrun :
    exists logs,
      put_order_status time authorization orderId "cancelled" db
      = (mkResponse 200 (BOrder (view_order stored db3)),
         set_activity_logs logs db3)).
  { unfold put_order_status.
    erewrite with_admin_passes by eassumption.
    rewrite Horders, Horder.
    apply String.eqb_neq in Hopen. rewrite Hopen. simpl andb. cbv iota.
    fold db2. rewrite Hup.
    destruct (activity_logs_insert_frame "order_status_updated" (au_id user)
                (au_email user)
                [("order_id", JId orderId);
                 ("previous_status", JStr (o_status order));
                 ("newStatus", JStr "cancelled")] (now time) db3)
      as (logs & ->).
    now exists logs. }
  destruct Hrun as (logs & ->). simpl fst. simpl snd.
  split; [reflexivity|]. split; [|split].
  - intros pid.
    assert (Hsame : forall d, stock_of pid (set_activity_logs logs d)
                              = stock_of pid d) by reflexivity.
    rewrite Hsame, Hdb3.
    change (stock_of pid (set_orders (orders db3) db2))
      with (stock_of pid db2).
    unfold db2. rewrite restock_adds.
    + unfold view_order, lines_of_order. simpl.
      rewrite Hid, Hlines.
      unfold stock_of, product_by_id. now rewrite Hproducts.
    + intros q s Hq.
      assert (Hq0 : stock_of q db = Some s)
        by (unfold stock_of, product_by_id in *; now rewrite <- Hproducts).
      split; [exact (Hstock q s Hq0)|].
      unfold view_order. simpl. rewrite Hid, Hlines.
      exact (Hrange q s Hq0).
    + intros line Hin. unfold view_order in Hin. simpl in Hin.
      apply filter_In in Hin. destruct Hin as [Hin _].
      rewrite Hlines in Hin. specialize (Hquantity line Hin). lia.
  - exists stored. split; [exact Hstored|exact Hstatus].
  - intros time' authorization'.
    apply put_order_status_keeps_stock. right.
    exists stored. split; [exact Hstored|exact Hstatus].
Qed.

Lemma stock_checks_of_rows (db : DB) :
  Forall (fun p => (0 <= p_stock p)%Z) (products db) ->
  Forall (fun line => (0 < oi_quantity line)%Z) (order_items db) ->
  stock_checks db.
Proof.
  intros Hproducts Hlines. split.
  - intros pid s Hs.
    destruct (stock_of_product _ _ Hs) as (p & Hp & <-).
    unfold product_by_id in Hp. apply single_some in Hp.
    assert (Hin : In p (filter (fun p0 => p_id p0 =? pid) (products db)))
      by (rewrite Hp; now left).
    apply filter_In in Hin. destruct Hin as [Hin _].
    rewrite Forall_forall in Hproducts. now apply Hproducts.
  - now apply Forall_forall.
Qed.

Lemma sample_db_stock_checks : stock_checks sample_db.
Proof.
  apply stock_checks_of_rows; simpl; repeat constructor; simpl; lia.
Qed.

Lemma stock_of_stored (pid : uuid) (db : DB) (s : Z) :
  stock_of pid db = Some s ->
  exists p, In p (products db) /\ p_id p = pid /\ p_stock p = s.
Proof.
  intros Hs. destruct (stock_of_product _ _ Hs) as (p & Hp & Hstock).
  unfold product_by_id in Hp. apply single_some in Hp.
  assert (Hin : In p (filter (fun p0 => p_id p0 =? pid) (products db)))
    by (rewrite Hp; now left).
  apply filter_In in Hin. destruct Hin as [Hin Hid].
  apply Nat.eqb_eq in Hid. now exists p.
Qed.

Lemma sample_db_restock_in_range (pid : uuid) (s : Z) :
  stock_of pid sample_db = Some s ->
  (s + returned pid (lines_of_order 40%nat sample_db) <= integer_max)%Z.
Proof.
  intros Hs. destruct (stock_of_stored _ _ Hs) as (p & Hin & <- & <-).
  destruct Hin as [<-|[<-|[]]]; vm_compute; discriminate.
Qed.

Lemma put_order_status_restocks_once_witness :
  let outcome := put_order_status sample_clock (Some "Bearer tok-root") 40
                   "cancelled" sample_db in
  (status (fst outcome) = 200
   /\ (forall pid,
         stock_of pid (snd outcome)
         = option_map
             (fun s => (s + returned pid (lines_of_order 40%nat sample_db))%Z)
             (stock_of pid sample_db))
   /\ (exists stored,
         single (filter (fun o => o_id o =? 40) (orders (snd outcome)))
         = Some stored
         /\ o_status stored = "cancelled")
   /\ (forall time' authorization',
         products
           (snd (put_order_status time' authorization' 40 "cancelled"
                   (snd outcome)))
         = products (snd outcome)))
  /\ products
       (snd (put_order_status sample_clock (Some "Bearer tok-root") 41
               "cancelled" sample_db))
     = products sample_db.
Proof.
  split.
  - apply (proj1 (put_order_status_restocks_once sample_clock
                    (Some "Bearer tok-root") 40 "cancelled" sample_db)
             root (mkUser 2 "root@example.com" "admin" None None) sample_db
             (mkOrder 40 1 "alice@example.com" 1500%Z "pending" "Home"
                "2025-03-07T08:00:00.000Z" "2025-03-07T08:00:00.000Z" None));
      try reflexivity.
    + discriminate.
    + exact sample_db_stock_checks.
    + exact sample_db_restock_in_range.
  - apply (proj2 (put_order_status_restocks_once sample_clock
                    (Some "Bearer tok-root") 41 "cancelled" sample_db)).
    right. eexists. split; reflexivity.
Defined.

(** C3 as stated fails where the restocked stock is no INTEGER: with the
    widgets at 2147483647, cancelling the pending order that holds 2 of them
    is answered 200 and stores the status, but the store refuses the stock
    of 2147483649, the handler does not look at the outcome, and the
    widgets keep their stock; the gadget of the same order is restocked. *)
Lemma put_order_status_restock_refused :
  let outcome := put_order_status sample_clock (Some "Bearer tok-root") 40
                   "cancelled" full_db in
  stock_checks full_db
  /\ option_map o_status
       (single (filter (fun o => o_id o =? 40) (orders full_db)))
     = Some "pending"
  /\ stock_of 10 full_db = Some 2147483647%Z
  /\ returned 10 (lines_of_order 40%nat full_db) = 2%Z
  /\ status (fst outcome) = 200
  /\ option_map o_status
       (single (filter (fun o => o_id o =? 40) (orders (snd outcome))))
     = Some "cancelled"
  /\ stock_of 10 (snd outcome) = Some 2147483647%Z
  /\ stock_of 10 (snd outcome) <> Some (2147483647 + 2)%Z
  /\ stock_of 11 (snd outcome) = Some 6%Z.
Proof.
  cbv zeta. split.
  - apply stock_checks_of_rows; simpl; repeat constructor; simpl;
      unfold integer_max; lia.
  - repeat split; try reflexivity. discriminate.
Qed.

(** ** Who may call what *)

Lemma getOrCreateUserRecord_created (uid : uuid) (email : string)
  (db db1 : DB) (row : user_row) :
  getOrCreateUserRecord uid email db = Ok (row, db1) ->
  u_role row <> "admin" ->
  db1 = db
  \/ (filter (fun u => u_id u =? uid) (users db) = []
      /\ row = mkUser uid email "user" None None
      /\ db1 = set_users (users db ++ [row]) db).
Proof.
  unfold getOrCreateUserRecord, users_insert.
  destruct (single _) as [existing|].
  - intros H _. inversion H. now left.
  - simpl u_id. simpl u_email. simpl u_role.
    destruct (existsb _ (users db)) eqn:Hfree; [discriminate|].
    destruct (negb _); [discriminate|].
    destruct (negb _); [discriminate|].
    intros H Hrole. inversion H; subst row db1; clear H. right.
    split; [|split; [|reflexivity]].
    + induction (users db) as [|u rest IH]; [reflexivity|].
      simpl in *. apply orb_false_elim in Hfree. destruct Hfree as [Hu Hrest].
      apply orb_false_elim in Hu. destruct Hu as [Hu _].
      rewrite Hu. now apply IH.
    + simpl in Hrole.
      destruct (String.eqb (toLowerCase email) "admin@tawsil.com");
        [now contradiction Hrole|reflexivity].
Qed.

(** C4, amended: every endpoint other than signup, create-admin and the
    public catalog reads answers 401 and leaves the database as it was when
    the request carries no valid bearer token; every admin route answers 403
    when the role stored for the caller is not admin, and the database it
    leaves is the one [getOrCreateUserRecord] left: unchanged, or extended
    by the caller's own [users] row with role user when the caller had
    none. *)
Theorem gates_reject
  (remaining : call -> option auth_user -> DB -> response * DB)
  (time : clock) (authorization : option string) (request : call) (db : DB) :
  (exempt_in_spec request = false ->
   (forall email password user_name,
      request <> PostCreateAdmin email password user_name) ->
   verifyUser authorization db = None ->
   handle remaining time authorization request db = (unauthorized, db))
  /\ (admin_route request = true ->
      forall user userData db1,
        verifyUser authorization db = Some user ->
        getOrCreateUserRecord (au_id user) (au_email user) db
        = Ok (userData, db1) ->
        u_role userData <> "admin" ->
        handle remaining time authorization request db = (forbidden, db1)
        /\ (db1 = db
            \/ (filter (fun u => u_id u =? au_id user) (users db) = []
                /\ userData
                   = mkUser (au_id user) (au_email user) "user" None None
                /\ db1 = set_users (users db ++ [userData]) db))).
Proof.
  split.
  - intros Hexempt Hcreate Hauth.
    destruct request; simpl in Hexempt; try discriminate;
      try (exfalso; eapply Hcreate; reflexivity);
      simpl;
      unfold get_user, post_addresses, put_address, post_cart, post_orders,
        put_order_status, get_admin_analytics, get_admin_logs,
        with_admin, with_user;
      now rewrite Hauth.
  - intros Hadmin user userData db1 Hauth Hrow Hrole.
    split; [|eapply getOrCreateUserRecord_created; eassumption].
    apply String.eqb_neq in Hrole.
    destruct request; simpl in Hadmin; try discriminate;
      simpl;
      unfold put_order_status, get_admin_analytics, get_admin_logs,
        with_admin, with_user;
      now rewrite Hauth, Hrow, Hrole.
Qed.

Lemma gates_reject_witness :
  handle sample_remaining sample_clock (Some "Bearer expired")
    (PostOrders [three_widgets] 750%Z "Home") sample_db
  = (unauthorized, sample_db)
  /\ handle sample_remaining sample_clock (Some "Bearer tok-alice")
       GetAdminLogs sample_db
     = (forbidden, sample_db).
Proof.
  split.
  - apply (proj1 (gates_reject sample_remaining sample_clock
                    (Some "Bearer expired")
                    (PostOrders [three_widgets] 750%Z "Home") sample_db)).
    + reflexivity.
    + discriminate.
    + reflexivity.
  - apply (proj2 (gates_reject sample_remaining sample_clock
                    (Some "Bearer tok-alice") GetAdminLogs sample_db)
             eq_refl alice
             (mkUser 1 "alice@example.com" "user" (Some "Alice") None)
             sample_db).
    + reflexivity.
    + reflexivity.
    + discriminate.
Defined.

(** C4 as stated fails twice over.  [POST /create-admin] is neither signup
    nor a catalog read, yet without any token it answers 201 and stores an
    account and a [users] row with role admin.  And a caller without a
    [users] row who is turned away from an admin route with 403 leaves a
    new [users] row behind. *)
Lemma create_admin_needs_no_token :
  let request := PostCreateAdmin "eve@example.com" "secret" None in
  let outcome := handle sample_remaining sample_clock None request sample_db in
  let turned_away := handle sample_remaining sample_clock
                       (Some "Bearer tok-bob") GetAdminLogs sample_db in
  exempt_in_spec request = false
  /\ verifyUser None sample_db = None
  /\ status (fst outcome) = 201
  /\ users (snd outcome)
     = users sample_db ++ [mkUser 5 "eve@example.com" "admin" None None]
  /\ admin_route GetAdminLogs = true
  /\ fst turned_away = forbidden
  /\ users (snd turned_away)
     = users sample_db ++ [mkUser 3 "bob@example.com" "user" None None].
Proof.
  cbv zeta. repeat split.
Qed.

(** ** Revenue *)

Lemma or_zero_id (amount : money) : or_zero amount = amount.
Proof.
  unfold or_zero. destruct (Z.eqb_spec amount 0); congruence.
Qed.

Lemma totalRevenue_from (rows : list order_row) :
  forall start,
    fold_left
      (fun sum order =>
         if negb (is_cancelled order)
         then (sum + parseFloat (or_zero (o_total order)))%Z
         else sum)
      rows start
    = (start + revenue_in_spec rows)%Z.
Proof.
  unfold revenue_in_spec.
  induction rows as [|order rest IH]; intros start; simpl.
  - lia.
  - rewrite IH. destruct (negb (is_cancelled order)); simpl.
    + unfold parseFloat. rewrite or_zero_id. lia.
    + reflexivity.
Qed.

Lemma totalRevenue_sum (rows : list order_row) :
  totalRevenue rows = revenue_in_spec rows.
Proof.
  unfold totalRevenue. now rewrite totalRevenue_from.
Qed.

(** C5: the [totalRevenue] reduction equals the sum of the totals of
    exactly the orders whose status is not cancelled, it is 0 for no orders,
    and it is the figure that [GET /admin/analytics] reports to an
    administrator for the stored orders. *)
Theorem analytics_total_revenue
  (time : clock) (authorization : option string) (db : DB) :
  (forall rows, totalRevenue rows = revenue_in_spec rows)
  /\ totalRevenue [] = 0%Z
  /\ (forall user userData db1,
        verifyUser authorization db = Some user ->
        getOrCreateUserRecord (au_id user) (au_email user) db
        = Ok (userData, db1) ->
        u_role userData = "admin" ->
        exists report,
          get_admin_analytics time authorization db
          = (mkResponse 200 (BAnalytics report), db1)
          /\ st_totalRevenue (an_statistics report)
             = revenue_in_spec (orders db)).
Proof.
  split; [exact totalRevenue_sum|]. split; [reflexivity|].
  intros user userData db1 Hauth Hrow Hrole.
  unfold get_admin_analytics.
  erewrite with_admin_passes by eassumption.
  eexists. split; [reflexivity|]. simpl.
  destruct (getOrCreateUserRecord_tables _ _ _ Hrow) as (_ & -> & _).
  apply totalRevenue_sum.
Qed.

Lemma analytics_total_revenue_witness :
  exists report,
    get_admin_analytics sample_clock (Some "Bearer tok-root") sample_db
    = (mkResponse 200 (BAnalytics report), sample_db)
    /\ st_totalRevenue (an_statistics report)
       = revenue_in_spec (orders sample_db).
Proof.
  apply (proj2 (proj2 (analytics_total_revenue sample_clock
                         (Some "Bearer tok-root") sample_db))
           root (mkUser 2 "root@example.com" "admin" None None) sample_db);
    reflexivity.
Defined.

(** ** The cart *)

Lemma filter_nil (A : Type) (p : A -> bool) (rows : list A) :
  (forall r, In r rows -> p r = false) -> filter p rows = [].
Proof.
  intros Hnone. induction rows as [|r rows IH]; simpl; [reflexivity|].
  rewrite Hnone by now left. apply IH. intros; apply Hnone; now right.
Qed.

Lemma filter_key_unique (A : Type) (key : A -> uuid) (rows : list A) (r : A) :
  NoDup (map key rows) -> In r rows ->
  filter (fun x => key x =? key r) rows = [r].
Proof.
  induction rows as [|a rows IH]; intros Hkeys Hin; [contradiction|].
  simpl in Hkeys. apply NoDup_cons_iff in Hkeys. destruct Hkeys as [Hnew Hkeys].
  simpl. destruct Hin as [->|Hin].
  - rewrite Nat.eqb_refl. f_equal. apply filter_nil.
    intros x Hx. apply Nat.eqb_neq. intros Heq.
    apply Hnew. rewrite <- Heq. now apply in_map.
  - destruct (Nat.eqb_spec (key a) (key r)) as [Heq|_].
    + exfalso. apply Hnew. rewrite Heq. now apply in_map.
    + now apply IH.
Qed.





(** ** The default address *)

Lemma map_update_where (A B : Type) (key : A -> B) (sel : A -> bool)
  (f : A -> A) (rows : list A) :
  (forall r, key (f r) = key r) ->
  map key (update_where sel f rows) = map key rows.
Proof.
  intros Hkeep. unfold update_where. rewrite map_map.
  apply map_ext. intros r. destruct (sel r); [apply Hkeep|reflexivity].
Qed.

Lemma in_update_where (A : Type) (sel : A -> bool) (f : A -> A)
  (rows : list A) (a : A) :
  In a (update_where sel f rows) ->
  exists r, In r rows /\ a = if sel r then f r else r.
Proof.
  unfold update_where. intros Hin. apply in_map_iff in Hin.
  destruct Hin as (r & <- & Hr). now exists r.
Qed.

Lemma filter_length_le (A : Type) (p q : A -> bool) (rows : list A) :
  (forall r, In r rows -> p r = true -> q r = true) ->
  List.length (filter p rows) <= List.length (filter q rows).
Proof.
  induction rows as [|r rows IH]; intros Himp; simpl; [lia|].
  assert (IH' := IH (fun x Hx => Himp x (or_intror Hx))).
  destruct (p r) eqn:Hp.
  - rewrite (Himp r (or_introl eq_refl) Hp). simpl. lia.
  - destruct (q r); simpl; lia.
Qed.

Lemma filter_key_length (A : Type) (key : A -> uuid) (rows : list A)
  (k : uuid) :
  NoDup (map key rows) ->
  List.length (filter (fun x => key x =? k) rows) <= 1.
Proof.
  intros Hkeys.
  destruct (filter (fun x => key x =? k) rows) as [|r rest] eqn:Hrows;
    [simpl; lia|].
  assert (Hin : In r (filter (fun x => key x =? k) rows))
    by (rewrite Hrows; now left).
  apply filter_In in Hin. destruct Hin as [Hin Hk]. apply Nat.eqb_eq in Hk.
  rewrite <- Hk, (filter_key_unique key rows r Hkeys Hin) in Hrows.
  inversion Hrows. simpl. lia.
Qed.

(** After the two statements of [PUT /addresses/:id] (the second with any
    rewriting [f] of the selected rows that keeps their identifier), every
    default address of the user carries the identifier of the request. *)
Lemma others_cleared (uid addressId : uuid) (f : address_row -> address_row)
  (rows : list address_row) (a : address_row) :
  (forall r, a_id (f r) = a_id r) ->
  In a (update_where
          (fun r => (a_id r =? addressId) && (a_user_id r =? uid)) f
          (update_where
             (fun r => (a_user_id r =? uid) && negb (a_id r =? addressId))
             clear_default rows)) ->
  a_user_id a = uid -> a_is_default a = true -> a_id a = addressId.
Proof.
  intros Hkeep Hin Huser Hdefault.
  apply in_update_where in Hin. destruct Hin as (r1 & Hin & Ha).
  apply in_update_where in Hin. destruct Hin as (r & _ & Hr1).
  destruct (Nat.eqb_spec (a_id r) addressId) as [Hid|Hid].
  - rewrite andb_false_r in Hr1. subst r1. simpl in Ha.
    destruct (_ && _) in Ha; subst a; [rewrite Hkeep|]; exact Hid.
  - assert (Hr1id : a_id r1 = a_id r)
      by (rewrite Hr1; destruct ((a_user_id r =? uid) && negb false);
          reflexivity).
    assert (Hskip : (a_id r1 =? addressId) = false)
      by (apply Nat.eqb_neq; congruence).
    rewrite Hskip in Ha. simpl in Ha. subst a.
    rewrite andb_true_r in Hr1.
    destruct (Nat.eqb_spec (a_user_id r) uid) as [_|Hother].
    + subst r1. simpl in Hdefault. discriminate.
    + subst r1. contradiction.
Qed.

Lemma update_where_same (A : Type) (sel : A -> bool) (rows : list A) :
  update_where sel (fun r => r) rows = rows.
Proof.
  unfold update_where. rewrite <- (map_id rows) at 2.
  apply map_ext. intros r. now destruct (sel r).
Qed.

Lemma others_lose_default
  (authorization : option string) (user : auth_user)
  (addressData : address_data) (db : DB) :
  verifyUser authorization db = Some user ->
  ad_is_default addressData = Some true ->
  (let db' := snd (post_addresses authorization addressData db) in
   (forall a, In a (addresses db') -> a_user_id a = au_id user ->
              a_is_default a = true ->
              a_id a = fresh_uuid (map a_id (addresses db))
              /\ ~ In a (addresses db))
   /\ List.length (default_addresses (au_id user) db') <= 1)
  /\ (forall addressId,
        NoDup (map a_id (addresses db)) ->
        let db' := snd (put_address authorization addressId addressData db) in
        (forall a, In a (addresses db') -> a_user_id a = au_id user ->
                   a_is_default a = true -> a_id a = addressId)
        /\ List.length (default_addresses (au_id user) db') <= 1).
Proof.
  intros Hauth Hdefault. split.
  - cbv zeta. unfold post_addresses, with_user. rewrite Hauth, Hdefault.
    simpl or_else. cbv iota. fold clear_default.
    set (cleared := update_where (fun a => a_user_id a =? au_id user)
                      clear_default (addresses db)).
    assert (Hcleared : forall a, In a cleared -> a_user_id a = au_id user ->
                                 a_is_default a = false).
    { intros a Hin Huser. apply in_update_where in Hin.
      destruct Hin as (r & _ & ->).
      destruct (Nat.eqb_spec (a_user_id r) (au_id user)) as [_|Hother];
        [reflexivity|contradiction]. }
    assert (Hnone : filter (fun a => (a_user_id a =? au_id user)
                                     && a_is_default a) cleared = []).
    { apply filter_nil. intros a Hin.
      destruct (Nat.eqb_spec (a_user_id a) (au_id user)) as [Huser|_];
        [|reflexivity].
      now rewrite (Hcleared a Hin Huser). }
    assert (Hids : map a_id cleared = map a_id (addresses db))
      by (apply map_update_where; reflexivity).
    unfold addresses_insert.
    destruct (ad_name addressData), (ad_street addressData),
      (ad_city addressData), (ad_state addressData),
      (ad_postal_code addressData), (ad_country addressData);
      try (simpl; split;
           [intros a Hin Huser Hd; rewrite (Hcleared a Hin Huser) in Hd;
            discriminate
           |unfold default_addresses; simpl; fold cleared; rewrite Hnone;
            simpl; lia]).
    destruct (negb (has_user (au_id user) _));
      try (simpl; split;
           [intros a Hin Huser Hd; rewrite (Hcleared a Hin Huser) in Hd;
            discriminate
           |unfold default_addresses; simpl; fold cleared; rewrite Hnone;
            simpl; lia]).
    simpl. fold cleared. split.
    + intros a Hin Huser Hd. apply in_app_or in Hin.
      destruct Hin as [Hin|[<-|[]]].
      * rewrite (Hcleared a Hin Huser) in Hd. discriminate.
      * simpl. rewrite Hids. split; [reflexivity|].
        intros Hold. apply (in_map a_id) in Hold. simpl in Hold.
        apply fresh_uuid_new in Hold. now apply Hold.
    + unfold default_addresses. simpl.
      rewrite filter_app, Hnone, length_app. simpl.
      destruct (_ && _); simpl; lia.
  - intros addressId Hkeys. cbv zeta.
    unfold put_address, with_user. rewrite Hauth, Hdefault.
    simpl or_else. cbv iota. fold clear_default.
    set (cleared := update_where
                      (fun a => (a_user_id a =? au_id user)
                                && negb (a_id a =? addressId))
                      clear_default (addresses db)).
    assert (Hshape : exists f,
      (forall r, a_id (f r) = a_id r)
      /\ addresses
           (snd (match addresses_update addressData addressId (au_id user)
                         (set_addresses cleared db) with
                 | Err message =>
                     (mkResponse 400 (BError message),
                      set_addresses cleared db)
                 | Ok (data, db2) => (mkResponse 200 (BAddress data), db2)
                 end))
         = update_where
             (fun r => (a_id r =? addressId) && (a_user_id r =? au_id user))
             f cleared).
    { unfold addresses_update.
      destruct (existsb _ _ && negb _).
      - exists (fun r => r). split; [reflexivity|].
        simpl. now rewrite update_where_same.
      - destruct (single _).
        + exists (apply_address_data addressData). split; reflexivity.
        + exists (fun r => r). split; [reflexivity|].
          simpl. now rewrite update_where_same. }
    destruct Hshape as (f & Hkeep & Hrows).
    assert (Hone : forall a,
      In a (update_where
              (fun r => (a_id r =? addressId) && (a_user_id r =? au_id user))
              f cleared) ->
      a_user_id a = au_id user -> a_is_default a = true ->
      a_id a = addressId)
      by (intros a Hin; eapply others_cleared; eassumption).
    split.
    + intros a Hin. rewrite Hrows in Hin. now apply Hone.
    + unfold default_addresses. rewrite Hrows.
      etransitivity.
      * apply filter_length_le
          with (q := fun a : address_row => a_id a =? addressId).
        intros a Hin Hsel. apply andb_prop in Hsel. destruct Hsel as [Hu Hd].
        apply Nat.eqb_eq in Hu. apply Nat.eqb_eq. now apply Hone.
      * apply filter_key_length.
        unfold cleared. rewrite !map_update_where; try assumption.
        reflexivity.
Qed.

Lemma post_addresses_others (authorization : option string)
  (user : auth_user) (addressData : address_data) (db : DB) (other : uuid) :
  verifyUser authorization db = Some user ->
  other <> au_id user ->
  addresses_of other (snd (post_addresses authorization addressData db))
  = addresses_of other db.
Proof.
  intros Hauth Hother. unfold post_addresses, with_user. rewrite Hauth.
  set (db1 := if or_else (ad_is_default addressData) false
              then set_addresses
                     (update_where (fun a => a_user_id a =? au_id user)
                        (fun a => apply_address_data
                                    (mkAddressData None None None None None
                                       None None (Some false)) a)
                        (addresses db)) db
              else db).
  assert (Hdb1 : addresses_of other db1 = addresses_of other db).
  { unfold db1. destruct (or_else _ _); [|reflexivity].
    unfold addresses_of. simpl.
    rewrite filter_update_where by reflexivity.
    apply update_where_none. intros r Hr. apply filter_In in Hr.
    destruct Hr as [_ Hr]. apply Nat.eqb_eq in Hr.
    apply Nat.eqb_neq. congruence. }
  unfold addresses_insert.
  destruct (ad_name addressData), (ad_street addressData),
    (ad_city addressData), (ad_state addressData),
    (ad_postal_code addressData), (ad_country addressData);
    try exact Hdb1.
  destruct (negb _); [exact Hdb1|].
  unfold addresses_of in *. simpl. rewrite filter_app, Hdb1. simpl.
  destruct (Nat.eqb_spec (au_id user) other); [congruence|].
  apply app_nil_r.
Qed.

Lemma put_address_others (authorization : option string)
  (user : auth_user) (addressId : uuid) (addressData : address_data)
  (db : DB) (other : uuid) :
  verifyUser authorization db = Some user ->
  ad_user_id addressData = None ->
  other <> au_id user ->
  addresses_of other (snd (put_address authorization addressId addressData db))
  = addresses_of other db.
Proof.
  intros Hauth Hown Hother. unfold put_address, with_user. rewrite Hauth.
  set (db1 := if or_else (ad_is_default addressData) false
              then set_addresses
                     (update_where
                        (fun a => (a_user_id a =? au_id user)
                                  && negb (a_id a =? addressId))
                        (fun a => apply_address_data
                                    (mkAddressData None None None None None
                                       None None (Some false)) a)
                        (addresses db)) db
              else db).
  assert (Hdb1 : addresses_of other db1 = addresses_of other db).
  { unfold db1. destruct (or_else _ _); [|reflexivity].
    unfold addresses_of. simpl.
    rewrite filter_update_where by reflexivity.
    apply update_where_none. intros r Hr. apply filter_In in Hr.
    destruct Hr as [_ Hr]. apply Nat.eqb_eq in Hr.
    destruct (Nat.eqb_spec (a_user_id r) (au_id user)); [congruence|].
    reflexivity. }
  unfold addresses_update.
  destruct (existsb _ _ && negb _); [exact Hdb1|].
  destruct (single _); [|exact Hdb1].
  unfold addresses_of in *. simpl. rewrite <- Hdb1.
  rewrite filter_update_where.
  - apply update_where_none. intros r Hr. apply filter_In in Hr.
    destruct Hr as [_ Hr]. apply Nat.eqb_eq in Hr.
    destruct (Nat.eqb_spec (a_user_id r) (au_id user)); [congruence|].
    apply andb_false_r.
  - intros r. unfold apply_address_data. simpl. now rewrite Hown.
Qed.

(** C7, amended to the caller's own addresses: after [POST /addresses] or
    [PUT /addresses/:id] with [is_default] true, whether or not the store
    accepted the address, every address of the caller other than the one
    written has [is_default] false, so at most one address of the caller is
    the default; the addresses of every other user are as before after the
    insert, and after the update when the body carries no [user_id]. *)
Theorem default_address_is_unique
  (authorization : option string) (user : auth_user)
  (addressData : address_data) (db : DB) :
  verifyUser authorization db = Some user ->
  ad_is_default addressData = Some true ->
  (let db' := snd (post_addresses authorization addressData db) in
   (forall a, In a (addresses db') -> a_user_id a = au_id user ->
              a_is_default a = true ->
              a_id a = fresh_uuid (map a_id (addresses db))
              /\ ~ In a (addresses db))
   /\ List.length (default_addresses (au_id user) db') <= 1
   /\ (forall other, other <> au_id user ->
                     addresses_of other db' = addresses_of other db))
  /\ (forall addressId,
        NoDup (map a_id (addresses db)) ->
        let db' := snd (put_address authorization addressId addressData db) in
        (forall a, In a (addresses db') -> a_user_id a = au_id user ->
                   a_is_default a = true -> a_id a = addressId)
        /\ List.length (default_addresses (au_id user) db') <= 1
        /\ (ad_user_id addressData = None ->
            forall other, other <> au_id user ->
                          addresses_of other db' = addresses_of other db)).
Proof.
  intros Hauth Hdefault.
  destruct (@others_lose_default authorization user addressData db Hauth
              Hdefault)
    as [[Hpost1 Hpost2] Hput].
  split.
  - cbv zeta. split; [exact Hpost1|]. split; [exact Hpost2|].
    intros other Hother. now apply post_addresses_others with (user := user).
  - intros addressId Hkeys. cbv zeta.
    destruct (Hput addressId Hkeys) as [Hput1 Hput2].
    split; [exact Hput1|]. split; [exact Hput2|].
    intros Hown other Hother.
    now apply put_address_others with (user := user).
Qed.

Lemma default_address_is_unique_witness :
  (let db' := snd (post_addresses (Some "Bearer tok-alice") depot sample_db) in
   status (fst (post_addresses (Some "Bearer tok-alice") depot sample_db))
   = 201
   /\ List.length (default_addresses 1 db') <= 1
   /\ (forall other, other <> 1 ->
          addresses_of other db' = addresses_of other sample_db))
  /\ (let db' := snd (put_address (Some "Bearer tok-alice") 31 make_default
                        sample_db) in
      status (fst (put_address (Some "Bearer tok-alice") 31 make_default
                     sample_db)) = 200
      /\ List.length (default_addresses 1 db') <= 1
      /\ (forall other, other <> 1 ->
             addresses_of other db' = addresses_of other sample_db)).
Proof.
  destruct (@default_address_is_unique (Some "Bearer tok-alice") alice
              depot sample_db eq_refl eq_refl) as [Hpost _].
  destruct (@default_address_is_unique (Some "Bearer tok-alice") alice
              make_default sample_db eq_refl eq_refl) as [_ Hput].
  cbv zeta in *. split.
  - split; [reflexivity|]. exact (proj2 Hpost).
  - split; [reflexivity|].
    destruct (Hput 31) as (_ & Hone & Hothers).
    + simpl. repeat constructor; simpl; intuition discriminate.
    + split; [exact Hone|]. apply Hothers. reflexivity.
Defined.

(** C7 as stated fails for the other users: the body of the update is
    handed to the store as it is, [user_id] included.  Alice and root each
    have one default address; alice updates hers with the body
    [{user_id: <root>, is_default: true}]; the answer is 200, only alice's
    other addresses were cleared, and root now has two default addresses. *)
Lemma put_address_hands_over_default :
  let outcome := put_address (Some "Bearer tok-alice") 30 hand_over
                   shared_db in
  verifyUser (Some "Bearer tok-alice") shared_db = Some alice
  /\ List.length (default_addresses 1 shared_db) = 1
  /\ List.length (default_addresses 2 shared_db) = 1
  /\ status (fst outcome) = 200
  /\ map a_id (default_addresses 2 (snd outcome)) = [30; 32]
  /\ List.length (default_addresses 2 (snd outcome)) = 2.
Proof.
  cbv zeta. repeat split.
Qed.

(** ** The total of an order *)

Lemma reserve_stock_early (time : clock) (items : list line_item) :
  forall db early db1,
    reserve_stock time items db = (Some early, db1) -> status early <> 201.
Proof.
  induction items as [|item rest IH]; intros db early db1; simpl.
  - discriminate.
  - destruct (product_by_id (productId item) db) as [product|].
    + destruct (p_stock product <? quantity item)%Z.
      * intros H; inversion H. simpl. discriminate.
      * destruct (products_update_stock _ _ _ db) as [db2|].
        -- apply IH.
        -- intros H; inversion H. simpl. discriminate.
    + intros H; inversion H. simpl. discriminate.
Qed.

(** Whenever [POST /orders] answers 201, exactly one order was appended, and
    it carries the total of the request. *)
Lemma post_orders_created (time : clock) (authorization : option string)
  (items : list line_item) (total : money) (shippingAddress : string)
  (db : DB) :
  let outcome := post_orders time authorization items total shippingAddress
                   db in
  status (fst outcome) = 201 ->
  exists order,
    orders (snd outcome) = orders db ++ [order]
    /\ o_total order = parseFloat total
    /\ o_status order = "pending".
Proof.
  cbv zeta. unfold post_orders, with_user.
  destruct (verifyUser authorization db) as [user|]; [|simpl; discriminate].
  destruct (reserve_stock time items db) as [[early|] db1] eqn:Hrun.
  - simpl. intros H. exfalso. eapply reserve_stock_early; eassumption.
  - pose proof (reserve_stock_frame time items db) as Hframe.
    rewrite Hrun in Hframe. simpl in Hframe.
    destruct (only_products_tables Hframe)
      as (_ & _ & _ & _ & _ & Horders & _).
    unfold orders_insert.
    destruct (negb (in_decimal _)); [simpl; discriminate|].
    destruct (_ || _); [simpl; discriminate|].
    destruct (negb _); [simpl; discriminate|].
    unfold order_items_insert. cbv zeta.
    destruct (existsb _ _); [simpl; discriminate|].
    destruct (existsb _ _); [simpl; discriminate|].
    destruct (existsb _ _); [simpl; discriminate|].
    match goal with
    | |- context [ignore_error (activity_logs_insert ?t ?u ?e ?d ?n ?b) ?b] =>
        destruct (activity_logs_insert_frame t u e d n b) as (logs & ->)
    end.
    simpl.
    set (order := mkOrder (fresh_uuid (map o_id (orders db1))) (au_id user)
                    (au_email user) (parseFloat total) "pending"
                    shippingAddress (now time) (now time) None).
    change (fresh_uuid (map o_id (orders db1))) with (o_id order).
    rewrite single_fresh_row by reflexivity. simpl.
    intros _. exists order. rewrite Horders. repeat split.
Qed.

Lemma totalRevenue_new_order (rows : list order_row) (order : order_row) :
  o_status order = "pending" ->
  totalRevenue (rows ++ [order]) = (totalRevenue rows + o_total order)%Z.
Proof.
  intros Hstatus. unfold totalRevenue. rewrite fold_left_app. simpl.
  unfold is_cancelled, parseFloat. rewrite Hstatus, or_zero_id. reflexivity.
Qed.

(** C8: whenever [POST /orders] answers 201 the order it stored carries the
    total of the request as sent, and analytics revenue over the orders
    then stored is the earlier revenue plus that total; the total is not
    compared with the lines, and for some request it differs from the sum
    of price times quantity over the lines. *)
Theorem post_orders_total_unchecked :
  (forall time authorization items total shippingAddress db,
     let outcome := post_orders time authorization items total
                      shippingAddress db in
     status (fst outcome) = 201 ->
     exists order,
       orders (snd outcome) = orders db ++ [order]
       /\ o_total order = parseFloat total
       /\ totalRevenue (orders (snd outcome))
          = (totalRevenue (orders db) + total)%Z)
  /\ (exists time authorization items total shippingAddress db order,
        let outcome := post_orders time authorization items total
                         shippingAddress db in
        status (fst outcome) = 201
        /\ orders (snd outcome) = orders db ++ [order]
        /\ o_total order = total
        /\ o_total order <> lines_total items
        /\ totalRevenue (orders (snd outcome))
           = (totalRevenue (orders db) + total)%Z).
Proof.
  split.
  - intros time authorization items total shippingAddress db outcome Hok.
    destruct (post_orders_created time authorization items total
                shippingAddress db Hok) as (order & Horders & Htotal & Hstatus).
    exists order. fold outcome in Horders. split; [exact Horders|].
    split; [exact Htotal|].
    rewrite Horders, totalRevenue_new_order, Htotal by exact Hstatus.
    reflexivity.
  - exists sample_clock, (Some "Bearer tok-alice"),
      [three_widgets; one_gadget], 1%Z, "Home", sample_db.
    eexists. cbv zeta. split; [reflexivity|]. split; [reflexivity|].
    split; [reflexivity|]. split; [discriminate|reflexivity].
Qed.

Lemma post_orders_total_unchecked_witness :
  let outcome := post_orders sample_clock (Some "Bearer tok-alice")
                   [three_widgets; one_gadget] 1%Z "Home" sample_db in
  exists order,
    orders (snd outcome) = orders sample_db ++ [order]
    /\ o_total order = parseFloat 1%Z
    /\ totalRevenue (orders (snd outcome))
       = (totalRevenue (orders sample_db) + 1)%Z.
Proof.
  apply (proj1 post_orders_total_unchecked sample_clock
           (Some "Bearer tok-alice") [three_widgets; one_gadget] 1%Z "Home"
           sample_db).
  reflexivity.
Defined.

(** ** The role of a first-time caller *)




Lemma existsb_false_in (A : Type) (p : A -> bool) (rows : list A) (r : A) :
  existsb p rows = false -> In r rows -> p r = false.
Proof.
  intros Hnone Hin. destruct (p r) eqn:Hr; [|reflexivity].
  assert (existsb p rows = true) by (apply existsb_exists; now exists r).
  congruence.
Qed.





Lemma sample_db_mirrored : accounts_mirrored sample_db.
Proof.
  split.
  - simpl. repeat constructor; simpl; intuition discriminate.
  - intros u [<-|[<-|[]]]; simpl; auto.
Qed.


(** ** The log of a status change *)



(** * Further properties of the handlers *)

(** ** Tokens and accounts *)

Lemma replace_absent (pattern replacement s : string) :
  includes pattern s = false -> replace pattern replacement s = s.
Proof.
  induction s as [|c rest IH]; simpl; intros Habsent.
  - apply orb_false_elim in Habsent. destruct Habsent as [-> _]. reflexivity.
  - apply orb_false_elim in Habsent. destruct Habsent as [-> Hrest].
    now rewrite IH.
Qed.

(** X1: [verifyUser] looks the token up with the scheme "Bearer " cut off,
    so a header that is the bare token is accepted exactly like the header
    with the scheme; a missing or empty header is no user at all. *)
Theorem verifyUser_scheme_is_optional (token : string) (db : DB) :
  verifyUser (Some (String.append "Bearer " token)) db = getUser token db
  /\ (includes "Bearer " token = false -> token <> "" ->
      verifyUser (Some token) db = getUser token db)
  /\ verifyUser None db = None
  /\ verifyUser (Some "") db = None.
Proof.
  split; [|split; [|split; reflexivity]].
  - destruct token; reflexivity.
  - intros Habsent Hfilled. unfold verifyUser.
    destruct (String.eqb_spec token ""); [contradiction|].
    now rewrite replace_absent.
Qed.

Lemma verifyUser_scheme_is_optional_witness :
  verifyUser (Some "tok-alice") sample_db = getUser "tok-alice" sample_db.
Proof.
  apply (proj1 (proj2 (verifyUser_scheme_is_optional "tok-alice" sample_db))).
  - reflexivity.
  - discriminate.
Defined.

Lemma users_insert_shape (row : user_row) (db db' : DB) :
  users_insert row db = Ok db' ->
  filter (fun u => u_id u =? u_id row) (users db) = []
  /\ db' = set_users (users db ++ [row]) db.
Proof.
  unfold users_insert.
  destruct (existsb _ (users db)) eqn:Hfree; [discriminate|].
  destruct (negb _); [discriminate|].
  destruct (negb _); [discriminate|].
  intros H. inversion H. split; [|reflexivity].
  apply filter_nil. intros u Hin.
  pose proof (existsb_false_in _ _ u Hfree Hin) as Hu.
  now apply orb_false_elim in Hu.
Qed.

(** X2: once [getOrCreateUserRecord] has answered for an account, asking
    again changes nothing and yields the same row, whatever email the
    account carries by then: the role is computed from the email only when
    the row is created. *)
Theorem getOrCreateUserRecord_settles
  (uid : uuid) (email : string) (db db1 : DB) (row : user_row) :
  getOrCreateUserRecord uid email db = Ok (row, db1) ->
  forall later_email,
    getOrCreateUserRecord uid later_email db1 = Ok (row, db1).
Proof.
  unfold getOrCreateUserRecord.
  destruct (single (filter (fun u => u_id u =? uid) (users db)))
    as [existing|] eqn:Hone.
  - intros H later_email. inversion H; subst. now rewrite Hone.
  - destruct (users_insert _ db) as [db'|] eqn:Hinsert; [|discriminate].
    intros H later_email. inversion H; subst row db1; clear H.
    apply users_insert_shape in Hinsert. simpl in Hinsert.
    destruct Hinsert as [Hnew ->]. simpl.
    rewrite filter_app, Hnew. simpl. now rewrite Nat.eqb_refl.
Qed.

Lemma getOrCreateUserRecord_settles_witness :
  getOrCreateUserRecord 3 "admin@tawsil.com"
    (set_users (users sample_db
                ++ [mkUser 3 "bob@example.com" "user" None None]) sample_db)
  = Ok (mkUser 3 "bob@example.com" "user" None None,
        set_users (users sample_db
                   ++ [mkUser 3 "bob@example.com" "user" None None]) sample_db).
Proof.
  apply (@getOrCreateUserRecord_settles 3 "bob@example.com" sample_db).
  reflexivity.
Defined.

Lemma createUser_new (email : string) (db : DB) :
  existsb (fun a => String.eqb (au_email a) email) (accounts db) = false ->
  createUser email db
  = Ok (mkAuthUser (fresh_uuid (map au_id (accounts db))) email,
        set_accounts
          (accounts db
           ++ [mkAuthUser (fresh_uuid (map au_id (accounts db))) email]) db).
Proof.
  intros Hfree. unfold createUser. now rewrite Hfree.
Qed.

Lemma mirrored_row_is_new (email : string) (db : DB) (u : user_row) :
  accounts_mirrored db ->
  existsb (fun a => String.eqb (au_email a) email) (accounts db) = false ->
  In u (users db) ->
  (u_id u =? fresh_uuid (map au_id (accounts db)))
  || String.eqb (u_email u) email = false.
Proof.
  intros [_ Hmirror] Hfree Hin. specialize (Hmirror u Hin).
  apply orb_false_intro.
  - apply Nat.eqb_neq. apply fresh_uuid_new.
    now apply (in_map au_id) in Hmirror.
  - exact (existsb_false_in _ _ _ Hfree Hmirror).
Qed.

(** X3: over a database whose [users] rows mirror the accounts, signup with
    an email that an account holds answers 400 and changes nothing; with a
    new email it answers 201, adds one account and one [users] row with the
    role user for it, and the rows still mirror the accounts. *)
Theorem post_signup_registers
  (email : string) (user_name : option string) (db : DB) :
  accounts_mirrored db ->
  let outcome := post_signup email user_name db in
  (existsb (fun a => String.eqb (au_email a) email) (accounts db) = true ->
   status (fst outcome) = 400 /\ snd outcome = db)
  /\ (existsb (fun a => String.eqb (au_email a) email) (accounts db) = false ->
      exists account row,
        fst outcome = mkResponse 201 (BUser row)
        /\ row = mkUser (au_id account) email "user" user_name None
        /\ au_email account = email
        /\ accounts (snd outcome) = accounts db ++ [account]
        /\ users (snd outcome) = users db ++ [row]
        /\ accounts_mirrored (snd outcome)).
Proof.
  intros Hmirror. cbv zeta. split.
  - intros Htaken. unfold post_signup, createUser. rewrite Htaken.
    destruct (includes _ _); split; reflexivity.
  - intros Hfree. unfold post_signup. rewrite createUser_new by assumption.
    set (account := mkAuthUser (fresh_uuid (map au_id (accounts db))) email).
    set (row := mkUser (au_id account) email "user" user_name None).
    assert (Hinsert :
      users_insert row (set_accounts (accounts db ++ [account]) db)
      = Ok (set_users (users db ++ [row])
              (set_accounts (accounts db ++ [account]) db))).
    { unfold users_insert. simpl users. simpl accounts.
      rewrite (existsb_none _ (users db))
        by (intros u Hin; now apply mirrored_row_is_new).
      simpl. rewrite existsb_app. simpl. rewrite Nat.eqb_refl.
      now rewrite orb_true_r. }
    rewrite Hinsert. exists account, row. simpl.
    repeat split.
    + destruct Hmirror as [Hemails _]. simpl. rewrite map_app. simpl.
      apply NoDup_app_remove_l with (l := []). simpl.
      clear Hinsert. revert Hemails Hfree.
      induction (accounts db) as [|a rest IH]; simpl; intros Hemails Hfree.
      * constructor; [tauto|constructor].
      * apply NoDup_cons_iff in Hemails. destruct Hemails as [Hnew Hemails].
        apply orb_false_elim in Hfree. destruct Hfree as [Ha Hfree].
        constructor; [|now apply IH].
        rewrite in_app_iff. intros [Hin|[Heq|[]]]; [now apply Hnew|].
        apply String.eqb_neq in Ha. congruence.
    + intros u Hin. simpl in Hin. apply in_app_or in Hin. simpl.
      apply in_or_app. destruct Hin as [Hin|[<-|[]]].
      * left. now apply Hmirror.
      * right. now left.
Qed.

Lemma post_signup_registers_witness :
  exists account row,
    fst (post_signup "dana@example.com" (Some "Dana") sample_db)
    = mkResponse 201 (BUser row)
    /\ row = mkUser (au_id account) "dana@example.com" "user" (Some "Dana") None
    /\ au_email account = "dana@example.com"
    /\ accounts (snd (post_signup "dana@example.com" (Some "Dana") sample_db))
       = accounts sample_db ++ [account]
    /\ users (snd (post_signup "dana@example.com" (Some "Dana") sample_db))
       = users sample_db ++ [row]
    /\ accounts_mirrored
         (snd (post_signup "dana@example.com" (Some "Dana") sample_db)).
Proof.
  apply (proj2 (@post_signup_registers "dana@example.com" (Some "Dana")
                  sample_db sample_db_mirrored)).
  reflexivity.
Defined.

Lemma filter_all (A : Type) (p : A -> bool) (rows : list A) :
  (forall r, In r rows -> p r = true) -> filter p rows = rows.
Proof.
  intros Hall. induction rows as [|r rows IH]; simpl; [reflexivity|].
  rewrite Hall by now left. f_equal. apply IH. intros; apply Hall; now right.
Qed.

Lemma delete_where_fresh (A : Type) (key : A -> uuid) (rows : list A) (a : A) :
  key a = fresh_uuid (map key rows) ->
  delete_where (fun r => key r =? key a) (rows ++ [a]) = rows.
Proof.
  intros Hkey. unfold delete_where. rewrite filter_app. simpl.
  rewrite Nat.eqb_refl. simpl. rewrite app_nil_r.
  apply filter_all. intros r Hr.
  apply negb_true_iff, Nat.eqb_neq. rewrite Hkey.
  apply fresh_uuid_new. now apply in_map.
Qed.

(** X4: when the provider accepts the email but the [users] table refuses
    the row because a row already holds that email, signup answers 400 and
    withdraws the account it had just created, whereas create-admin answers
    400 and leaves that account behind, without a [users] row. *)
Theorem refused_row_and_the_account
  (email : string) (user_name : option string) (db : DB) :
  existsb (fun a => String.eqb (au_email a) email) (accounts db) = false ->
  existsb (fun u => String.eqb (u_email u) email) (users db) = true ->
  let signed := post_signup email user_name db in
  let promoted := post_create_admin email user_name db in
  let orphan := mkAuthUser (fresh_uuid (map au_id (accounts db))) email in
  status (fst signed) = 400
  /\ accounts (snd signed) = accounts db
  /\ status (fst promoted) = 400
  /\ accounts (snd promoted) = accounts db ++ [orphan]
  /\ users (snd promoted) = users db.
Proof.
  intros Hfree Hheld. cbv zeta.
  set (orphan := mkAuthUser (fresh_uuid (map au_id (accounts db))) email).
  assert (Hrefused : forall role,
    users_insert (mkUser (au_id orphan) email role user_name None)
      (set_accounts (accounts db ++ [orphan]) db) = Err unique_violation).
  { intros role. unfold users_insert. simpl users. simpl u_email.
    replace (existsb _ (users db)) with true; [reflexivity|].
    symmetry. apply existsb_exists. apply existsb_exists in Hheld.
    destruct Hheld as (u & Hin & Hu). exists u. split; [exact Hin|].
    now rewrite Hu, orb_true_r. }
  unfold post_signup, post_create_admin.
  rewrite createUser_new by assumption. fold orphan.
  rewrite !Hrefused. simpl.
  split; [reflexivity|]. split.
  - change (delete_where (fun a => au_id a =? au_id orphan)
              (accounts db ++ [orphan]) = accounts db).
    now apply delete_where_fresh.
  - repeat split.
Qed.

Lemma refused_row_and_the_account_witness :
  status (fst (post_signup "carol@example.com" None stray_db)) = 400
  /\ accounts (snd (post_signup "carol@example.com" None stray_db))
     = accounts stray_db
  /\ status (fst (post_create_admin "carol@example.com" None stray_db)) = 400
  /\ accounts (snd (post_create_admin "carol@example.com" None stray_db))
     = accounts stray_db ++ [mkAuthUser 5 "carol@example.com"]
  /\ users (snd (post_create_admin "carol@example.com" None stray_db))
     = users stray_db.
Proof.
  apply (@refused_row_and_the_account "carol@example.com" None stray_db);
    reflexivity.
Defined.

(** ** Stock never turns negative *)

Lemma products_update_stock_keeps (pid : uuid) (stock : Z) (t : timestamp)
  (db db' : DB) :
  products_update_stock pid stock t db = Ok db' ->
  (stocks_nonneg db -> stocks_nonneg db') /\ catalog db' = catalog db.
Proof.
  unfold products_update_stock.
  destruct (negb (in_integer stock)); [discriminate|].
  destruct (has_product pid db && (stock <? 0)%Z) eqn:Hcheck; [discriminate|].
  intros H. inversion H; subst db'; clear H. split.
  - unfold stocks_nonneg, update_where. simpl. intros Hold.
    rewrite Forall_map. rewrite Forall_forall in *.
    intros p Hin. destruct (p_id p =? pid) eqn:Hsel; [|now apply Hold].
    simpl. apply andb_false_elim in Hcheck.
    destruct Hcheck as [Hnone|Hstock]; [|apply Z.ltb_ge; exact Hstock].
    exfalso. unfold has_product in Hnone.
    now rewrite (existsb_false_in _ _ p Hnone Hin) in Hsel.
  - unfold catalog, update_where. simpl. rewrite map_map.
    apply map_ext. intros p. now destruct (p_id p =? pid).
Qed.

Lemma reserve_stock_keeps (time : clock) (items : list line_item) :
  forall db,
    (stocks_nonneg db -> stocks_nonneg (snd (reserve_stock time items db)))
    /\ catalog (snd (reserve_stock time items db)) = catalog db.
Proof.
  induction items as [|item rest IH]; intros db; simpl; [tauto|].
  destruct (product_by_id (productId item) db) as [product|]; [|tauto].
  destruct (p_stock product <? quantity item)%Z; [tauto|].
  destruct (products_update_stock _ _ _ db) as [db1|] eqn:Hup; [|tauto].
  destruct (products_update_stock_keeps _ _ _ _ Hup) as [Hstep Hsame].
  destruct (IH db1) as [Hrest Hsame'].
  split; [tauto|congruence].
Qed.

Lemma restock_keeps (time : clock) (lines : list order_item_row) :
  forall db,
    (stocks_nonneg db -> stocks_nonneg (restock time lines db))
    /\ catalog (restock time lines db) = catalog db.
Proof.
  induction lines as [|line rest IH]; intros db; simpl; [tauto|].
  destruct (product_by_id (oi_product_id line) db) as [product|]; [|apply IH].
  destruct (products_update_stock _ _ _ db) as [db1|] eqn:Hup; simpl;
    [|apply IH].
  destruct (products_update_stock_keeps _ _ _ _ Hup) as [Hstep Hsame].
  destruct (IH db1) as [Hrest Hsame'].
  split; [tauto|congruence].
Qed.

Lemma post_orders_products (time : clock) (authorization : option string)
  (items : list line_item) (total : money) (shippingAddress : string)
  (db : DB) :
  products (snd (post_orders time authorization items total shippingAddress db))
  = match verifyUser authorization db with
    | Some _ => products (snd (reserve_stock time items db))
    | None => products db
    end.
Proof.
  unfold post_orders, with_user.
  destruct (verifyUser authorization db) as [user|]; [|reflexivity].
  destruct (reserve_stock time items db) as [[early|] db1]; [reflexivity|].
  simpl snd at 2. unfold orders_insert.
  destruct (negb (in_decimal _)); [reflexivity|].
  destruct (_ || _); [reflexivity|].
  destruct (negb _); [reflexivity|].
  unfold order_items_insert. cbv zeta.
  destruct (existsb _ _); [reflexivity|].
  destruct (existsb _ _); [reflexivity|].
  destruct (existsb _ _); [reflexivity|].
  match goal with
  | |- context [ignore_error (activity_logs_insert ?t ?u ?e ?d ?n ?b) ?b] =>
      destruct (activity_logs_insert_frame t u e d n b) as (logs & ->)
  end.
  simpl. now destruct (single _).
Qed.

Lemma put_order_status_products (time : clock) (authorization : option string)
  (orderId : uuid) (new_status : string) (db : DB) :
  let after := products (snd (put_order_status time authorization orderId
                                new_status db)) in
  after = products db
  \/ exists lines db1,
       products db1 = products db
       /\ after = products (restock time lines db1).
Proof.
  cbv zeta. unfold put_order_status, with_admin, with_user.
  destruct (verifyUser authorization db) as [user|]; [|now left].
  destruct (getOrCreateUserRecord _ _ db) as [[userData db1]|] eqn:Hrow;
    [|now left].
  destruct (getOrCreateUserRecord_tables _ _ _ Hrow) as (Hproducts & _).
  destruct (negb _); [now left|].
  destruct (single _) as [order|]; [|now left].
  set (db2 := if String.eqb new_status "cancelled"
                 && negb (String.eqb (o_status order) "cancelled")
              then restock time (ov_order_items (view_order order db1)) db1
              else db1).
  assert (Hafter :
    products
      (snd (match orders_update_status orderId new_status (now time)
                    (au_id user) db2 with
            | Ok (updatedOrder, db3) =>
                (mkResponse 200 (BOrder (view_order updatedOrder db3)),
                 ignore_error
                   (activity_logs_insert "order_status_updated" (au_id user)
                      (au_email user)
                      [("order_id", JId orderId);
                       ("previous_status", JStr (o_status order));
                       ("newStatus", JStr new_status)] (now time) db3) db3)
            | Err message => (mkResponse 400 (BError message), db2)
            end)) = products db2).
  { destruct (orders_update_status _ _ _ _ db2) as [[updated db3]|] eqn:Hup;
      [|reflexivity].
    apply orders_update_status_frame in Hup.
    destruct (activity_logs_insert_frame "order_status_updated" (au_id user)
                (au_email user)
                [("order_id", JId orderId);
                 ("previous_status", JStr (o_status order));
                 ("newStatus", JStr new_status)] (now time) db3)
      as (logs & ->).
    simpl. now rewrite Hup. }
  rewrite Hafter. unfold db2.
  destruct (_ && _); [right|left; exact Hproducts].
  exists (ov_order_items (view_order order db1)), db1. now split.
Qed.

(** X5: whatever the request and whoever sends it, [POST /orders] leaves
    every stock non-negative when every stock was, and it neither adds nor
    removes a product nor changes a product's name, price or category. *)
Theorem post_orders_keeps_stock_nonneg
  (time : clock) (authorization : option string) (items : list line_item)
  (total : money) (shippingAddress : string) (db : DB) :
  let db' := snd (post_orders time authorization items total shippingAddress
                    db) in
  (stocks_nonneg db -> stocks_nonneg db') /\ catalog db' = catalog db.
Proof.
  cbv zeta. unfold stocks_nonneg, catalog.
  rewrite post_orders_products.
  destruct (verifyUser authorization db); [|tauto].
  apply reserve_stock_keeps.
Qed.

Lemma post_orders_keeps_stock_nonneg_witness :
  stocks_nonneg
    (snd (post_orders sample_clock (Some "Bearer tok-alice")
            [three_widgets; nine_gadgets] 0%Z "Home" sample_db)).
Proof.
  apply (proj1 (post_orders_keeps_stock_nonneg sample_clock
                  (Some "Bearer tok-alice") [three_widgets; nine_gadgets]
                  0%Z "Home" sample_db)).
  unfold stocks_nonneg. simpl. repeat constructor; simpl; lia.
Defined.

(** X6: whatever the request and whoever sends it,
    [PUT /orders/:id/status] leaves every stock non-negative when every
    stock was, and it neither adds nor removes a product nor changes a
    product's name, price or category. *)
Theorem put_order_status_keeps_stock_nonneg
  (time : clock) (authorization : option string) (orderId : uuid)
  (new_status : string) (db : DB) :
  let db' := snd (put_order_status time authorization orderId new_status db) in
  (stocks_nonneg db -> stocks_nonneg db') /\ catalog db' = catalog db.
Proof.
  cbv zeta. unfold stocks_nonneg, catalog.
  destruct (put_order_status_products time authorization orderId new_status db)
    as [->|(lines & db1 & Hsame & ->)]; [tauto|].
  destruct (restock_keeps time lines db1) as [Hkeep Hcatalog].
  unfold stocks_nonneg, catalog in *. rewrite Hsame in *. tauto.
Qed.

Lemma put_order_status_keeps_stock_nonneg_witness :
  stocks_nonneg
    (snd (put_order_status sample_clock (Some "Bearer tok-root") 40
            "cancelled" sample_db)).
Proof.
  apply (proj1 (put_order_status_keeps_stock_nonneg sample_clock
                  (Some "Bearer tok-root") 40 "cancelled" sample_db)).
  unfold stocks_nonneg. simpl. repeat constructor; simpl; lia.
Defined.

Lemma single_none_length (A : Type) (rows : list A) :
  single rows = None <-> List.length rows <> 1.
Proof.
  destruct rows as [|r [|r' rest]]; simpl; split; intros H;
    try reflexivity; try discriminate; try lia.
Qed.

Lemma filter_key_count (A : Type) (key : A -> uuid) (k : uuid)
  (rows : list A) :
  List.length (filter (fun r => key r =? k) rows)
  = List.length (filter (fun id => id =? k) (map key rows)).
Proof.
  induction rows as [|r rows IH]; simpl; [reflexivity|].
  destruct (key r =? k); simpl; now rewrite IH.
Qed.

(** The loop of [POST /orders] neither adds nor removes a product, so a
    product that is not stored when the request arrives is not stored when
    the loop reaches its line. *)
Lemma reserve_stock_keeps_missing (time : clock) (items : list line_item)
  (db : DB) (pid : uuid) :
  product_by_id pid db = None ->
  product_by_id pid (snd (reserve_stock time items db)) = None.
Proof.
  unfold product_by_id. rewrite 2 single_none_length.
  rewrite (filter_key_count p_id pid (products db)).
  rewrite (filter_key_count p_id pid
             (products (snd (reserve_stock time items db)))).
  destruct (reserve_stock_keeps time items db) as [_ Hcatalog].
  assert (Hids : map p_id (products (snd (reserve_stock time items db)))
                 = map p_id (products db)).
  { unfold catalog in Hcatalog.
    apply (f_equal (map (fun entry : uuid * string * money * option uuid =>
                           fst (fst (fst entry))))) in Hcatalog.
    rewrite !map_map in Hcatalog. exact Hcatalog. }
  now rewrite Hids.
Qed.

(** X7: for an authenticated caller, whatever lines the loop has already
    processed, when it reaches a line that names a product the store does
    not hold, [POST /orders] answers 404 "Product ... not found", stores no
    order and no order line, and leaves the database as the earlier lines
    left it, their stock changes included; nothing at all changes when the
    line is the first. *)
Theorem post_orders_unknown_product
  (time : clock) (authorization : option string) (user : auth_user)
  (before after : list line_item) (item : line_item) (total : money)
  (shippingAddress : string) (db db1 : DB) :
  verifyUser authorization db = Some user ->
  reserve_stock time before db = (None, db1) ->
  product_by_id (productId item) db = None ->
  let outcome := post_orders time authorization (before ++ item :: after)
                   total shippingAddress db in
  outcome
  = (mkResponse 404
       (BError (String.append "Product "
                  (String.append (name item) " not found"))), db1)
  /\ orders (snd outcome) = orders db
  /\ order_items (snd outcome) = order_items db
  /\ only_products db (snd outcome)
  /\ (before = [] -> snd outcome = db).
Proof.
  intros Hauth Hrun Hmissing. cbv zeta.
  pose proof (reserve_stock_frame time before db) as Hframe.
  pose proof (@reserve_stock_keeps_missing time before db _ Hmissing)
    as Hmissing1.
  rewrite Hrun in Hframe, Hmissing1. simpl in Hframe, Hmissing1.
  destruct (only_products_tables Hframe)
    as (_ & _ & _ & _ & _ & Horders & Hitems & _).
  assert (Houtcome :
    post_orders time authorization (before ++ item :: after) total
      shippingAddress db
    = (mkResponse 404
         (BError (String.append "Product "
                    (String.append (name item) " not found"))), db1)).
  { unfold post_orders, with_user. rewrite Hauth, reserve_stock_app, Hrun.
    simpl. now rewrite Hmissing1. }
  rewrite Houtcome. simpl snd.
  split; [reflexivity|]. split; [exact Horders|]. split; [exact Hitems|].
  split; [exact Hframe|].
  intros ->. simpl in Hrun. congruence.
Qed.

Lemma post_orders_unknown_product_witness :
  let outcome := post_orders sample_clock (Some "Bearer tok-alice")
                   ([three_widgets] ++ mkLine 99 "Ghost" 100%Z 1%Z :: [])
                   850%Z "Home" sample_db in
  outcome
  = (mkResponse 404 (BError "Product Ghost not found"),
     snd (reserve_stock sample_clock [three_widgets] sample_db))
  /\ orders (snd outcome) = orders sample_db
  /\ order_items (snd outcome) = order_items sample_db
  /\ only_products sample_db (snd outcome)
  /\ ([three_widgets] = [] -> snd outcome = sample_db).
Proof.
  apply (@post_orders_unknown_product sample_clock (Some "Bearer tok-alice")
           alice [three_widgets] [] (mkLine 99 "Ghost" 100%Z 1%Z) 850%Z
           "Home" sample_db
           (snd (reserve_stock sample_clock [three_widgets] sample_db)));
    reflexivity.
Defined.

(** ** What an accepted order leaves behind *)

Lemma only_products_rest (db db' : DB) :
  only_products db db' ->
  categories db' = categories db /\ wishlist_items db' = wishlist_items db.
Proof.
  unfold only_products. intros H. rewrite H. simpl. now split.
Qed.

Lemma item_count_sum (items : list line_item) :
  fold_left (fun sum i => (sum + quantity i)%Z) items 0%Z
  = sumZ (map quantity items).
Proof.
  assert (H : forall start,
    fold_left (fun sum i => (sum + quantity i)%Z) items start
    = (start + sumZ (map quantity items))%Z).
  { induction items as [|item rest IH]; intros start; simpl; [lia|].
    rewrite IH. lia. }
  now rewrite H.
Qed.

(** The database and the response of a [POST /orders] that answered 201. *)
Lemma post_orders_accepted (time : clock) (authorization : option string)
  (items : list line_item) (total : money) (shippingAddress : string)
  (db : DB) :
  status (fst (post_orders time authorization items total shippingAddress db))
  = 201 ->
  exists user db1,
    let order := mkOrder (fresh_uuid (map o_id (orders db))) (au_id user)
                   (au_email user) total "pending" shippingAddress
                   (now time) (now time) None in
    let rows := number (fresh_uuid (map oi_id (order_items db)))
                  (map (fun item id =>
                          mkOrderItem id (o_id order) (productId item)
                            (name item) (price item) (quantity item)) items) in
    let log := mkLog (fresh_uuid (map l_id (activity_logs db)))
                 "order_created" (Some (au_id user)) (au_email user)
                 [("order_id", JId (o_id order));
                  ("total_amount", JNum total);
                  ("item_count", JNum (sumZ (map quantity items)))]
                 (now time) in
    let db' := mkDB (accounts db) (sessions db) (users db) (categories db)
                 (products db1) (addresses db)
                 (delete_where (fun c => ci_user_id c =? au_id user)
                    (cart_items db))
                 (wishlist_items db) (orders db ++ [order])
                 (order_items db ++ rows) (activity_logs db ++ [log]) in
    verifyUser authorization db = Some user
    /\ reserve_stock time items db = (None, db1)
    /\ (forall item, In item items -> (0 < quantity item)%Z)
    /\ post_orders time authorization items total shippingAddress db
       = (mkResponse 201 (BOrder (view_order order db')), db').
Proof.
  unfold post_orders, with_user.
  destruct (verifyUser authorization db) as [user|]; [|simpl; discriminate].
  destruct (reserve_stock time items db) as [[early|] db1] eqn:Hrun.
  { simpl. intros H. exfalso. eapply reserve_stock_early; eassumption. }
  pose proof (reserve_stock_frame time items db) as Hframe.
  rewrite Hrun in Hframe. simpl in Hframe.
  destruct (only_products_tables Hframe)
    as (Haccounts & Hsessions & Husers & Haddresses & Hcart & Horders
        & Hlines & Hlogs).
  destruct (only_products_rest Hframe) as (Hcategories & Hwishes).
  unfold orders_insert, parseFloat.
  destruct (negb (in_decimal total)); [simpl; discriminate|].
  destruct (_ || _); [simpl; discriminate|].
  destruct (negb (has_user (au_id user) db1)) eqn:Huser; [simpl; discriminate|].
  unfold order_items_insert. cbv zeta.
  destruct (existsb (fun r => negb (in_decimal _) || negb (in_integer _)) _);
    [simpl; discriminate|].
  destruct (existsb (fun r => (oi_quantity r <=? 0)%Z) _) eqn:Hquantity;
    [simpl; discriminate|].
  destruct (existsb (fun r => negb (has_order _ _) || negb _) _);
    [simpl; discriminate|].
  unfold activity_logs_insert.
  replace (has_user (au_id user) _) with true
    by (apply negb_false_iff in Huser; symmetry; exact Huser).
  simpl.
  set (order := mkOrder (fresh_uuid (map o_id (orders db1))) (au_id user)
                  (au_email user) total "pending" shippingAddress (now time)
                  (now time) None).
  change (fresh_uuid (map o_id (orders db1))) with (o_id order).
  rewrite single_fresh_row by reflexivity. simpl.
  intros _. exists user, db1.
  split; [reflexivity|]. split; [reflexivity|]. split.
  - intros item Hin. simpl in Hquantity.
    rewrite existsb_as_map in Hquantity.
    rewrite map_number with (h := fun item => (quantity item <=? 0)%Z)
      in Hquantity by reflexivity.
    rewrite <- existsb_as_map in Hquantity.
    pose proof (existsb_false_in _ _ item Hquantity Hin) as Hitem.
    simpl in Hitem. now apply Z.leb_gt in Hitem.
  - unfold order. rewrite item_count_sum.
    unfold set_cart_items, set_activity_logs, set_order_items, set_orders.
    simpl.
    rewrite ?Haccounts, ?Hsessions, ?Husers, ?Hcategories, ?Haddresses,
      ?Hcart, ?Hwishes, ?Horders, ?Hlines, ?Hlogs.
    reflexivity.
Qed.

Lemma verifyUser_same (authorization : option string) (db db' : DB) :
  accounts db' = accounts db -> sessions db' = sessions db ->
  verifyUser authorization db' = verifyUser authorization db.
Proof.
  intros Haccounts Hsessions. unfold verifyUser, getUser.
  now rewrite Haccounts, Hsessions.
Qed.



(** ** Status changes, step by step *)

Lemma getOrCreateUserRecord_existing (uid : uuid) (email : string) (db : DB)
  (row : user_row) :
  single (filter (fun u => u_id u =? uid) (users db)) = Some row ->
  getOrCreateUserRecord uid email db = Ok (row, db).
Proof.
  intros Hrow. unfold getOrCreateUserRecord. now rewrite Hrow.
Qed.

Lemma single_in (A : Type) (sel : A -> bool) (rows : list A) (r : A) :
  single (filter sel rows) = Some r -> In r rows /\ sel r = true.
Proof.
  intros Hone. apply single_some in Hone.
  assert (Hin : In r (filter sel rows)) by (rewrite Hone; now left).
  now apply filter_In in Hin.
Qed.

Lemma stock_of_products (pid : uuid) (db db' : DB) :
  products db' = products db -> stock_of pid db' = stock_of pid db.
Proof.
  intros Hsame. unfold stock_of, product_by_id. now rewrite Hsame.
Qed.

Lemma stock_of_nonneg (db : DB) :
  stocks_nonneg db -> forall pid s, stock_of pid db = Some s -> (0 <= s)%Z.
Proof.
  intros Hall pid s Hs.
  destruct (stock_of_product _ _ Hs) as (p & Hp & <-).
  apply single_in in Hp. destruct Hp as [Hin _].
  unfold stocks_nonneg in Hall. rewrite Forall_forall in Hall.
  now apply Hall.
Qed.

(** What an accepted status change by an administrator who has a row
    leaves behind. *)
Lemma put_order_status_runs (time : clock) (authorization : option string)
  (orderId : uuid) (new_status : string) (db : DB) (user : auth_user)
  (row : user_row) (order : order_row) :
  verifyUser authorization db = Some user ->
  single (filter (fun u => u_id u =? au_id user) (users db)) = Some row ->
  u_role row = "admin" ->
  single (filter (fun o => o_id o =? orderId) (orders db)) = Some order ->
  valid_status new_status = true ->
  let outcome := put_order_status time authorization orderId new_status db in
  let db2 := if String.eqb new_status "cancelled"
                && negb (String.eqb (o_status order) "cancelled")
             then restock time (lines_of_order orderId db) db
             else db in
  status (fst outcome) = 200
  /\ products (snd outcome) = products db2
  /\ orders (snd outcome)
     = update_where (fun o => o_id o =? orderId)
         (fun o => mkOrder (o_id o) (o_user_id o) (o_user_email o)
                     (o_total o) new_status (o_shipping_address o)
                     (o_created_at o) (now time) (Some (au_id user)))
         (orders db)
  /\ order_items (snd outcome) = order_items db
  /\ users (snd outcome) = users db
  /\ accounts (snd outcome) = accounts db
  /\ sessions (snd outcome) = sessions db
  /\ cart_items (snd outcome) = cart_items db
  /\ activity_logs (snd outcome)
     = activity_logs db
       ++ [mkLog (fresh_uuid (map l_id (activity_logs db)))
             "order_status_updated" (Some (au_id user)) (au_email user)
             [("order_id", JId orderId);
              ("previous_status", JStr (o_status order));
              ("newStatus", JStr new_status)] (now time)].
Proof.
  intros Hauth Hrow Hrole Horder Hvalid. cbv zeta.
  destruct (single_in _ _ Horder) as [_ Hid].
  destruct (single_in _ _ Hrow) as [Hrow_in Hrow_id].
  assert (Hget : getOrCreateUserRecord (au_id user) (au_email user) db
                 = Ok (row, db))
    by (now apply getOrCreateUserRecord_existing).
  unfold put_order_status.
  erewrite with_admin_passes by eassumption.
  rewrite Horder.
  replace (ov_order_items (view_order order db))
    with (lines_of_order orderId db)
    by (unfold view_order, lines_of_order; simpl;
        apply Nat.eqb_eq in Hid; now rewrite Hid).
  set (db2 := if String.eqb new_status "cancelled"
                 && negb (String.eqb (o_status order) "cancelled")
              then restock time (lines_of_order orderId db) db
              else db).
  assert (Hframe : only_products db db2).
  { unfold db2. destruct (_ && _);
      [apply restock_frame|apply only_products_refl]. }
  destruct (only_products_tables Hframe)
    as (Haccounts & Hsessions & Husers & _ & Hcart & Horders & Hlines & Hlogs).
  unfold orders_update_status. rewrite Hvalid, andb_false_r. cbv zeta.
  rewrite filter_update_where by reflexivity.
  rewrite Horders. apply single_some in Horder. rewrite Horder.
  simpl update_where. rewrite Hid. simpl single. cbv iota.
  unfold activity_logs_insert.
  replace (has_user (au_id user) _) with true.
  - simpl. rewrite Hlines, Husers, Haccounts, Hsessions, Hcart, Hlogs.
    repeat split.
  - symmetry. unfold has_user. simpl. rewrite Husers.
    apply existsb_exists. now exists row.
Qed.

(** The same, in the form in which steps chain. *)
Lemma status_step (time : clock) (authorization : option string)
  (orderId : uuid) (new_status : string) (db : DB) (user : auth_user)
  (row : user_row) (order : order_row) :
  verifyUser authorization db = Some user ->
  single (filter (fun u => u_id u =? au_id user) (users db)) = Some row ->
  u_role row = "admin" ->
  single (filter (fun o => o_id o =? orderId) (orders db)) = Some order ->
  valid_status new_status = true ->
  stocks_nonneg db ->
  (forall line, In line (lines_of_order orderId db) ->
                (0 <= oi_quantity line)%Z) ->
  (String.eqb new_status "cancelled"
   && negb (String.eqb (o_status order) "cancelled") = true ->
   forall pid s, stock_of pid db = Some s ->
     (s + returned pid (lines_of_order orderId db) <= integer_max)%Z) ->
  let outcome := put_order_status time authorization orderId new_status db in
  status (fst outcome) = 200
  /\ (forall authorization',
        verifyUser authorization' (snd outcome)
        = verifyUser authorization' db)
  /\ users (snd outcome) = users db
  /\ (exists stored,
        single (filter (fun o => o_id o =? orderId) (orders (snd outcome)))
        = Some stored
        /\ o_status stored = new_status
        /\ o_total stored = o_total order)
  /\ lines_of_order orderId (snd outcome) = lines_of_order orderId db
  /\ stocks_nonneg (snd outcome)
  /\ (forall pid,
        stock_of pid (snd outcome)
        = if String.eqb new_status "cancelled"
             && negb (String.eqb (o_status order) "cancelled")
          then option_map
                 (fun s => (s + returned pid (lines_of_order orderId db))%Z)
                 (stock_of pid db)
          else stock_of pid db).
Proof.
  intros Hauth Hrow Hrole Horder Hvalid Hstocks Hquantities Hrange.
  destruct (put_order_status_runs time authorization orderId new_status db
              Hauth Hrow Hrole Horder Hvalid)
    as (Hok & Hproducts & Horders & Hlines & Husers & Haccounts & Hsessions
        & _ & _).
  cbv zeta. split; [exact Hok|].
  split; [intros authorization'; now apply verifyUser_same|].
  split; [exact Husers|]. split; [|split; [|split]].
  - rewrite Horders, filter_update_where by reflexivity.
    destruct (single_in _ _ Horder) as [_ Hid].
    apply single_some in Horder. rewrite Horder. simpl. rewrite Hid.
    eexists. repeat split.
  - unfold lines_of_order. now rewrite Hlines.
  - unfold stocks_nonneg. rewrite Hproducts.
    destruct (_ && _); [|exact Hstocks].
    now apply restock_keeps.
  - intros pid. rewrite (stock_of_products pid _ _ Hproducts).
    destruct (_ && _); [|reflexivity].
    apply restock_adds; [|assumption].
    intros q s Hs. split; [now apply (stock_of_nonneg Hstocks q)|].
    now apply Hrange.
Qed.

Lemma returned_line_of (pid : uuid) (rows : list order_item_row) :
  returned pid rows = requested pid (map line_of rows).
Proof.
  unfold returned, requested.
  induction rows as [|row rest IH]; simpl; [reflexivity|].
  destruct (oi_product_id row =? pid); simpl; now rewrite IH.
Qed.

Lemma reserve_stock_net (time : clock) (items : list line_item) :
  forall db db1,
    reserve_stock time items db = (None, db1) ->
    forall pid,
      stock_of pid db1
      = option_map (fun s => (s - requested pid items)%Z) (stock_of pid db).
Proof.
  induction items as [|item rest IH]; intros db db1 Hrun pid.
  - simpl in Hrun. inversion Hrun. unfold requested. simpl.
    destruct (stock_of pid db1); simpl; [f_equal; lia|reflexivity].
  - simpl in Hrun.
    destruct (product_by_id (productId item) db) as [product|] eqn:Hp;
      [|discriminate].
    destruct (p_stock product <? quantity item)%Z; [discriminate|].
    destruct (products_update_stock _ _ _ db) as [db2|] eqn:Hup;
      [|discriminate].
    rewrite (IH _ _ Hrun), (stock_of_update pid _ _ _ _ Hup), requested_cons.
    destruct (Nat.eqb_spec pid (productId item)) as [->|Hne].
    + rewrite Nat.eqb_refl. unfold stock_of. rewrite Hp. simpl.
      f_equal. lia.
    + destruct (Nat.eqb_spec (productId item) pid); [congruence|].
      destruct (stock_of pid db); simpl; [f_equal; lia|reflexivity].
Qed.

Lemma lines_of_new_order (db : DB) (rows : list order_item_row) (oid : uuid) :
  lines_reference_orders db ->
  oid = fresh_uuid (map o_id (orders db)) ->
  (forall row, In row rows -> oi_order_id row = oid) ->
  filter (fun i => oi_order_id i =? oid) (order_items db ++ rows) = rows.
Proof.
  intros Hrefs Hoid Hrows. rewrite filter_app.
  rewrite filter_nil, filter_all; [reflexivity| |].
  - intros row Hin. apply Nat.eqb_eq. now apply Hrows.
  - intros line Hin. unfold lines_reference_orders in Hrefs.
    rewrite Forall_forall in Hrefs. specialize (Hrefs line Hin).
    unfold has_order in Hrefs. apply existsb_exists in Hrefs.
    destruct Hrefs as (o & Ho & Heq). apply Nat.eqb_eq in Heq.
    apply Nat.eqb_neq. rewrite <- Heq, Hoid.
    apply fresh_uuid_new. now apply in_map.
Qed.

Lemma stocks_in_range_nonneg (db : DB) :
  stocks_in_range db -> stocks_nonneg db.
Proof.
  unfold stocks_in_range, stocks_nonneg. apply Forall_impl. intros p Hp. lia.
Qed.

Lemma stock_of_in_range (db : DB) :
  stocks_in_range db ->
  forall pid s, stock_of pid db = Some s -> (0 <= s <= integer_max)%Z.
Proof.
  intros Hall pid s Hs.
  destruct (stock_of_product _ _ Hs) as (p & Hp & <-).
  apply single_in in Hp. destruct Hp as [Hin _].
  unfold stocks_in_range in Hall. rewrite Forall_forall in Hall.
  now apply Hall.
Qed.

(** X9: when [POST /orders] has answered 201 and an administrator then
    sets the new order to cancelled, the answer is 200 and every product has
    the stock it had before the order was placed. *)
Theorem cancelling_a_new_order_returns_the_stock
  (time : clock) (authorization : option string) (items : list line_item)
  (total : money) (shippingAddress : string) (db : DB)
  (time' : clock) (authorization' : option string) (admin : auth_user)
  (row : user_row) :
  let placed := post_orders time authorization items total shippingAddress
                  db in
  status (fst placed) = 201 ->
  stocks_in_range db ->
  lines_reference_orders db ->
  verifyUser authorization' db = Some admin ->
  single (filter (fun u => u_id u =? au_id admin) (users db)) = Some row ->
  u_role row = "admin" ->
  exists order,
    orders (snd placed) = orders db ++ [order]
    /\ (forall pid,
          stock_of pid (snd placed)
          = option_map (fun s => (s - requested pid items)%Z)
              (stock_of pid db))
    /\ let cancelled := put_order_status time' authorization' (o_id order)
                          "cancelled" (snd placed) in
       status (fst cancelled) = 200
       /\ (forall pid, stock_of pid (snd cancelled) = stock_of pid db).
Proof.
  cbv zeta. intros Hok Hrange Hrefs Hadmin Hrow Hrole.
  pose proof (stocks_in_range_nonneg Hrange) as Hstocks.
  destruct (post_orders_accepted time authorization items total
              shippingAddress db Hok) as (user & db1 & Hshape).
  cbv zeta in Hshape. destruct Hshape as (_ & Hrun & Hpositive & ->).
  set (order := mkOrder (fresh_uuid (map o_id (orders db))) (au_id user)
                  (au_email user) total "pending" shippingAddress (now time)
                  (now time) None).
  set (rows := number (fresh_uuid (map oi_id (order_items db)))
                 (map (fun item id =>
                         mkOrderItem id (o_id order) (productId item)
                           (name item) (price item) (quantity item)) items)).
  simpl snd.
  match goal with
  | |- context [orders ?d = _] => set (db' := d)
  end.
  assert (Hnet : forall pid,
    stock_of pid db'
    = option_map (fun s => (s - requested pid items)%Z) (stock_of pid db)).
  { intros pid. rewrite <- (reserve_stock_net _ _ _ Hrun pid).
    now apply stock_of_products. }
  assert (Hlines : lines_of_order (o_id order) db' = rows).
  { unfold lines_of_order, db'. simpl order_items.
    apply lines_of_new_order; [assumption|reflexivity|].
    intros r Hin. unfold rows in Hin. apply in_number in Hin.
    now destruct Hin as (item & id & _ & ->). }
  exists order. split; [reflexivity|]. split; [exact Hnet|].
  destruct (@status_step time' authorization' (o_id order) "cancelled" db'
              admin row order)
    as (Hdone & _ & _ & _ & _ & _ & Hstock); try assumption;
    try reflexivity.
  - apply single_fresh_row. reflexivity.
  - pose proof (proj1 (reserve_stock_keeps time items db) Hstocks) as Hkept.
    rewrite Hrun in Hkept. exact Hkept.
  - rewrite Hlines. intros line Hin. unfold rows in Hin.
    apply in_number in Hin. destruct Hin as (item & id & Hitem & ->).
    simpl. specialize (Hpositive item Hitem). lia.
  - intros _ pid s. rewrite Hlines, Hnet, returned_line_of.
    unfold rows. rewrite line_of_new_row.
    destruct (stock_of pid db) as [s0|] eqn:Hs0; simpl; [|discriminate].
    intros Hs. inversion Hs.
    pose proof (stock_of_in_range Hrange pid Hs0). lia.
  - split; [exact Hdone|]. intros pid. rewrite Hstock.
    replace (String.eqb "cancelled" "cancelled"
             && negb (String.eqb (o_status order) "cancelled"))
      with true by reflexivity.
    rewrite Hlines, Hnet, returned_line_of.
    unfold rows. rewrite line_of_new_row.
    destruct (stock_of pid db); simpl; [f_equal; lia|reflexivity].
Qed.

Lemma sample_db_stocks_nonneg : stocks_nonneg sample_db.
Proof.
  unfold stocks_nonneg. simpl. repeat constructor; simpl; lia.
Qed.

Lemma sample_db_stocks_in_range : stocks_in_range sample_db.
Proof.
  unfold stocks_in_range, integer_max. simpl.
  repeat constructor; simpl; lia.
Qed.

Lemma sample_db_lines_reference_orders : lines_reference_orders sample_db.
Proof.
  unfold lines_reference_orders. simpl. repeat constructor.
Qed.

Lemma cancelling_a_new_order_returns_the_stock_witness :
  let placed := post_orders sample_clock (Some "Bearer tok-alice")
                  [three_widgets; one_gadget] 1750%Z "Home" sample_db in
  exists order,
    orders (snd placed) = orders sample_db ++ [order]
    /\ (forall pid,
          stock_of pid (snd placed)
          = option_map
              (fun s => (s - requested pid [three_widgets; one_gadget])%Z)
              (stock_of pid sample_db))
    /\ let cancelled := put_order_status sample_clock (Some "Bearer tok-root")
                          (o_id order) "cancelled" (snd placed) in
       status (fst cancelled) = 200
       /\ (forall pid, stock_of pid (snd cancelled) = stock_of pid sample_db).
Proof.
  apply (@cancelling_a_new_order_returns_the_stock sample_clock
           (Some "Bearer tok-alice") [three_widgets; one_gadget] 1750%Z
           "Home" sample_db sample_clock (Some "Bearer tok-root") root
           (mkUser 2 "root@example.com" "admin" None None)).
  - reflexivity.
  - exact sample_db_stocks_in_range.
  - exact sample_db_lines_reference_orders.
  - reflexivity.
  - reflexivity.
  - reflexivity.
Defined.

(** X10: restocking is tied to the change of status, not to the order: when
    an administrator cancels an order, sets it back to a status other than
    cancelled and cancels it again, every product ends with its stock plus
    twice what the lines of the order hold of it, as long as that is still
    an INTEGER (at most 2147483647) for every product. *)
Theorem cancelling_twice_restocks_twice
  (time1 time2 time3 : clock) (authorization : option string)
  (orderId : uuid) (reopened : string) (db : DB) (user : auth_user)
  (row : user_row) (order : order_row) :
  verifyUser authorization db = Some user ->
  single (filter (fun u => u_id u =? au_id user) (users db)) = Some row ->
  u_role row = "admin" ->
  single (filter (fun o => o_id o =? orderId) (orders db)) = Some order ->
  o_status order <> "cancelled" ->
  valid_status reopened = true ->
  reopened <> "cancelled" ->
  stocks_nonneg db ->
  (forall line, In line (lines_of_order orderId db) ->
                (0 <= oi_quantity line)%Z) ->
  (forall pid s, stock_of pid db = Some s ->
     (s + 2 * returned pid (lines_of_order orderId db) <= integer_max)%Z) ->
  let db1 := snd (put_order_status time1 authorization orderId "cancelled"
                    db) in
  let db2 := snd (put_order_status time2 authorization orderId reopened db1) in
  let db3 := snd (put_order_status time3 authorization orderId "cancelled"
                    db2) in
  (forall pid, stock_of pid db2
               = option_map
                   (fun s => (s + returned pid (lines_of_order orderId db))%Z)
                   (stock_of pid db))
  /\ (forall pid, stock_of pid db3
                  = option_map
                      (fun s => (s + 2 * returned pid
                                         (lines_of_order orderId db))%Z)
                      (stock_of pid db)).
Proof.
  intros Hauth Hrow Hrole Horder Hopen Hvalid Hother Hstocks Hlines Hrange.
  cbv zeta.
  assert (Hback : forall pid,
            (0 <= returned pid (lines_of_order orderId db))%Z)
    by (intros pid; now apply returned_nonneg).
  destruct (@status_step time1 authorization orderId "cancelled" db user row
              order Hauth Hrow Hrole Horder eq_refl Hstocks Hlines)
    as (_ & Hauth1 & Husers1 & (stored1 & Hstored1 & Hstatus1 & _) & Hlines1
        & Hstocks1 & Hstock1).
  { intros _ pid s Hs. specialize (Hrange pid s Hs).
    specialize (Hback pid). lia. }
  set (db1 := snd (put_order_status time1 authorization orderId "cancelled"
                     db)) in *.
  apply String.eqb_neq in Hopen, Hother.
  assert (Hfirst : forall pid,
    stock_of pid db1
    = option_map (fun s => (s + returned pid (lines_of_order orderId db))%Z)
        (stock_of pid db)).
  { intros pid. rewrite Hstock1, Hopen. reflexivity. }
  destruct (@status_step time2 authorization orderId reopened db1 user row
              stored1)
    as (_ & Hauth2 & Husers2 & (stored2 & Hstored2 & Hstatus2 & _) & Hlines2
        & Hstocks2 & Hstock2); try assumption.
  { now rewrite Hauth1. }
  { now rewrite Husers1. }
  { now rewrite Hlines1. }
  { rewrite Hother. discriminate. }
  set (db2 := snd (put_order_status time2 authorization orderId reopened
                     db1)) in *.
  assert (Hsecond : forall pid,
    stock_of pid db2
    = option_map (fun s => (s + returned pid (lines_of_order orderId db))%Z)
        (stock_of pid db)).
  { intros pid. rewrite Hstock2, Hother. simpl andb. cbv iota.
    apply Hfirst. }
  destruct (@status_step time3 authorization orderId "cancelled" db2 user row
              stored2)
    as (_ & _ & _ & _ & _ & _ & Hstock3); try assumption; try reflexivity.
  { now rewrite Hauth2, Hauth1. }
  { now rewrite Husers2, Husers1. }
  { now rewrite Hlines2, Hlines1. }
  { intros _ pid s. rewrite Hlines2, Hlines1, Hsecond.
    destruct (stock_of pid db) as [s0|] eqn:Hs0; simpl; [|discriminate].
    intros Hs. inversion Hs. specialize (Hrange pid s0 Hs0). lia. }
  split; [exact Hsecond|].
  intros pid. rewrite Hstock3, Hstatus2, Hother. simpl andb. cbv iota.
  rewrite Hlines2, Hlines1, Hsecond.
  destruct (stock_of pid db) as [s|]; cbn [option_map]; [|reflexivity].
  f_equal. lia.
Qed.

Lemma sample_db_restock_twice_in_range (pid : uuid) (s : Z) :
  stock_of pid sample_db = Some s ->
  (s + 2 * returned pid (lines_of_order 40%nat sample_db) <= integer_max)%Z.
Proof.
  intros Hs. destruct (stock_of_stored _ _ Hs) as (p & Hin & <- & <-).
  destruct Hin as [<-|[<-|[]]]; vm_compute; discriminate.
Qed.

Lemma cancelling_twice_restocks_twice_witness :
  let db1 := snd (put_order_status sample_clock (Some "Bearer tok-root") 40
                    "cancelled" sample_db) in
  let db2 := snd (put_order_status sample_clock (Some "Bearer tok-root") 40
                    "pending" db1) in
  let db3 := snd (put_order_status sample_clock (Some "Bearer tok-root") 40
                    "cancelled" db2) in
  (forall pid,
     stock_of pid db2
     = option_map
         (fun s => (s + returned pid (lines_of_order 40%nat sample_db))%Z)
         (stock_of pid sample_db))
  /\ (forall pid,
        stock_of pid db3
        = option_map
            (fun s => (s + 2 * returned pid
                               (lines_of_order 40%nat sample_db))%Z)
            (stock_of pid sample_db)).
Proof.
  apply (@cancelling_twice_restocks_twice sample_clock sample_clock
           sample_clock (Some "Bearer tok-root") 40 "pending" sample_db root
           (mkUser 2 "root@example.com" "admin" None None)
           (mkOrder 40 1 "alice@example.com" 1500%Z "pending" "Home"
              "2025-03-07T08:00:00.000Z" "2025-03-07T08:00:00.000Z" None));
    try reflexivity; try discriminate.
  - exact sample_db_stocks_nonneg.
  - intros line [<-|[<-|[]]]; simpl; lia.
  - exact sample_db_restock_twice_in_range.
Defined.

(** X11: for an administrator who has a row, a status update of an order
    that is not stored answers 404, and one whose new status is none of the
    five that the schema allows answers 400; the database is left as it
    was in both cases. *)
Theorem put_order_status_refuses
  (time : clock) (authorization : option string) (orderId : uuid)
  (new_status : string) (db : DB) (user : auth_user) (row : user_row) :
  verifyUser authorization db = Some user ->
  single (filter (fun u => u_id u =? au_id user) (users db)) = Some row ->
  u_role row = "admin" ->
  let outcome := put_order_status time authorization orderId new_status db in
  (filter (fun o => o_id o =? orderId) (orders db) = [] ->
   outcome = (mkResponse 404 (BError "Order not found"), db))
  /\ (forall order,
        single (filter (fun o => o_id o =? orderId) (orders db)) = Some order ->
        valid_status new_status = false ->
        outcome = (mkResponse 400 (BError check_violation), db)).
Proof.
  intros Hauth Hrow Hrole. cbv zeta.
  assert (Hget : getOrCreateUserRecord (au_id user) (au_email user) db
                 = Ok (row, db))
    by (now apply getOrCreateUserRecord_existing).
  unfold put_order_status.
  erewrite with_admin_passes by eassumption.
  split.
  - intros Hnone. now rewrite Hnone.
  - intros order Horder Hinvalid. rewrite Horder.
    assert (Hnot : String.eqb new_status "cancelled" = false).
    { destruct (String.eqb_spec new_status "cancelled") as [->|_];
        [discriminate|reflexivity]. }
    rewrite Hnot. simpl andb. cbv iota.
    unfold orders_update_status. rewrite Hinvalid.
    replace (has_order orderId db) with true; [reflexivity|].
    symmetry. apply existsb_exists. exists order.
    now apply single_in in Horder.
Qed.

Lemma put_order_status_refuses_witness :
  put_order_status sample_clock (Some "Bearer tok-root") 77 "shipped" sample_db
  = (mkResponse 404 (BError "Order not found"), sample_db)
  /\ put_order_status sample_clock (Some "Bearer tok-root") 40 "lost" sample_db
     = (mkResponse 400 (BError check_violation), sample_db).
Proof.
  split.
  - apply (proj1 (@put_order_status_refuses sample_clock
                    (Some "Bearer tok-root") 77 "shipped" sample_db root
                    (mkUser 2 "root@example.com" "admin" None None)
                    eq_refl eq_refl eq_refl)).
    reflexivity.
  - apply (proj2 (@put_order_status_refuses sample_clock
                    (Some "Bearer tok-root") 40 "lost" sample_db root
                    (mkUser 2 "root@example.com" "admin" None None)
                    eq_refl eq_refl eq_refl)
             (mkOrder 40 1 "alice@example.com" 1500%Z "pending" "Home"
                "2025-03-07T08:00:00.000Z" "2025-03-07T08:00:00.000Z" None));
      reflexivity.
Defined.

(** ** Revenue after a cancellation *)

Lemma filter_empty_none (A : Type) (p : A -> bool) (rows : list A) (r : A) :
  filter p rows = [] -> In r rows -> p r = false.
Proof.
  intros Hnone Hin. destruct (p r) eqn:Hr; [|reflexivity].
  assert (Hf : In r (filter p rows)) by (apply filter_In; now split).
  rewrite Hnone in Hf. contradiction.
Qed.

Lemma revenue_after_cancel (rows : list order_row) (oid : uuid)
  (order : order_row) (write : order_row -> order_row) :
  (forall o, o_status (write o) = "cancelled") ->
  filter (fun o => o_id o =? oid) rows = [order] ->
  o_status order <> "cancelled" ->
  revenue_in_spec (update_where (fun o => o_id o =? oid) write rows)
  = (revenue_in_spec rows - o_total order)%Z
  /\ count_status "cancelled" (update_where (fun o => o_id o =? oid) write rows)
     = S (count_status "cancelled" rows).
Proof.
  intros Hwrite. unfold revenue_in_spec, count_status, is_cancelled.
  induction rows as [|r rest IH]; intros Hone Hopen; [discriminate|].
  simpl in Hone.
  destruct (o_id r =? oid) eqn:Hr.
  - inversion Hone as [[Hrow Hrest]]. subst r.
    assert (Hsame : update_where (fun o => o_id o =? oid) write rest = rest).
    { apply update_where_none. intros x Hx.
      exact (@filter_empty_none _ (fun o => o_id o =? oid) rest x Hrest Hx). }
    unfold update_where in *. simpl. rewrite Hr, Hsame. simpl.
    rewrite Hwrite. simpl.
    apply String.eqb_neq in Hopen. rewrite Hopen. simpl.
    split; [lia|reflexivity].
  - destruct (IH Hone Hopen) as [IHr IHc].
    unfold update_where in *. simpl. rewrite Hr.
    destruct (String.eqb (o_status r) "cancelled"); simpl.
    + split; [exact IHr|now rewrite IHc].
    + split; [rewrite IHr; lia|exact IHc].
Qed.

(** X12: when an administrator cancels an order that was not cancelled,
    the revenue that analytics computes over the stored orders drops by
    exactly the total of that order, the number of cancelled orders grows
    by one and no order is added or removed. *)
Theorem cancelling_lowers_revenue
  (time : clock) (authorization : option string) (orderId : uuid) (db : DB)
  (user : auth_user) (row : user_row) (order : order_row) :
  verifyUser authorization db = Some user ->
  single (filter (fun u => u_id u =? au_id user) (users db)) = Some row ->
  u_role row = "admin" ->
  single (filter (fun o => o_id o =? orderId) (orders db)) = Some order ->
  o_status order <> "cancelled" ->
  let db' := snd (put_order_status time authorization orderId "cancelled"
                    db) in
  totalRevenue (orders db') = (totalRevenue (orders db) - o_total order)%Z
  /\ count_status "cancelled" (orders db')
     = S (count_status "cancelled" (orders db))
  /\ List.length (orders db') = List.length (orders db).
Proof.
  intros Hauth Hrow Hrole Horder Hopen. cbv zeta.
  destruct (put_order_status_runs time authorization orderId "cancelled" db
              Hauth Hrow Hrole Horder eq_refl)
    as (_ & _ & Horders & _).
  rewrite Horders, !totalRevenue_sum.
  apply single_some in Horder.
  destruct (@revenue_after_cancel (orders db) orderId order
              (fun o => mkOrder (o_id o) (o_user_id o) (o_user_email o)
                          (o_total o) "cancelled" (o_shipping_address o)
                          (o_created_at o) (now time) (Some (au_id user))))
    as [Hrevenue Hcount]; try assumption; try reflexivity.
  split; [exact Hrevenue|]. split; [exact Hcount|].
  apply update_where_length.
Qed.

Lemma cancelling_lowers_revenue_witness :
  let db' := snd (put_order_status sample_clock (Some "Bearer tok-root") 40
                    "cancelled" sample_db) in
  totalRevenue (orders db') = (totalRevenue (orders sample_db) - 1500)%Z
  /\ count_status "cancelled" (orders db')
     = S (count_status "cancelled" (orders sample_db))
  /\ List.length (orders db') = List.length (orders sample_db).
Proof.
  apply (@cancelling_lowers_revenue sample_clock (Some "Bearer tok-root") 40
           sample_db root (mkUser 2 "root@example.com" "admin" None None)
           (mkOrder 40 1 "alice@example.com" 1500%Z "pending" "Home"
              "2025-03-07T08:00:00.000Z" "2025-03-07T08:00:00.000Z" None));
    try reflexivity.
  discriminate.
Defined.

(** ** The cart *)

Lemma authenticated_passes (authorization : option string) (db : DB)
  (user : auth_user) (handler : auth_user -> answer * DB) :
  verifyUser authorization db = Some user ->
  authenticated authorization db handler = handler user.
Proof.
  intros Hauth. unfold authenticated. now rewrite Hauth.
Qed.

Lemma administrator_passes (authorization : option string) (db : DB)
  (user : auth_user) (row : user_row)
  (handler : auth_user -> user_row -> DB -> answer * DB) :
  verifyUser authorization db = Some user ->
  single (filter (fun u => u_id u =? au_id user) (users db)) = Some row ->
  u_role row = "admin" ->
  administrator authorization db handler = handler user row db.
Proof.
  intros Hauth Hrow Hrole. unfold administrator.
  rewrite (@authenticated_passes _ _ _ _ Hauth).
  rewrite (@getOrCreateUserRecord_existing _ (au_email user) _ _ Hrow).
  now rewrite Hrole.
Qed.

Lemma existsb_filter_nil (A : Type) (p : A -> bool) (rows : list A) :
  filter p rows = [] -> existsb p rows = false.
Proof.
  intros Hnone. apply existsb_none. intros r Hr.
  exact (@filter_empty_none _ p rows r Hnone Hr).
Qed.

Lemma filter_filter_none (A : Type) (p q : A -> bool) (rows : list A) :
  (forall r, p r = true -> q r = false) -> filter p (filter q rows) = [].
Proof.
  intros Hpq. apply filter_nil. intros r Hr.
  apply filter_In in Hr. destruct Hr as [_ Hq].
  destruct (p r) eqn:Hp; [|reflexivity].
  rewrite (Hpq r Hp) in Hq. discriminate.
Qed.

Lemma filter_filter_same (A : Type) (p q : A -> bool) (rows : list A) :
  (forall r, p r = true -> q r = true) ->
  filter p (filter q rows) = filter p rows.
Proof.
  intros Hpq. induction rows as [|r rows IH]; simpl; [reflexivity|].
  destruct (q r) eqn:Hq; simpl.
  - now rewrite IH.
  - destruct (p r) eqn:Hp; [|exact IH].
    rewrite (Hpq r Hp) in Hq. discriminate.
Qed.

Lemma update_where_fresh (A : Type) (key : A -> uuid) (f : A -> A)
  (rows : list A) (a : A) :
  key a = fresh_uuid (map key rows) ->
  update_where (fun r => key r =? key a) f (rows ++ [a]) = rows ++ [f a].
Proof.
  intros Hkey. unfold update_where. rewrite map_app. simpl.
  rewrite Nat.eqb_refl. f_equal.
  fold (update_where (fun r => key r =? key a) f rows).
  apply update_where_none. intros r Hr.
  apply (@filter_empty_none _ (fun r => key r =? key a) rows r); [|exact Hr].
  rewrite Hkey. apply filter_fresh.
Qed.

Lemma filter_fresh_row (A : Type) (key : A -> uuid) (rows : list A) (a b : A) :
  key a = fresh_uuid (map key rows) -> key b = key a ->
  filter (fun r => key r =? key a) (rows ++ [b]) = [b].
Proof.
  intros Hkey Hb. rewrite filter_app. simpl. rewrite Hb, Nat.eqb_refl.
  rewrite Hkey. now rewrite filter_fresh.
Qed.

(** X13: a caller who has no cart row for a stored product and posts it
    to the cart twice, each time with a positive quantity, the two together
    still an INTEGER (at most 2147483647), gets 201 and then 200 and ends
    with one new row that holds the sum of the two quantities; the stock of
    the product is not looked at and no product changes. *)
Theorem post_cart_twice_adds_up
  (authorization : option string) (product : uuid) (first second : Z)
  (db : DB) (user : auth_user) :
  verifyUser authorization db = Some user ->
  cart_rows_of (au_id user) product db = [] ->
  has_user (au_id user) db = true ->
  has_product product db = true ->
  (0 < first)%Z -> (0 < second)%Z -> (first + second <= integer_max)%Z ->
  let once := post_cart authorization product first db in
  let twice := post_cart authorization product second (snd once) in
  fst once = mkResponse 201 (BItem product first)
  /\ fst twice = mkResponse 200 (BItem product (first + second)%Z)
  /\ cart_items (snd twice)
     = cart_items db
       ++ [mkCart (fresh_uuid (map ci_id (cart_items db))) (au_id user) product
             (first + second)%Z]
  /\ products (snd twice) = products db.
Proof.
  intros Hauth Hnone Huser Hproduct Hfirst Hsecond Hrange. cbv zeta.
  unfold cart_rows_of in Hnone.
  pose proof (@existsb_filter_nil _ _ _ Hnone) as Hexists.
  set (row := mkCart (fresh_uuid (map ci_id (cart_items db))) (au_id user)
                product first).
  assert (Honce : post_cart authorization product first db
                  = (mkResponse 201 (BItem product first),
                     set_cart_items (cart_items db ++ [row]) db)).
  { unfold post_cart, with_user. rewrite Hauth, Hnone. simpl single.
    unfold cart_items_insert.
    rewrite in_integer_within by lia. simpl negb. cbv iota.
    replace (first <=? 0)%Z with false by (symmetry; apply Z.leb_gt; lia).
    now rewrite Hexists, Huser, Hproduct. }
  rewrite Honce. simpl fst. simpl snd.
  split; [reflexivity|].
  unfold post_cart, with_user.
  rewrite (@verifyUser_same authorization db
             (set_cart_items (cart_items db ++ [row]) db) eq_refl eq_refl).
  rewrite Hauth. simpl cart_items. rewrite filter_app, Hnone. simpl.
  rewrite !Nat.eqb_refl. simpl.
  unfold cart_items_update_quantity. simpl cart_items.
  rewrite in_integer_within by lia. simpl negb. cbv iota.
  replace (first + second <=? 0)%Z with false
    by (symmetry; apply Z.leb_gt; lia).
  rewrite andb_false_r.
  change (fresh_uuid (map ci_id (cart_items db))) with (ci_id row).
  rewrite (@update_where_fresh _ ci_id _ (cart_items db) row eq_refl).
  rewrite (@filter_fresh_row _ ci_id (cart_items db) row
             (mkCart (ci_id row) (ci_user_id row) (ci_product_id row)
                (first + second)%Z) eq_refl eq_refl).
  simpl. repeat split; reflexivity.
Qed.

Lemma post_cart_twice_adds_up_witness :
  let once := post_cart (Some "Bearer tok-alice") 11 3%Z sample_db in
  let twice := post_cart (Some "Bearer tok-alice") 11 4%Z (snd once) in
  fst once = mkResponse 201 (BItem 11 3%Z)
  /\ fst twice = mkResponse 200 (BItem 11 (3 + 4)%Z)
  /\ cart_items (snd twice)
     = cart_items sample_db
       ++ [mkCart (fresh_uuid (map ci_id (cart_items sample_db))) (au_id alice)
             11 (3 + 4)%Z]
  /\ products (snd twice) = products sample_db.
Proof.
  apply (@post_cart_twice_adds_up (Some "Bearer tok-alice") 11 3%Z 4%Z
           sample_db alice); try reflexivity; unfold integer_max; lia.
Defined.




(** X15: [DELETE /cart/:productId] answers 200 whether or not the caller
    had the product in the cart; afterwards the caller has no row for the
    product, the rows of every other pair of user and product are as
    before, and repeating the request changes nothing. *)
Theorem delete_cart_removes_the_pair
  (authorization : option string) (product : uuid) (db : DB)
  (user : auth_user) :
  verifyUser authorization db = Some user ->
  let outcome := delete_cart authorization product db in
  fst outcome = mkAnswer 200 PSuccess
  /\ cart_rows_of (au_id user) product (snd outcome) = []
  /\ (forall uid pid, uid <> au_id user \/ pid <> product ->
        cart_rows_of uid pid (snd outcome) = cart_rows_of uid pid db)
  /\ delete_cart authorization product (snd outcome) = outcome.
Proof.
  intros Hauth. cbv zeta. unfold delete_cart, cart_rows_of.
  rewrite (@authenticated_passes _ _ _ _ Hauth). simpl fst. simpl snd.
  split; [reflexivity|]. split; [|split].
  - simpl cart_items. unfold delete_where. apply filter_filter_none.
    intros r Hr. now rewrite Hr.
  - intros uid pid Hother. simpl cart_items. unfold delete_where.
    apply filter_filter_same. intros r Hr.
    apply andb_prop in Hr. destruct Hr as [Hu Hp].
    apply Nat.eqb_eq in Hu, Hp. rewrite Hu, Hp.
    apply negb_true_iff, andb_false_iff.
    destruct Hother as [Hne|Hne]; [left|right]; now apply Nat.eqb_neq.
  - rewrite authenticated_passes with (user := user) by exact Hauth.
    f_equal. simpl cart_items. unfold delete_where, set_cart_items. simpl.
    f_equal. apply filter_all. intros r Hr.
    apply filter_In in Hr. exact (proj2 Hr).
Qed.

Lemma delete_cart_removes_the_pair_witness :
  let outcome := delete_cart (Some "Bearer tok-alice") 10 sample_db in
  fst outcome = mkAnswer 200 PSuccess
  /\ cart_rows_of (au_id alice) 10 (snd outcome) = []
  /\ (forall uid pid, uid <> au_id alice \/ pid <> 10 ->
        cart_rows_of uid pid (snd outcome) = cart_rows_of uid pid sample_db)
  /\ delete_cart (Some "Bearer tok-alice") 10 (snd outcome) = outcome.
Proof.
  apply (@delete_cart_removes_the_pair (Some "Bearer tok-alice") 10 sample_db
           alice).
  reflexivity.
Defined.

Lemma product_by_id_key (pid : uuid) (db : DB) (found : product_row) :
  product_by_id pid db = Some found -> p_id found = pid.
Proof.
  intros Hfound. apply single_in in Hfound. destruct Hfound as [_ Hid].
  now apply Nat.eqb_eq in Hid.
Qed.

Lemma product_by_id_stored (pid : uuid) (db : DB) :
  NoDup (map p_id (products db)) -> has_product pid db = true ->
  exists found, product_by_id pid db = Some found.
Proof.
  intros Hkeys Hhas. apply existsb_exists in Hhas.
  destruct Hhas as (found & Hin & Hid). apply Nat.eqb_eq in Hid.
  exists found. unfold product_by_id. rewrite <- Hid.
  now rewrite (filter_key_unique p_id (products db) found Hkeys Hin).
Qed.

Lemma cart_entries_shape (db : DB) (rows : list cart_row) :
  forall entries,
    cart_entries rows db = Some entries ->
    map (fun e => (ce_productId e, ce_quantity e)) entries
    = map (fun c => (ci_product_id c, ci_quantity c)) rows
    /\ Forall (fun e => product_by_id (ce_productId e) db = Some (ce_product e))
         entries.
Proof.
  induction rows as [|row rows IH]; simpl; intros entries Hentries.
  - inversion Hentries. split; [reflexivity|constructor].
  - destruct (product_by_id (ci_product_id row) db) as [found|] eqn:Hfound;
      [|discriminate].
    destruct (cart_entries rows db) as [rest|]; [|discriminate].
    inversion Hentries. destruct (IH rest eq_refl) as [Hmap Hall].
    pose proof (product_by_id_key _ _ Hfound) as Hid. simpl.
    split; [now rewrite Hmap, Hid|].
    constructor; [simpl; now rewrite Hid|exact Hall].
Qed.

Lemma cart_entries_total (db : DB) (rows : list cart_row) :
  (forall c, In c rows -> exists found,
      product_by_id (ci_product_id c) db = Some found) ->
  exists entries, cart_entries rows db = Some entries.
Proof.
  induction rows as [|row rows IH]; simpl; intros Hall; [now exists []|].
  destruct (Hall row (or_introl eq_refl)) as [found Hfound].
  destruct IH as [rest Hrest]; [intros c Hc; apply Hall; now right|].
  rewrite Hfound, Hrest. eauto.
Qed.

(** X16: when every cart row names a stored product and no two products
    share an identifier, as the foreign key and the primary key of the
    schema have it, [GET /cart] answers 200 with one entry for each cart
    row of the caller, in the order of the rows, each carrying the
    product and the quantity of its row and the stored product under that
    identifier. *)
Theorem get_cart_lists_the_rows
  (authorization : option string) (db : DB) (user : auth_user) :
  verifyUser authorization db = Some user ->
  cart_references_products db ->
  NoDup (map p_id (products db)) ->
  exists entries,
    get_cart authorization db = (mkAnswer 200 (PCart entries), db)
    /\ map (fun e => (ce_productId e, ce_quantity e)) entries
       = map (fun c => (ci_product_id c, ci_quantity c))
           (filter (fun c => ci_user_id c =? au_id user) (cart_items db))
    /\ Forall (fun e => product_by_id (ce_productId e) db = Some (ce_product e))
         entries.
Proof.
  intros Hauth Hrefs Hkeys. unfold get_cart.
  rewrite (@authenticated_passes _ _ _ _ Hauth).
  destruct (@cart_entries_total db
              (filter (fun c => ci_user_id c =? au_id user) (cart_items db)))
    as [entries Hentries].
  { intros c Hc. apply filter_In in Hc. destruct Hc as [Hc _].
    apply product_by_id_stored; [exact Hkeys|].
    unfold cart_references_products in Hrefs.
    rewrite Forall_forall in Hrefs. now apply Hrefs. }
  exists entries. rewrite Hentries. split; [reflexivity|].
  now apply cart_entries_shape.
Qed.

Lemma get_cart_lists_the_rows_witness :
  exists entries,
    get_cart (Some "Bearer tok-alice") sample_db
    = (mkAnswer 200 (PCart entries), sample_db)
    /\ map (fun e => (ce_productId e, ce_quantity e)) entries
       = map (fun c => (ci_product_id c, ci_quantity c))
           (filter (fun c => ci_user_id c =? au_id alice)
              (cart_items sample_db))
    /\ Forall (fun e => product_by_id (ce_productId e) sample_db
                        = Some (ce_product e)) entries.
Proof.
  apply (@get_cart_lists_the_rows (Some "Bearer tok-alice") sample_db alice).
  - reflexivity.
  - unfold cart_references_products. simpl. repeat constructor.
  - simpl. repeat constructor; simpl; intuition discriminate.
Defined.

(** ** Checkout *)

Lemma calculateTotal_from (cartItems : list cart_entry) :
  forall start,
    fold_left
      (fun sum item => (sum + p_price (ce_product item) * ce_quantity item)%Z)
      cartItems start
    = (start + lines_total (orderItems cartItems))%Z.
Proof.
  unfold lines_total, orderItems.
  induction cartItems as [|item rest IH]; simpl; intros start; [lia|].
  rewrite IH. lia.
Qed.

Lemma calculateTotal_sum (cartItems : list cart_entry) :
  calculateTotal cartItems = lines_total (orderItems cartItems).
Proof.
  unfold calculateTotal. now rewrite calculateTotal_from.
Qed.

(** X17: the checkout of the storefront, end to end.  The storefront sends
    the entries of the cart it fetched as the lines of the order and their
    sum of price times quantity as the total.  When that request is
    answered 201, the stored order has one line for each cart row the
    caller had, with the product and the quantity of the row, its total is
    the sum of price times quantity over its stored lines, and the caller's
    cart is empty. *)
Theorem checkout_of_the_fetched_cart
  (time : clock) (authorization : option string) (shippingAddress : string)
  (db : DB) (cartItems : list cart_entry) :
  sent (fst (get_cart authorization db)) = PCart cartItems ->
  lines_reference_orders db ->
  let placed := post_orders time authorization (orderItems cartItems)
                  (calculateTotal cartItems) shippingAddress db in
  status (fst placed) = 201 ->
  exists user order,
    verifyUser authorization db = Some user
    /\ orders (snd placed) = orders db ++ [order]
    /\ o_total order
       = lines_total (map line_of (lines_of_order (o_id order) (snd placed)))
    /\ map (fun l => (oi_product_id l, oi_quantity l))
         (lines_of_order (o_id order) (snd placed))
       = map (fun c => (ci_product_id c, ci_quantity c))
           (filter (fun c => ci_user_id c =? au_id user) (cart_items db))
    /\ filter (fun c => ci_user_id c =? au_id user) (cart_items (snd placed))
       = [].
Proof.
  intros Hcart Hrefs placed Hplaced. subst placed.
  destruct (post_orders_accepted time authorization (orderItems cartItems)
              (calculateTotal cartItems) shippingAddress db Hplaced)
    as (user & db1 & Hauth & _ & _ & Houtcome).
  cbv zeta in Houtcome. rewrite Houtcome. simpl snd.
  unfold get_cart in Hcart.
  rewrite (@authenticated_passes _ _ _ _ Hauth) in Hcart.
  destruct (cart_entries
              (filter (fun c => ci_user_id c =? au_id user) (cart_items db))
              db) as [entries|] eqn:Hentries; [|discriminate].
  simpl in Hcart. inversion Hcart. subst entries.
  destruct (cart_entries_shape _ _ Hentries) as [Hshape _].
  eexists user, _. split; [exact Hauth|]. split; [reflexivity|].
  unfold lines_of_order. simpl order_items. simpl o_id.
  rewrite lines_of_new_order; try assumption; try reflexivity.
  2:{ intros row Hrow. apply in_number in Hrow.
      destruct Hrow as (item & id & _ & ->). reflexivity. }
  rewrite line_of_new_row. simpl o_total.
  split; [apply calculateTotal_sum|]. split.
  - rewrite (map_number _ (fun l => (oi_product_id l, oi_quantity l))
               (fun item => (productId item, quantity item)))
      by reflexivity.
    unfold orderItems. rewrite map_map. simpl. exact Hshape.
  - simpl cart_items. unfold delete_where. apply filter_filter_none.
    intros r Hr. now rewrite Hr.
Qed.

Lemma checkout_of_the_fetched_cart_witness :
  let cartItems :=
    [mkCartEntry 10
       (mkProduct 10 "Widget" 250%Z (Some 5) 5%Z "2025-03-01T09:00:00.000Z")
       2%Z] in
  let placed := post_orders sample_clock (Some "Bearer tok-alice")
                  (orderItems cartItems) (calculateTotal cartItems) "Home"
                  sample_db in
  exists user order,
    verifyUser (Some "Bearer tok-alice") sample_db = Some user
    /\ orders (snd placed) = orders sample_db ++ [order]
    /\ o_total order
       = lines_total (map line_of (lines_of_order (o_id order) (snd placed)))
    /\ map (fun l => (oi_product_id l, oi_quantity l))
         (lines_of_order (o_id order) (snd placed))
       = map (fun c => (ci_product_id c, ci_quantity c))
           (filter (fun c => ci_user_id c =? au_id user)
              (cart_items sample_db))
    /\ filter (fun c => ci_user_id c =? au_id user) (cart_items (snd placed))
       = [].
Proof.
  apply (@checkout_of_the_fetched_cart sample_clock (Some "Bearer tok-alice")
           "Home" sample_db).
  - reflexivity.
  - exact sample_db_lines_reference_orders.
  - reflexivity.
Defined.

(** ** The wishlist *)

Lemma filter_filter_length (A : Type) (p q : A -> bool) (rows : list A) :
  List.length (filter p (filter q rows)) <= List.length (filter p rows).
Proof.
  induction rows as [|r rows IH]; simpl; [lia|].
  destruct (q r); simpl; destruct (p r); simpl; lia.
Qed.

Lemma filter_existsb_false (A : Type) (p : A -> bool) (rows : list A) :
  existsb p rows = false -> filter p rows = [].
Proof.
  intros Hnone. apply filter_nil. intros r Hr.
  exact (existsb_false_in p rows r Hnone Hr).
Qed.

Lemma post_wishlist_created (time : clock) (authorization : option string)
  (product : uuid) (db : DB) :
  code (fst (post_wishlist time authorization product db)) = 201 ->
  exists user,
    verifyUser authorization db = Some user
    /\ existsb (fun w => (w_user_id w =? au_id user)
                         && (w_product_id w =? product)) (wishlist_items db)
       = false
    /\ snd (post_wishlist time authorization product db)
       = set_wishlist_items
           (wishlist_items db
            ++ [mkWish (fresh_uuid (map w_id (wishlist_items db)))
                  (au_id user) product]) db.
Proof.
  unfold post_wishlist, authenticated.
  destruct (verifyUser authorization db) as [user|]; [|discriminate].
  unfold wishlist_items_insert.
  destruct (existsb _ (wishlist_items db)) eqn:Hexists; [discriminate|].
  destruct (negb (has_user (au_id user) db) || negb (has_product product db));
    [discriminate|].
  simpl w_product_id.
  destruct (product_by_id product _); [|discriminate].
  intros _. exists user. repeat split; [exact Hexists].
Qed.

(** X18: once [POST /wishlist] has answered 201 for a product, the same
    request again is answered 400 and stores nothing, and
    [DELETE /wishlist/:productId] for the product then puts the database
    back to what it was before the first request. *)
Theorem wishlist_add_and_remove
  (time time' : clock) (authorization : option string) (product : uuid)
  (db : DB) :
  let once := post_wishlist time authorization product db in
  code (fst once) = 201 ->
  post_wishlist time' authorization product (snd once)
  = (mkAnswer 400 (PError unique_violation), snd once)
  /\ delete_wishlist authorization product (snd once)
     = (mkAnswer 200 PSuccess, db).
Proof.
  intros once Honce. subst once.
  destruct (post_wishlist_created time authorization product db Honce)
    as (user & Hauth & Hexists & ->).
  split.
  - unfold post_wishlist.
    rewrite authenticated_passes with (user := user) by exact Hauth.
    unfold wishlist_items_insert. simpl wishlist_items.
    rewrite existsb_app. simpl. rewrite !Nat.eqb_refl. simpl.
    now rewrite orb_true_r.
  - unfold delete_wishlist.
    rewrite authenticated_passes with (user := user) by exact Hauth.
    f_equal. simpl wishlist_items. unfold delete_where.
    rewrite filter_app. simpl. rewrite !Nat.eqb_refl. simpl.
    rewrite app_nil_r, filter_all.
    + now destruct db.
    + intros r Hr. apply negb_true_iff.
      exact (existsb_false_in _ _ r Hexists Hr).
Qed.

Lemma wishlist_add_and_remove_witness :
  let once := post_wishlist sample_clock (Some "Bearer tok-alice") 11
                sample_db in
  post_wishlist sample_clock (Some "Bearer tok-alice") 11 (snd once)
  = (mkAnswer 400 (PError unique_violation), snd once)
  /\ delete_wishlist (Some "Bearer tok-alice") 11 (snd once)
     = (mkAnswer 200 PSuccess, sample_db).
Proof.
  apply (@wishlist_add_and_remove sample_clock sample_clock
           (Some "Bearer tok-alice") 11 sample_db).
  reflexivity.
Defined.

(** X19: neither [POST /wishlist] nor [DELETE /wishlist/:productId] ever
    leaves a user with two wishlist rows for one product, whatever the
    request and its answer. *)
Theorem wishlist_stays_unique
  (time : clock) (authorization : option string) (product : uuid) (db : DB) :
  wishlist_unique db ->
  wishlist_unique (snd (post_wishlist time authorization product db))
  /\ wishlist_unique (snd (delete_wishlist authorization product db)).
Proof.
  intros Hunique. split.
  - unfold post_wishlist, authenticated.
    destruct (verifyUser authorization db) as [user|]; [|exact Hunique].
    unfold wishlist_items_insert.
    destruct (existsb _ (wishlist_items db)) eqn:Hexists; [exact Hunique|].
    destruct (negb (has_user (au_id user) db)
              || negb (has_product product db)); [exact Hunique|].
    simpl w_product_id.
    assert (Hnew : wishlist_unique
                     (set_wishlist_items
                        (wishlist_items db
                         ++ [mkWish (fresh_uuid (map w_id (wishlist_items db)))
                               (au_id user) product]) db)).
    { intros uid pid. simpl wishlist_items. rewrite filter_app. simpl.
      destruct ((au_id user =? uid) && (product =? pid)) eqn:Hpair.
      - apply andb_prop in Hpair. destruct Hpair as [Hu Hp].
        apply Nat.eqb_eq in Hu, Hp. subst uid pid.
        rewrite (filter_existsb_false _ _ Hexists). simpl. lia.
      - rewrite app_nil_r. apply Hunique. }
    destruct (product_by_id product _); exact Hnew.
  - unfold delete_wishlist, authenticated.
    destruct (verifyUser authorization db) as [user|]; [|exact Hunique].
    intros uid pid. simpl. unfold delete_where.
    eapply Nat.le_trans; [apply filter_filter_length|apply Hunique].
Qed.

Lemma wishlist_stays_unique_witness :
  wishlist_unique
    (snd (post_wishlist sample_clock (Some "Bearer tok-alice") 11 sample_db))
  /\ wishlist_unique
       (snd (delete_wishlist (Some "Bearer tok-alice") 11 sample_db)).
Proof.
  apply (@wishlist_stays_unique sample_clock (Some "Bearer tok-alice") 11
           sample_db).
  intros uid pid. simpl. lia.
Defined.

(** ** Addresses *)

(** X20: [DELETE /addresses/:id] answers 200 and removes exactly the
    addresses that carry the identifier and belong to the caller: the
    addresses of every other user stay as they are, also when the
    identifier is one of theirs. *)
Theorem delete_address_only_own
  (authorization : option string) (addressId : uuid) (db : DB)
  (user : auth_user) :
  verifyUser authorization db = Some user ->
  let outcome := delete_address authorization addressId db in
  fst outcome = mkAnswer 200 PSuccess
  /\ (forall other, other <> au_id user ->
        addresses_of other (snd outcome) = addresses_of other db)
  /\ (forall a, In a (addresses (snd outcome))
                <-> In a (addresses db)
                    /\ (a_id a <> addressId \/ a_user_id a <> au_id user)).
Proof.
  intros Hauth. cbv zeta. unfold delete_address.
  rewrite (@authenticated_passes _ _ _ _ Hauth). simpl fst. simpl snd.
  split; [reflexivity|]. split.
  - intros other Hother. unfold addresses_of. simpl addresses.
    unfold delete_where. apply filter_filter_same. intros r Hr.
    apply Nat.eqb_eq in Hr. apply negb_true_iff, andb_false_iff. right.
    apply Nat.eqb_neq. congruence.
  - intros a. simpl addresses. unfold delete_where. rewrite filter_In.
    rewrite negb_true_iff, andb_false_iff, !Nat.eqb_neq. reflexivity.
Qed.

Lemma delete_address_only_own_witness :
  let outcome := delete_address (Some "Bearer tok-bob") 30 sample_db in
  fst outcome = mkAnswer 200 PSuccess
  /\ (forall other, other <> 3 ->
        addresses_of other (snd outcome) = addresses_of other sample_db)
  /\ (forall a, In a (addresses (snd outcome))
                <-> In a (addresses sample_db)
                    /\ (a_id a <> 30 \/ a_user_id a <> 3)).
Proof.
  apply (@delete_address_only_own (Some "Bearer tok-bob") 30 sample_db
           (mkAuthUser 3 "bob@example.com")).
  reflexivity.
Defined.

Lemma cleared_rows_hold_no_default (uid : uuid)
  (sel : address_row -> bool) (rows : list address_row) :
  (forall r, In r rows -> a_user_id r = uid -> sel r = true) ->
  filter (fun a => (a_user_id a =? uid) && a_is_default a)
    (update_where sel clear_default rows) = [].
Proof.
  intros Hsel. apply filter_nil. intros a Ha.
  apply in_update_where in Ha. destruct Ha as (r & Hr & ->).
  destruct (a_user_id r =? uid) eqn:Huid.
  - apply Nat.eqb_eq in Huid. rewrite (Hsel r Hr Huid). simpl.
    rewrite Huid, Nat.eqb_refl. reflexivity.
  - destruct (sel r); simpl; now rewrite Huid.
Qed.

(** X21: the default flags are cleared before the address is written, in
    a statement of its own.  So a request that asks for a default address
    and is then refused still takes the default away: after
    [POST /addresses] is answered 400, and after [PUT /addresses/:id] for
    an identifier that is not an address of the caller (which is always
    answered 400), the caller has no default address left. *)
Theorem refused_address_clears_the_default
  (authorization : option string) (addressId : uuid)
  (addressData : address_data) (db : DB) (user : auth_user) :
  verifyUser authorization db = Some user ->
  ad_is_default addressData = Some true ->
  (status (fst (post_addresses authorization addressData db)) = 400 ->
   default_addresses (au_id user)
     (snd (post_addresses authorization addressData db)) = [])
  /\ (filter (fun a => (a_id a =? addressId) && (a_user_id a =? au_id user))
        (addresses db) = [] ->
      status (fst (put_address authorization addressId addressData db)) = 400
      /\ default_addresses (au_id user)
           (snd (put_address authorization addressId addressData db)) = []).
Proof.
  intros Hauth Hdefault. split.
  - unfold post_addresses, with_user. rewrite Hauth, Hdefault. simpl or_else.
    cbv iota.
    destruct (addresses_insert addressData (au_id user) _) as [[data db2]|message];
      [discriminate|].
    intros _. simpl snd. unfold default_addresses. simpl addresses.
    apply (@cleared_rows_hold_no_default (au_id user)
             (fun a => a_user_id a =? au_id user)).
    intros r _ Hr. rewrite Hr. apply Nat.eqb_refl.
  - intros Hnone. unfold put_address, with_user.
    rewrite Hauth, Hdefault. simpl or_else. cbv iota.
    unfold addresses_update. simpl addresses.
    rewrite (@filter_update_where _
               (fun a => (a_id a =? addressId) && (a_user_id a =? au_id user)))
      by reflexivity.
    rewrite Hnone. simpl update_where.
    rewrite existsb_update_where by reflexivity.
    rewrite (existsb_filter_nil _ _ Hnone). simpl.
    split; [reflexivity|].
    unfold default_addresses. simpl addresses.
    apply (@cleared_rows_hold_no_default (au_id user)).
    intros r Hr Huid. rewrite Huid, Nat.eqb_refl. simpl.
    apply negb_true_iff.
    pose proof (@filter_empty_none _ _ _ r Hnone Hr) as Hpair.
    simpl in Hpair. rewrite Huid, Nat.eqb_refl, andb_true_r in Hpair.
    exact Hpair.
Qed.

Lemma refused_address_clears_the_default_witness :
  default_addresses 1
    (snd (post_addresses (Some "Bearer tok-alice") make_default sample_db))
  = []
  /\ status (fst (put_address (Some "Bearer tok-alice") 99 make_default
                    sample_db)) = 400
  /\ default_addresses 1
       (snd (put_address (Some "Bearer tok-alice") 99 make_default sample_db))
     = [].
Proof.
  pose proof (@refused_address_clears_the_default (Some "Bearer tok-alice") 99
                make_default sample_db alice eq_refl eq_refl) as [Hpost Hput].
  split; [apply Hpost; reflexivity|apply Hput; reflexivity].
Defined.

Lemma listed_after_new_default (uid : uuid) (rows : list address_row)
  (row : address_row) :
  a_user_id row = uid -> a_is_default row = true ->
  let newest_first :=
    rev (filter (fun a => a_user_id a =? uid)
           (update_where (fun a => a_user_id a =? uid) clear_default rows
            ++ [row])) in
  filter a_is_default newest_first
  ++ filter (fun a => negb (a_is_default a)) newest_first
  = row :: rev (map clear_default (filter (fun a => a_user_id a =? uid) rows)).
Proof.
  intros Huid Hdefault. cbv zeta.
  rewrite filter_app.
  replace (filter (fun a => a_user_id a =? uid) [row]) with [row]
    by (simpl; now rewrite Huid, Nat.eqb_refl).
  rewrite (@filter_update_where _ (fun a => a_user_id a =? uid))
    by reflexivity.
  rewrite update_where_all
    by (intros r Hr; apply filter_In in Hr; exact (proj2 Hr)).
  rewrite rev_app_distr. simpl. rewrite Hdefault. simpl.
  rewrite filter_nil, filter_all; [reflexivity| |].
  - intros r Hr. apply in_rev, in_map_iff in Hr.
    destruct Hr as (r0 & <- & _). reflexivity.
  - intros r Hr. apply in_rev, in_map_iff in Hr.
    destruct Hr as (r0 & <- & _). reflexivity.
Qed.

(** X22: after [POST /addresses] has stored an address that asks to be the
    default, [GET /addresses] with the same token lists that address first
    and after it the caller's earlier addresses, newest first, none of
    them a default any more. *)
Theorem new_default_address_is_listed_first
  (authorization : option string) (addressData : address_data) (db : DB)
  (address : address_row) :
  ad_is_default addressData = Some true ->
  fst (post_addresses authorization addressData db)
  = mkResponse 201 (BAddress address) ->
  exists user,
    verifyUser authorization db = Some user
    /\ fst (get_addresses authorization
              (snd (post_addresses authorization addressData db)))
       = mkAnswer 200
           (PAddresses
              (address
               :: rev (map clear_default (addresses_of (au_id user) db)))).
Proof.
  intros Hdefault. unfold post_addresses, with_user.
  destruct (verifyUser authorization db) as [user|] eqn:Hauth; [|discriminate].
  rewrite Hdefault. simpl or_else. cbv iota.
  unfold addresses_insert. simpl addresses.
  destruct (ad_name addressData), (ad_street addressData),
    (ad_city addressData), (ad_state addressData),
    (ad_postal_code addressData), (ad_country addressData);
    try discriminate.
  change (has_user (au_id user) (set_addresses ?v db))
    with (has_user (au_id user) db).
  destruct (negb (has_user (au_id user) db)); [discriminate|].
  rewrite Hdefault. simpl fst. simpl snd.
  intros Hanswer. inversion Hanswer as [Haddress]. clear Hanswer.
  exists user. split; [reflexivity|].
  unfold get_addresses.
  rewrite authenticated_passes with (user := user) by exact Hauth.
  simpl fst. do 2 f_equal. unfold list_addresses. simpl addresses.
  apply (@listed_after_new_default (au_id user) (addresses db)); reflexivity.
Qed.

Lemma new_default_address_is_listed_first_witness :
  exists user,
    verifyUser (Some "Bearer tok-alice") sample_db = Some user
    /\ fst (get_addresses (Some "Bearer tok-alice")
              (snd (post_addresses (Some "Bearer tok-alice")
                      (mkAddressData None (Some "Depot") (Some "3 Low Rd")
                         (Some "Springfield") (Some "IL") (Some "62701")
                         (Some "US") (Some true)) sample_db)))
       = mkAnswer 200
           (PAddresses
              (mkAddress 32 1 "Depot" "3 Low Rd" "Springfield" "IL" "62701"
                 "US" true
               :: rev (map clear_default (addresses_of (au_id user)
                                            sample_db)))).
Proof.
  apply (@new_default_address_is_listed_first (Some "Bearer tok-alice")
           (mkAddressData None (Some "Depot") (Some "3 Low Rd")
              (Some "Springfield") (Some "IL") (Some "62701") (Some "US")
              (Some true)) sample_db
           (mkAddress 32 1 "Depot" "3 Low Rd" "Springfield" "IL" "62701" "US"
              true)); reflexivity.
Defined.

(** ** Listing orders *)

Lemma view_order_older (db : DB) (rows : list order_item_row)
  (order : order_row) (db' : DB) :
  order_items db' = order_items db ++ rows ->
  (forall row, In row rows -> oi_order_id row <> o_id order) ->
  view_order order db' = view_order order db.
Proof.
  intros Hitems Hother. unfold view_order. rewrite Hitems, filter_app.
  rewrite (@filter_nil _ (fun i => oi_order_id i =? o_id order) rows).
  - now rewrite app_nil_r.
  - intros row Hrow. apply Nat.eqb_neq. now apply Hother.
Qed.

Lemma newest_first_with_new (uid : uuid) (rows : list order_row)
  (new : order_row) :
  o_user_id new = uid ->
  rev (filter (fun o => o_user_id o =? uid) (rows ++ [new]))
  = new :: rev (filter (fun o => o_user_id o =? uid) rows).
Proof.
  intros Huid. rewrite filter_app. simpl. rewrite Huid, Nat.eqb_refl.
  now rewrite rev_app_distr.
Qed.

(** X23: after [POST /orders] has answered 201, [GET /orders] with the
    same token lists the new order first, pending, with the total and
    exactly the lines of the request, and after it what [GET /orders]
    listed before, unchanged. *)
Theorem placed_order_is_listed_first
  (time : clock) (authorization : option string) (items : list line_item)
  (total : money) (shippingAddress : string) (db : DB) :
  let placed := post_orders time authorization items total shippingAddress db in
  status (fst placed) = 201 ->
  lines_reference_orders db ->
  exists order listed,
    fst (get_orders authorization db) = mkAnswer 200 (POrders listed)
    /\ fst (get_orders authorization (snd placed))
       = mkAnswer 200 (POrders (order :: listed))
    /\ ov_items order = items
    /\ o_total (ov_order order) = total
    /\ o_status (ov_order order) = "pending".
Proof.
  intros placed Hplaced Hrefs. subst placed.
  destruct (post_orders_accepted time authorization items total
              shippingAddress db Hplaced)
    as (user & db1 & Hauth & _ & _ & Houtcome).
  cbv zeta in Houtcome. rewrite Houtcome. simpl snd.
  unfold get_orders.
  rewrite (@authenticated_passes _ _ _ _ Hauth).
  rewrite authenticated_passes with (user := user) by exact Hauth.
  simpl fst. simpl orders.
  erewrite newest_first_with_new by reflexivity. simpl map.
  eexists _, _. split; [reflexivity|]. split.
  - do 2 f_equal. f_equal. apply map_ext_in. intros order Horder.
    apply in_rev, filter_In in Horder. destruct Horder as [Horder _].
    eapply view_order_older; [reflexivity|].
    intros row Hrow. apply in_number in Hrow.
    destruct Hrow as (item & id & _ & ->). simpl.
    apply not_eq_sym, fresh_uuid_new. now apply in_map.
  - unfold view_order. simpl ov_items. simpl ov_order. simpl order_items.
    simpl o_id.
    rewrite lines_of_new_order; try assumption; try reflexivity.
    + rewrite line_of_new_row. repeat split; reflexivity.
    + intros row Hrow. apply in_number in Hrow.
      destruct Hrow as (item & id & _ & ->). reflexivity.
Qed.

Lemma placed_order_is_listed_first_witness :
  let placed := post_orders sample_clock (Some "Bearer tok-alice")
                  [three_widgets; one_gadget] 1750%Z "Home" sample_db in
  exists order listed,
    fst (get_orders (Some "Bearer tok-alice") sample_db)
    = mkAnswer 200 (POrders listed)
    /\ fst (get_orders (Some "Bearer tok-alice") (snd placed))
       = mkAnswer 200 (POrders (order :: listed))
    /\ ov_items order = [three_widgets; one_gadget]
    /\ o_total (ov_order order) = 1750%Z
    /\ o_status (ov_order order) = "pending".
Proof.
  apply (@placed_order_is_listed_first sample_clock (Some "Bearer tok-alice")
           [three_widgets; one_gadget] 1750%Z "Home" sample_db).
  - reflexivity.
  - exact sample_db_lines_reference_orders.
Defined.

(** ** Products and categories *)

Lemma has_product_after_delete (pid other : uuid) (rows : list product_row) :
  other <> pid ->
  existsb (fun p => p_id p =? other)
    (delete_where (fun p => p_id p =? pid) rows)
  = existsb (fun p => p_id p =? other) rows.
Proof.
  intros Hother. unfold delete_where.
  induction rows as [|r rows IH]; simpl; [reflexivity|].
  destruct (p_id r =? pid) eqn:Hr; simpl; rewrite IH; [|reflexivity].
  apply Nat.eqb_eq in Hr.
  replace (p_id r =? other) with false; [reflexivity|].
  symmetry. apply Nat.eqb_neq. congruence.
Qed.

(** X24: [DELETE /products/:id], asked by an administrator.  A product
    that an order line names cannot be deleted: the answer is 400 and
    nothing changes.  A product that no order line names is removed
    together with the cart rows and wishlist rows that name it, the other
    products stay, and every cart row that is left still names a stored
    product; orders and their lines are never touched. *)
Theorem delete_product_and_its_references
  (authorization : option string) (product : uuid) (db : DB)
  (user : auth_user) (row : user_row) :
  verifyUser authorization db = Some user ->
  single (filter (fun u => u_id u =? au_id user) (users db)) = Some row ->
  u_role row = "admin" ->
  let outcome := delete_product authorization product db in
  (has_product product db = true ->
   existsb (fun i => oi_product_id i =? product) (order_items db) = true ->
   code (fst outcome) = 400 /\ snd outcome = db)
  /\ (has_product product db = true ->
      existsb (fun i => oi_product_id i =? product) (order_items db) = false ->
      fst outcome = mkAnswer 200 PSuccess
      /\ has_product product (snd outcome) = false
      /\ (forall p, In p (products (snd outcome))
                    <-> In p (products db) /\ p_id p <> product)
      /\ filter (fun c => ci_product_id c =? product) (cart_items (snd outcome))
         = []
      /\ filter (fun w => w_product_id w =? product)
           (wishlist_items (snd outcome)) = []
      /\ (cart_references_products db ->
          cart_references_products (snd outcome))
      /\ orders (snd outcome) = orders db
      /\ order_items (snd outcome) = order_items db).
Proof.
  intros Hauth Hrow Hrole. cbv zeta. unfold delete_product.
  rewrite (@administrator_passes _ _ _ _ _ Hauth Hrow Hrole).
  unfold products_delete. split.
  - intros Hhas Hordered. rewrite Hhas, Hordered. simpl. now split.
  - intros Hhas Hfree. rewrite Hfree, andb_false_r, Hhas.
    simpl fst. simpl snd.
    split; [reflexivity|]. split; [|split; [|split; [|split; [|split]]]].
    + unfold has_product. simpl products. unfold delete_where.
      apply existsb_none. intros p Hp. apply filter_In in Hp.
      now apply negb_true_iff.
    + intros p. simpl products. unfold delete_where.
      now rewrite filter_In, negb_true_iff, Nat.eqb_neq.
    + simpl cart_items. unfold delete_where. apply filter_filter_none.
      intros r Hr. now rewrite Hr.
    + simpl wishlist_items. unfold delete_where. apply filter_filter_none.
      intros r Hr. now rewrite Hr.
    + unfold cart_references_products, has_product. simpl.
      rewrite !Forall_forall. intros Hrefs c Hc.
      unfold delete_where in Hc. apply filter_In in Hc.
      destruct Hc as [Hc Hother].
      apply negb_true_iff, Nat.eqb_neq in Hother.
      rewrite has_product_after_delete by exact Hother.
      now apply Hrefs.
    + now split.
Qed.

Lemma delete_product_and_its_references_witness :
  (code (fst (delete_product (Some "Bearer tok-root") 10 spare_db)) = 400
   /\ snd (delete_product (Some "Bearer tok-root") 10 spare_db) = spare_db)
  /\ fst (delete_product (Some "Bearer tok-root") 12 spare_db)
     = mkAnswer 200 PSuccess
  /\ has_product 12 (snd (delete_product (Some "Bearer tok-root") 12 spare_db))
     = false.
Proof.
  pose proof (@delete_product_and_its_references (Some "Bearer tok-root") 10
                spare_db root (mkUser 2 "root@example.com" "admin" None None)
                eq_refl eq_refl eq_refl) as [Hordered _].
  pose proof (@delete_product_and_its_references (Some "Bearer tok-root") 12
                spare_db root (mkUser 2 "root@example.com" "admin" None None)
                eq_refl eq_refl eq_refl) as [_ Hfree].
  split; [apply Hordered; reflexivity|].
  destruct (Hfree eq_refl eq_refl) as (Hanswer & Hgone & _).
  now split.
Defined.

Lemma category_label_after_delete (p : product_row) (cid : uuid) (db : DB)
  (rows : list product_row) :
  p_category_id p <> Some cid ->
  category_label p
    (set_products rows
       (set_categories
          (delete_where (fun c => c_id c =? cid) (categories db)) db))
  = category_label p db.
Proof.
  intros Hother. unfold category_label. simpl categories.
  destruct (p_category_id p) as [c|]; [|reflexivity].
  unfold delete_where. rewrite filter_filter_same; [reflexivity|].
  intros r Hr. apply Nat.eqb_eq in Hr. apply negb_true_iff, Nat.eqb_neq.
  congruence.
Qed.

(** X25: [DELETE /categories/:id], asked by an administrator, answers 200
    and removes no product: every product keeps its identifier, name,
    price and stock, the products of the deleted category are shown as
    Uncategorized from then on, and every other product is shown under
    the category it was shown under before. *)
Theorem delete_category_keeps_the_products
  (authorization : option string) (categoryId : uuid) (db : DB)
  (user : auth_user) (row : user_row) :
  verifyUser authorization db = Some user ->
  single (filter (fun u => u_id u =? au_id user) (users db)) = Some row ->
  u_role row = "admin" ->
  let outcome := delete_category authorization categoryId db in
  fst outcome = mkAnswer 200 PSuccess
  /\ map (fun p => (p_id p, p_name p, p_price p, p_stock p))
       (products (snd outcome))
     = map (fun p => (p_id p, p_name p, p_price p, p_stock p)) (products db)
  /\ map (fun p => category_label p (snd outcome)) (products (snd outcome))
     = map (fun p => match p_category_id p with
                     | Some c => if c =? categoryId then "Uncategorized"
                                 else category_label p db
                     | None => category_label p db
                     end) (products db)
  /\ filter (fun c => c_id c =? categoryId) (categories (snd outcome)) = [].
Proof.
  intros Hauth Hrow Hrole. cbv zeta. unfold delete_category.
  rewrite (@administrator_passes _ _ _ _ _ Hauth Hrow Hrole).
  simpl fst. simpl snd. unfold categories_delete.
  split; [reflexivity|]. split; [|split].
  - simpl products. apply map_update_where. reflexivity.
  - simpl products. unfold update_where. rewrite map_map.
    apply map_ext. intros p.
    destruct (p_category_id p) as [c|] eqn:Hcategory.
    + destruct (c =? categoryId) eqn:Hc.
      * reflexivity.
      * apply category_label_after_delete. rewrite Hcategory.
        apply Nat.eqb_neq in Hc. congruence.
    + apply category_label_after_delete. rewrite Hcategory. discriminate.
  - simpl categories. unfold delete_where. apply filter_filter_none.
    intros r Hr. now rewrite Hr.
Qed.

Lemma delete_category_keeps_the_products_witness :
  let outcome := delete_category (Some "Bearer tok-root") 5 sample_db in
  fst outcome = mkAnswer 200 PSuccess
  /\ map (fun p => (p_id p, p_name p, p_price p, p_stock p))
       (products (snd outcome))
     = map (fun p => (p_id p, p_name p, p_price p, p_stock p))
         (products sample_db)
  /\ map (fun p => category_label p (snd outcome)) (products (snd outcome))
     = map (fun p => match p_category_id p with
                     | Some c => if c =? 5 then "Uncategorized"
                                 else category_label p sample_db
                     | None => category_label p sample_db
                     end) (products sample_db)
  /\ filter (fun c => c_id c =? 5) (categories (snd outcome)) = [].
Proof.
  apply (@delete_category_keeps_the_products (Some "Bearer tok-root") 5
           sample_db root (mkUser 2 "root@example.com" "admin" None None));
    reflexivity.
Defined.




(** ** The storefront *)

Lemma valid_status_cases (s : string) :
  valid_status s = true ->
  s = "pending" \/ s = "processing" \/ s = "shipped" \/ s = "delivered"
  \/ s = "cancelled".
Proof.
  unfold valid_status. simpl. rewrite !orb_true_iff, !String.eqb_eq.
  intuition discriminate.
Qed.

Lemma filter_split_length (A : Type) (p q : A -> bool) (rows : list A) :
  (forall r, In r rows -> p r = negb (q r)) ->
  List.length (filter p rows) + List.length (filter q rows)
  = List.length rows.
Proof.
  induction rows as [|r rows IH]; intros Hsplit; [reflexivity|].
  simpl. rewrite (Hsplit r (or_introl eq_refl)).
  assert (Hrest : forall x, In x rows -> p x = negb (q x))
    by (intros x Hx; apply Hsplit; now right).
  specialize (IH Hrest). destruct (q r); simpl; lia.
Qed.

(** X27: the two tabs of the customer's order page split the orders: an
    order whose status is one of the five that the schema allows is shown
    in exactly one of the tabs, so the tabs together show as many orders as
    were fetched and no order is shown in both. *)
Theorem order_tabs_split_the_orders (shown : list order_view) :
  Forall (fun v => valid_status (o_status (ov_order v)) = true) shown ->
  List.length (pendingOrders shown) + List.length (completedOrders shown)
  = List.length shown
  /\ (forall v, In v shown ->
        (In v (pendingOrders shown) /\ ~ In v (completedOrders shown))
        \/ (In v (completedOrders shown) /\ ~ In v (pendingOrders shown))).
Proof.
  intros Hvalid. rewrite Forall_forall in Hvalid.
  assert (Hsplit : forall v, In v shown ->
            existsb (String.eqb (o_status (ov_order v)))
              ["pending"; "processing"; "shipped"]
            = negb (existsb (String.eqb (o_status (ov_order v)))
                      ["delivered"; "cancelled"])).
  { intros v Hin.
    destruct (valid_status_cases _ (Hvalid v Hin)) as [H|[H|[H|[H|H]]]];
      rewrite H; reflexivity. }
  unfold pendingOrders, completedOrders. split.
  - now apply filter_split_length.
  - intros v Hin. rewrite !filter_In, (Hsplit v Hin).
    destruct (existsb (String.eqb (o_status (ov_order v)))
                ["delivered"; "cancelled"]); simpl; [right|left];
      (split; [now split|intros [_ Hno]; discriminate]).
Qed.

Lemma order_tabs_split_the_orders_witness :
  let shown := map (fun o => view_order o sample_db) (orders sample_db) in
  List.length (pendingOrders shown) + List.length (completedOrders shown)
  = List.length shown
  /\ (forall v, In v shown ->
        (In v (pendingOrders shown) /\ ~ In v (completedOrders shown))
        \/ (In v (completedOrders shown) /\ ~ In v (pendingOrders shown))).
Proof.
  apply (@order_tabs_split_the_orders
           (map (fun o => view_order o sample_db) (orders sample_db))).
  simpl. repeat constructor.
Defined.

Lemma select_quantity_bounds (stock current : Z) (event : selector_event) :
  (1 <= stock)%Z -> (1 <= current <= stock)%Z ->
  (1 <= select_quantity stock current event <= stock)%Z.
Proof.
  intros Hstock Hcurrent. destruct event as [| |[n|]]; simpl;
    try destruct (n =? 0)%Z; lia.
Qed.

(** X28: the quantity selector of the product page, which is shown only
    for a product in stock, keeps the quantity between 1 and the stock of
    the product through any sequence of presses of minus and plus and of
    typed entries, whether they parse as a number or not. *)
Theorem selected_quantity_within_stock (stock : Z)
  (events : list selector_event) :
  (0 < stock)%Z ->
  (1 <= selected_quantity stock events <= stock)%Z.
Proof.
  intros Hstock. unfold selected_quantity.
  assert (Hfrom : forall current, (1 <= current <= stock)%Z ->
            (1 <= fold_left (select_quantity stock) events current
             <= stock)%Z).
  { induction events as [|event rest IH]; simpl; intros current Hcurrent.
    - exact Hcurrent.
    - apply IH. apply select_quantity_bounds; [lia|exact Hcurrent]. }
  apply Hfrom. lia.
Qed.

Lemma selected_quantity_within_stock_witness :
  (1 <= selected_quantity 5
          [Plus; Plus; Typed (Some 40%Z); Plus; Minus; Typed None;
           Typed (Some (-3)%Z); Minus] <= 5)%Z.
Proof.
  apply (@selected_quantity_within_stock 5%Z). lia.
Defined.

(** ** The two listings of orders *)

Lemma filter_of_views (db : DB) (p : order_row -> bool)
  (rows : list order_row) :
  filter (fun v => p (ov_order v)) (map (fun o => view_order o db) rows)
  = map (fun o => view_order o db) (filter p rows).
Proof.
  induction rows as [|o rows IH]; simpl; [reflexivity|].
  destruct (p o); simpl; now rewrite IH.
Qed.

Lemma rev_filter (A : Type) (p : A -> bool) (rows : list A) :
  rev (filter p rows) = filter p (rev rows).
Proof.
  induction rows as [|r rows IH]; simpl; [reflexivity|].
  rewrite filter_app, <- IH. simpl.
  destruct (p r); simpl; [reflexivity|now rewrite app_nil_r].
Qed.

(** X29: [GET /orders] shows a caller exactly the caller's own part of
    what [GET /admin/orders] shows an administrator: the entries of the
    administrator's listing whose order belongs to the caller, in the same
    order and with the same lines; the administrator's listing holds every
    stored order, newest first. *)
Theorem get_orders_is_the_callers_part
  (authorization authorization' : option string) (db : DB)
  (user admin : auth_user) (row : user_row) :
  verifyUser authorization db = Some user ->
  verifyUser authorization' db = Some admin ->
  single (filter (fun u => u_id u =? au_id admin) (users db)) = Some row ->
  u_role row = "admin" ->
  exists all,
    get_admin_orders authorization' db = (mkAnswer 200 (POrders all), db)
    /\ map ov_order all = rev (orders db)
    /\ get_orders authorization db
       = (mkAnswer 200
            (POrders (filter (fun v => o_user_id (ov_order v) =? au_id user)
                        all)), db).
Proof.
  intros Hauth Hadmin Hrow Hrole.
  unfold get_admin_orders, get_orders.
  rewrite (@administrator_passes _ _ _ _ _ Hadmin Hrow Hrole).
  rewrite (@authenticated_passes _ _ _ _ Hauth).
  eexists. split; [reflexivity|]. split.
  - rewrite map_map. simpl. apply map_id.
  - rewrite (filter_of_views db (fun o => o_user_id o =? au_id user)).
    now rewrite rev_filter.
Qed.

Lemma get_orders_is_the_callers_part_witness :
  exists all,
    get_admin_orders (Some "Bearer tok-root") sample_db
    = (mkAnswer 200 (POrders all), sample_db)
    /\ map ov_order all = rev (orders sample_db)
    /\ get_orders (Some "Bearer tok-bob") sample_db
       = (mkAnswer 200
            (POrders (filter (fun v => o_user_id (ov_order v) =? 3) all)),
          sample_db).
Proof.
  apply (@get_orders_is_the_callers_part (Some "Bearer tok-bob")
           (Some "Bearer tok-root") sample_db (mkAuthUser 3 "bob@example.com")
           root (mkUser 2 "root@example.com" "admin" None None));
    reflexivity.
Defined.

(** ** A new category and its products *)

(** X30: [POST /categories], asked by an administrator, refuses a name
    that a category already carries with 400 and stores nothing.  A new
    name that is not empty is stored with 201, and a product that the
    administrator then posts under that name, with a price between 0 and
    99999999.99 and a stock between 0 and 2147483647, is stored in the new
    category and shown under its name. *)
Theorem new_category_takes_products
  (time : clock) (authorization : option string) (category : string)
  (description : option string) (new_name : string) (new_price : money)
  (stock : Z) (db : DB) (user : auth_user) (row : user_row) :
  verifyUser authorization db = Some user ->
  single (filter (fun u => u_id u =? au_id user) (users db)) = Some row ->
  u_role row = "admin" ->
  let made := post_categories authorization category description db in
  (existsb (fun c => String.eqb (c_name c) category) (categories db) = true ->
   made = (mkAnswer 400 (PError unique_violation), db))
  /\ (existsb (fun c => String.eqb (c_name c) category) (categories db)
      = false ->
      category <> "" ->
      (0 <= new_price <= decimal_max)%Z -> (0 <= stock <= integer_max)%Z ->
      exists stored data,
        made = (mkAnswer 201 (PCategory stored),
                set_categories (categories db ++ [stored]) db)
        /\ c_name stored = category
        /\ fst (post_products time authorization new_name new_price category
                  stock (snd made))
           = mkAnswer 201 (PProduct data category)
        /\ p_category_id data = Some (c_id stored)).
Proof.
  intros Hauth Hrow Hrole. cbv zeta. unfold post_categories.
  rewrite (@administrator_passes _ _ _ _ _ Hauth Hrow Hrole).
  unfold categories_insert. split.
  - intros Htaken. now rewrite Htaken.
  - intros Hfree Hname Hprice Hstock. rewrite Hfree.
    set (stored := mkCategory (fresh_uuid (map c_id (categories db))) category
                     description).
    exists stored.
    eexists. split; [reflexivity|]. split; [reflexivity|].
    simpl snd. unfold post_products.
    rewrite (@administrator_passes authorization
               (set_categories (categories db ++ [stored]) db) user row _
               Hauth Hrow Hrole).
    simpl categories. rewrite filter_app.
    rewrite (filter_existsb_false _ _ Hfree). simpl filter.
    rewrite String.eqb_refl. simpl single. simpl option_map.
    unfold products_insert, parseFloat.
    rewrite in_decimal_within, in_integer_within by assumption.
    simpl negb. simpl orb. cbv iota.
    replace ((new_price <? 0)%Z || (stock <? 0)%Z) with false
      by (symmetry; apply orb_false_iff; split; apply Z.ltb_ge; lia).
    assert (Huser : has_user (au_id user) db = true).
    { apply existsb_exists. exists row. exact (@single_in _ _ _ _ Hrow). }
    change (has_user (au_id user) (set_categories ?v db))
      with (has_user (au_id user) db).
    rewrite Huser. simpl categories. rewrite existsb_app. simpl existsb.
    rewrite Nat.eqb_refl, orb_true_r. simpl.
    unfold category_label. simpl.
    change (fresh_uuid (map c_id (categories db))) with (c_id stored).
    rewrite (@filter_fresh_row _ c_id (categories db) stored stored eq_refl
               eq_refl).
    simpl. apply String.eqb_neq in Hname. rewrite Hname.
    split; reflexivity.
Qed.

Lemma new_category_takes_products_witness :
  post_categories (Some "Bearer tok-root") "Tools" None sample_db
  = (mkAnswer 400 (PError unique_violation), sample_db)
  /\ exists stored data,
       post_categories (Some "Bearer tok-root") "Garden" None sample_db
       = (mkAnswer 201 (PCategory stored),
          set_categories (categories sample_db ++ [stored]) sample_db)
       /\ c_name stored = "Garden"
       /\ fst (post_products sample_clock (Some "Bearer tok-root") "Rake"
                 1200%Z "Garden" 8%Z
                 (snd (post_categories (Some "Bearer tok-root") "Garden" None
                         sample_db)))
          = mkAnswer 201 (PProduct data "Garden")
       /\ p_category_id data = Some (c_id stored).
Proof.
  pose proof (@new_category_takes_products sample_clock
                (Some "Bearer tok-root") "Tools" None "Rake" 1200%Z 8%Z
                sample_db root (mkUser 2 "root@example.com" "admin" None None)
                eq_refl eq_refl eq_refl) as [Htaken _].
  pose proof (@new_category_takes_products sample_clock
                (Some "Bearer tok-root") "Garden" None "Rake" 1200%Z 8%Z
                sample_db root (mkUser 2 "root@example.com" "admin" None None)
                eq_refl eq_refl eq_refl) as [_ Hfree].
  split; [apply Htaken; reflexivity|].
  apply Hfree;
    [reflexivity|discriminate|unfold decimal_max; lia|unfold integer_max; lia].
Defined.
